(** * Lesson generator: content generation and file assembly pipeline

    A shallow embedding of the Python sources

      - [lesson_generator/utils/validation.py]
      - [lesson_generator/models.py]
      - [lesson_generator/content.py]
      - [lesson_generator/quality.py]
      - [lesson_generator/core.py]

    Python [str] values are sequences of Unicode code points; the parts of the
    Unicode character database the interpreter consults for code points
    outside ASCII are a parameter ([UnicodeDB]), the ASCII range is written
    out.  Exceptions and the mutable state of the generator (content cache,
    counters, storage) are threaded explicitly. *)

From Stdlib Require Import NArith ZArith QArith Ascii String List Bool Lia.
From stdpp Require Import base decidable option list gmap.

Local Open Scope N_scope.

(** ** Python strings *)

Module PyStr.

(** A character is a Unicode code point. *)
Definition char := N.
Definition pystr := list N.

(** String literals of the development are written as UTF-8 text and decoded
    to code points. *)
Definition byte_val (a : ascii) : N := N_of_ascii a.

Fixpoint bytes_of_string (s : string) : list N :=
  match s with
  | EmptyString => []
  | String a r => byte_val a :: bytes_of_string r
  end.

Fixpoint utf8_decode (bs : list N) : pystr :=
  match bs with
  | [] => []
  | b :: r =>
    if b <? 128 then b :: utf8_decode r
    else if b <? 224 then
      match r with
      | b1 :: r1 => ((b - 192) * 64 + (b1 - 128)) :: utf8_decode r1
      | _ => [b]
      end
    else if b <? 240 then
      match r with
      | b1 :: b2 :: r2 =>
        ((b - 224) * 4096 + (b1 - 128) * 64 + (b2 - 128)) :: utf8_decode r2
      | _ => [b]
      end
    else
      match r with
      | b1 :: b2 :: b3 :: r3 =>
        ((b - 240) * 262144 + (b1 - 128) * 4096 + (b2 - 128) * 64 + (b3 - 128))
          :: utf8_decode r3
      | _ => [b]
      end
  end.

Definition u (s : string) : pystr := utf8_decode (bytes_of_string s).
Arguments u s%_string.

(** Number of bytes of [s.encode('utf-8')]. *)
Definition utf8_len1 (c : char) : nat :=
  if c <? 128 then 1 else if c <? 2048 then 2 else if c <? 65536 then 3 else 4.
Definition utf8_len (s : pystr) : nat := foldr (fun c n => (utf8_len1 c + n)%nat) 0%nat s.

(** Frequently used characters. *)
Definition c_nl : char := 10.
Definition c_space : char := 32.
Definition c_dquote : char := 34.
Definition c_hyphen : char := 45.
Definition c_dot : char := 46.
Definition c_underscore : char := 95.
Definition dq : pystr := [c_dquote].
Definition dq3 : pystr := [c_dquote; c_dquote; c_dquote].
Definition nl : pystr := [c_nl].

(** *** ASCII classes *)

Definition in_range (lo hi c : N) : bool := (lo <=? c) && (c <=? hi).
Definition ascii_upper (c : char) : bool := in_range 65 90 c.
Definition ascii_lower (c : char) : bool := in_range 97 122 c.
Definition ascii_digit (c : char) : bool := in_range 48 57 c.
Definition ascii_alpha (c : char) : bool := ascii_upper c || ascii_lower c.
(** The regular expression class [[a-z0-9]]. *)
Definition re_az09 (c : char) : bool := ascii_lower c || ascii_digit c.
(** The regular expression classes [[a-z0-9_]] and [[^a-z0-9_]]. *)
Definition re_slug (c : char) : bool := re_az09 c || (c =? c_underscore).
Definition re_slug_other (c : char) : bool := negb (re_slug c).

(** [str.isspace] of one character; also the class [\s] of [re] on [str]
    patterns. *)
Definition py_isspace (c : char) : bool :=
  in_range 9 13 c || in_range 28 32 c || (c =? 133) || (c =? 160) ||
  (c =? 5760) || in_range 8192 8202 c || (c =? 8232) || (c =? 8233) ||
  (c =? 8239) || (c =? 8287) || (c =? 12288).

(** *** The Unicode character database outside ASCII *)

Record UnicodeDB := {
  db_alpha : char -> bool;
  db_decimal : char -> bool;
  db_digit : char -> bool;
  db_numeric : char -> bool;
  db_cased : char -> bool;
  db_case_ignorable : char -> bool;
  db_lower : char -> pystr;   (* full lower-case mapping *)
  db_title : char -> pystr;   (* full title-case mapping *)
  db_xid_start : char -> bool;
  db_xid_continue : char -> bool
}.

(** A database in which no character outside ASCII has any property or case
    mapping; it serves to run the definitions on ASCII text. *)
Definition ascii_db : UnicodeDB := {|
  db_alpha := fun _ => false;
  db_decimal := fun _ => false;
  db_digit := fun _ => false;
  db_numeric := fun _ => false;
  db_cased := fun _ => false;
  db_case_ignorable := fun _ => false;
  db_lower := fun c => [c];
  db_title := fun c => [c];
  db_xid_start := fun _ => false;
  db_xid_continue := fun _ => false
|}.

(** A sample database used to run the definitions on text outside ASCII: it
    knows the Latin-1 letters, the superscript digits and the Greek letters. *)
Definition latin_db : UnicodeDB := {|
  db_alpha := fun c => (c =? 170) || (c =? 181) || (c =? 186) ||
     (in_range 192 255 c && negb (c =? 215) && negb (c =? 247)) ||
     in_range 913 969 c;
  db_decimal := fun _ => false;
  db_digit := fun c => (c =? 178) || (c =? 179) || (c =? 185);
  db_numeric := fun c => (c =? 178) || (c =? 179) || (c =? 185) || in_range 188 190 c;
  db_cased := fun c => (c =? 170) || (c =? 181) || (c =? 186) ||
     (in_range 192 255 c && negb (c =? 215) && negb (c =? 247)) ||
     in_range 913 969 c;
  db_case_ignorable := fun c => (c =? 39) || (c =? 46) || (c =? 58) || (c =? 94) ||
     (c =? 96) || (c =? 168) || (c =? 173) || (c =? 175) || (c =? 180) ||
     (c =? 183) || (c =? 184);
  db_lower := fun c =>
     if in_range 192 222 c && negb (c =? 215) then [c + 32]
     else if in_range 913 937 c then [c + 32] else [c];
  db_title := fun c =>
     if c =? 223 then [83; 115]
     else if c =? 181 then [924]
     else if c =? 255 then [376]
     else if in_range 224 254 c && negb (c =? 247) then [c - 32]
     else if c =? 962 then [931]
     else if in_range 945 969 c then [c - 32] else [c];
  db_xid_start := fun c => (c =? 170) || (c =? 181) || (c =? 186) ||
     (in_range 192 255 c && negb (c =? 215) && negb (c =? 247)) ||
     in_range 913 969 c;
  db_xid_continue := fun c => (c =? 170) || (c =? 181) || (c =? 183) || (c =? 186) ||
     (in_range 192 255 c && negb (c =? 215) && negb (c =? 247)) ||
     in_range 913 969 c
|}.

Section WithDB.
Variable db : UnicodeDB.

Definition py_isalpha (c : char) : bool :=
  if c <? 128 then ascii_alpha c else db_alpha db c.
Definition py_isdecimal (c : char) : bool :=
  if c <? 128 then ascii_digit c else db_decimal db c.
Definition py_isdigit (c : char) : bool :=
  if c <? 128 then ascii_digit c else db_digit db c.
Definition py_isnumeric (c : char) : bool :=
  if c <? 128 then ascii_digit c else db_numeric db c.
(** [c.isalnum()]: alphabetic, decimal, digit or numeric. *)
Definition py_isalnum (c : char) : bool :=
  py_isalpha c || py_isdecimal c || py_isdigit c || py_isnumeric c.
Definition py_iscased (c : char) : bool :=
  if c <? 128 then ascii_alpha c else db_cased db c.

(** Full case mappings of one character. *)
Definition lower_full (c : char) : pystr :=
  if c <? 128 then (if ascii_upper c then [c + 32] else [c]) else db_lower db c.
Definition title_full (c : char) : pystr :=
  if c <? 128 then (if ascii_lower c then [c - 32] else [c]) else db_title db c.

(** XID_Start / XID_Continue, as [str.isidentifier] reads them. *)
Definition xid_start (c : char) : bool :=
  if c <? 128 then ascii_alpha c else db_xid_start db c.
Definition xid_continue (c : char) : bool :=
  if c <? 128 then ascii_alpha c || ascii_digit c || (c =? c_underscore)
  else db_xid_continue db c.

(** [s.isidentifier()]. *)
Definition py_isidentifier (s : pystr) : bool :=
  match s with
  | [] => false
  | c :: r => (xid_start c || (c =? c_underscore)) && forallb xid_continue r
  end.

(** The final-sigma rule of [str.lower]: a capital sigma that follows a cased
    letter (case-ignorable characters skipped) and is not followed by one
    becomes a final small sigma.  [before] is the text to the left of the
    sigma, nearest character first. *)
Fixpoint skip_ignorable_cased (s : pystr) : bool :=
  match s with
  | [] => false
  | c :: r => if db_case_ignorable db c then skip_ignorable_cased r else py_iscased c
  end.

Definition lower_sigma (before after : pystr) : char :=
  if skip_ignorable_cased before && negb (skip_ignorable_cased after)
  then 962 else 963.

Fixpoint lower_from (before : pystr) (s : pystr) : pystr :=
  match s with
  | [] => []
  | c :: r =>
    (if c =? 931 then [lower_sigma before r] else lower_full c)
      ++ lower_from (c :: before) r
  end.

(** [s.lower()]. *)
Definition py_lower (s : pystr) : pystr := lower_from [] s.

(** [s.title()]: the first cased character of every word in title case, the
    rest in lower case. *)
Fixpoint title_from (before : pystr) (prev_cased : bool) (s : pystr) : pystr :=
  match s with
  | [] => []
  | c :: r =>
    (if prev_cased
     then (if c =? 931 then [lower_sigma before r] else lower_full c)
     else title_full c)
      ++ title_from (c :: before) (py_iscased c) r
  end.
Definition py_title (s : pystr) : pystr := title_from [] false s.

End WithDB.

(** *** Operations that do not depend on the database *)

(** [s.strip()] and [s.strip(chars)]. *)
Fixpoint lstrip_by (p : char -> bool) (s : pystr) : pystr :=
  match s with
  | [] => []
  | c :: r => if p c then lstrip_by p r else s
  end.
Definition rstrip_by (p : char -> bool) (s : pystr) : pystr :=
  rev (lstrip_by p (rev s)).
Definition strip_by (p : char -> bool) (s : pystr) : pystr :=
  rstrip_by p (lstrip_by p s).
Definition py_strip (s : pystr) : pystr := strip_by py_isspace s.
Definition char_in (chars : pystr) (c : char) : bool := existsb (N.eqb c) chars.
Definition py_strip_chars (chars s : pystr) : pystr := strip_by (char_in chars) s.

(** [s.startswith(p)], [s.endswith(p)]. *)
Fixpoint startswith (p s : pystr) : bool :=
  match p, s with
  | [], _ => true
  | a :: p', b :: s' => (a =? b) && startswith p' s'
  | _ :: _, [] => false
  end.
Definition endswith (p s : pystr) : bool := startswith (rev p) (rev s).

(** [p in s] for a non-empty [p]. *)
Fixpoint contains (p s : pystr) : bool :=
  match s with
  | [] => match p with [] => true | _ => false end
  | _ :: r => startswith p s || contains p r
  end.

(** [s.count(p)] for a non-empty [p]: occurrences that do not overlap, read
    from the left.  [skip] characters of a match already counted are jumped
    over. *)
Fixpoint count_from (p : pystr) (skip : nat) (s : pystr) : nat :=
  match s with
  | [] => 0%nat
  | _ :: r =>
    match skip with
    | S k => count_from p k r
    | O => if startswith p s then S (count_from p (Nat.pred (length p)) r)
           else count_from p 0%nat r
    end
  end.
Definition py_count (p s : pystr) : nat := count_from p 0%nat s.

(** [s.replace(old, new)] and [s.replace(old, new, 1)] for a non-empty
    [old]. *)
Fixpoint replace_from (old new : pystr) (budget : option nat) (skip : nat) (s : pystr) : pystr :=
  match s with
  | [] => []
  | c :: r =>
    match skip with
    | S k => replace_from old new budget k r
    | O =>
      let may := match budget with Some O => false | _ => true end in
      if may && startswith old s
      then new ++ replace_from old new (option_map Nat.pred budget) (Nat.pred (length old)) r
      else c :: replace_from old new budget 0%nat r
    end
  end.
Definition py_replace (old new s : pystr) : pystr := replace_from old new None 0%nat s.
Definition py_replace_n (old new : pystr) (n : nat) (s : pystr) : pystr :=
  replace_from old new (Some n) 0%nat s.

(** [s.split('\n')]: always at least one piece. *)
Fixpoint split_on (sep : char) (s : pystr) : list pystr :=
  match s with
  | [] => [[]]
  | c :: r =>
    if c =? sep then [] :: split_on sep r
    else match split_on sep r with
         | l :: ls => (c :: l) :: ls
         | [] => [[c]]
         end
  end.

(** [sep.join(pieces)]. *)
Fixpoint join (sep : pystr) (l : list pystr) : pystr :=
  match l with
  | [] => []
  | [x] => x
  | x :: r => x ++ sep ++ join sep r
  end.

(** [str(n)] for a non-negative integer. *)
Definition digit_char (n : nat) : char := 48 + N.of_nat n.
Fixpoint str_of_nat_fuel (fuel n : nat) (acc : pystr) : pystr :=
  match fuel with
  | O => acc
  | S f =>
    let acc' := digit_char (n mod 10) :: acc in
    if (n <? 10)%nat then acc' else str_of_nat_fuel f (n / 10)%nat acc'
  end.
Definition str_of_nat (n : nat) : pystr := str_of_nat_fuel (S n) n [].

(** [re.sub(cls+, rep, s)]: every maximal run of characters of the class is
    replaced by [rep]. *)
Fixpoint sub_runs (cls : char -> bool) (rep : pystr) (in_run : bool) (s : pystr) : pystr :=
  match s with
  | [] => []
  | c :: r =>
    if cls c then (if in_run then [] else rep) ++ sub_runs cls rep true r
    else c :: sub_runs cls rep false r
  end.
Definition re_sub_runs (cls : char -> bool) (rep s : pystr) : pystr :=
  sub_runs cls rep false s.

(** [re.sub(cls, '', s)]: the characters of the class are removed. *)
Definition re_remove (cls : char -> bool) (s : pystr) : pystr :=
  List.filter (fun c => negb (cls c)) s.

(** [re.match(r'^cls+$', s)]: [$] also matches before one final newline. *)
Definition re_match_all (cls : char -> bool) (s : pystr) : bool :=
  let body := match rev s with
              | c :: r => if c =? c_nl then rev r else s
              | [] => s
              end in
  match body with
  | [] => false
  | _ => forallb cls body
  end.

End PyStr.

Import PyStr.

(** ** Exceptions *)

Inductive exn_kind :=
| ValueError | RuntimeError | IndexError | AttributeError | OSError | OtherError.

Record exn := Exn { exn_kind_of : exn_kind; exn_msg : pystr }.

Inductive result (A : Type) :=
| Ok (a : A)
| Raise (e : exn).
Arguments Ok {A} a.
Arguments Raise {A} e.

Definition is_ok {A} (r : result A) : bool :=
  match r with Ok _ => true | Raise _ => false end.

(** ** content.py: class names *)

Module SafeName.
Section WithDB.
Variable db : UnicodeDB.

(** [''.join(c.title() if c.isalnum() else '' for c in topic_name)] *)
Definition alnum_titled (topic_name : pystr) : pystr :=
  flat_map (fun c => if py_isalnum db c then title_full db c else []) topic_name.

(** [ContentGenerator._create_safe_class_name(topic_name, suffix)]. *)
Definition _create_safe_class_name (topic_name suffix : pystr) : pystr :=
  let safe_name := alnum_titled topic_name in
  (* Ensure it doesn't start with a number *)
  let safe_name :=
    match safe_name with
    | c :: _ => if py_isdigit db c then u "Lesson" ++ safe_name else safe_name
    | [] => safe_name
    end in
  let safe_name :=
    match safe_name with
    | [] => u "Assignment"
    | _ => if py_isidentifier db safe_name then safe_name else u "Assignment"
    end in
  safe_name ++ suffix.

End WithDB.
End SafeName.

(** ** core.py: repair of common syntax defects *)

Module SyntaxGuard.

(** One line of the loop of [_fix_common_syntax_issues]; [remaining] is
    [lines[i+1:]], the lines after it as they were before any fix. *)
Definition fix_line (line : pystr) (remaining : list pystr) : pystr :=
  (* Fix invalid class names (remove hyphens) *)
  let line :=
    if startswith (u "class ") (py_strip line) && contains (u "-") line
    then py_replace (u "-") [] line else line in
  (* Fix unclosed docstrings *)
  if contains dq3 line && Nat.eqb (py_count dq3 line) 1
  then
    let has_closing := existsb (contains dq3) remaining in
    if negb has_closing then line ++ nl ++ dq3 else line
  else line.

Fixpoint fix_lines (lines : list pystr) : list pystr :=
  match lines with
  | [] => []
  | line :: remaining => fix_line line remaining :: fix_lines remaining
  end.

(** [LessonGenerator._fix_common_syntax_issues(content, filename)]; the file
    name is only printed. *)
Definition _fix_common_syntax_issues (content : pystr) : pystr :=
  join nl (fix_lines (split_on c_nl content)).

End SyntaxGuard.

(** ** models.py *)

Module Models.

Inductive DifficultyLevel := BEGINNER | INTERMEDIATE | ADVANCED.
Inductive ModuleType := STARTER | ASSIGNMENT | PROJECT | EXTRA.
Inductive CodeComplexity := SIMPLE | MODERATE | COMPLEX.

#[global] Instance DifficultyLevel_eq_dec : EqDecision DifficultyLevel.
Proof. solve_decision. Defined.
#[global] Instance ModuleType_eq_dec : EqDecision ModuleType.
Proof. solve_decision. Defined.
#[global] Instance CodeComplexity_eq_dec : EqDecision CodeComplexity.
Proof. solve_decision. Defined.

(** The enumerations mix in [str]: a member compares equal to its value. *)
Definition DifficultyLevel_value (d : DifficultyLevel) : pystr :=
  match d with
  | BEGINNER => u "beginner"
  | INTERMEDIATE => u "intermediate"
  | ADVANCED => u "advanced"
  end.
Definition ModuleType_value (t : ModuleType) : pystr :=
  match t with
  | STARTER => u "starter"
  | ASSIGNMENT => u "assignment"
  | PROJECT => u "project"
  | EXTRA => u "extra"
  end.

(** [str(member)] is the qualified member name. *)
Definition DifficultyLevel_str (d : DifficultyLevel) : pystr :=
  match d with
  | BEGINNER => u "DifficultyLevel.BEGINNER"
  | INTERMEDIATE => u "DifficultyLevel.INTERMEDIATE"
  | ADVANCED => u "DifficultyLevel.ADVANCED"
  end.
Definition ModuleType_str (t : ModuleType) : pystr :=
  match t with
  | STARTER => u "ModuleType.STARTER"
  | ASSIGNMENT => u "ModuleType.ASSIGNMENT"
  | PROJECT => u "ModuleType.PROJECT"
  | EXTRA => u "ModuleType.EXTRA"
  end.

(** What an f-string prints for a member depends on the interpreter version:
    the value (up to 3.10) or the qualified name. *)
Definition DifficultyLevel_format (by_value : bool) (d : DifficultyLevel) : pystr :=
  if by_value then DifficultyLevel_value d else DifficultyLevel_str d.
Definition ModuleType_format (by_value : bool) (t : ModuleType) : pystr :=
  if by_value then ModuleType_value t else ModuleType_str t.

Module ModuleConfig.
Record t := mk {
  name : pystr;
  type : ModuleType;
  focus_areas : list pystr;
  code_complexity : CodeComplexity
}.
End ModuleConfig.

Module TopicConfig.
Record t := mk {
  name : pystr;
  slug : pystr;
  description : pystr;
  difficulty : DifficultyLevel;
  estimated_hours : Q;
  concepts : list pystr;
  learning_objectives : list pystr;
  prerequisites : list pystr;
  modules : list ModuleConfig.t
}.

(** [ModuleType.STARTER in module_types] *)
Definition has_type (ty : ModuleType) (v : list ModuleConfig.t) : bool :=
  existsb (fun m => bool_decide (ModuleConfig.type m = ty)) v.

(** The [modules] validator run when a [TopicConfig] is built. *)
Definition validate_modules (v : list ModuleConfig.t) : result (list ModuleConfig.t) :=
  match v with
  | [] => Raise (Exn ValueError (u "At least 1 module is required"))
  | [_] =>
    (* For single module lessons, only require a starter module *)
    if negb (has_type STARTER v)
    then Raise (Exn ValueError (u "Single module lessons must have a starter module"))
    else Ok v
  | _ =>
    (* For multi-module lessons, require both starter and assignment modules *)
    if negb (has_type STARTER v)
    then Raise (Exn ValueError (u "At least one starter module is required"))
    else if negb (has_type ASSIGNMENT v)
    then Raise (Exn ValueError (u "Multi-module lessons need at least one assignment module"))
    else Ok v
  end.
End TopicConfig.

Record ValidationResult := {
  vr_file_path : option pystr;
  is_valid : bool;
  errors : list pystr;
  warnings : list pystr;
  suggestions : list pystr
}.

Record GeneratedFile := {
  gf_path : pystr;
  gf_content : pystr;
  file_type : pystr;
  size_bytes : nat
}.

Record ContentGenerationRequest := {
  req_topic : TopicConfig.t;
  req_module : ModuleConfig.t;
  req_content_type : pystr;
  additional_context : gmap pystr pystr
}.

Record ContentGenerationResponse := {
  content : pystr;
  model_used : pystr;
  tokens_used : nat;
  generation_time_seconds : Z;
  success : bool;
  error : option pystr
}.

End Models.

Import Models.

(** ** utils/validation.py *)

Module Validation.
Section WithDB.
Variable db : UnicodeDB.
(** The order in which a [set] built from a list is iterated (it depends on
    the hash seed of the interpreter). *)
Variable set_iter : list pystr -> list pystr.

Definition Qltb (a b : Q) : bool := negb (Qle_bool b a).

(** Positions [i] of [enumerate(l)] at which [p] holds. *)
Fixpoint positions_from {A} (p : A -> bool) (i : nat) (l : list A) : list nat :=
  match l with
  | [] => []
  | x :: r => (if p x then [i] else []) ++ positions_from p (S i) r
  end.

(** [str(l)] of a list of integers. *)
Definition repr_nat_list (l : list nat) : pystr :=
  u "[" ++ join (u ", ") (map str_of_nat l) ++ u "]".

Definition when (b : bool) (msg : pystr) : list pystr := if b then [msg] else [].

Definition count_type (ty : ModuleType) (ms : list ModuleConfig.t) : nat :=
  length (List.filter (fun m => bool_decide (ModuleConfig.type m = ty)) ms).

(** [module_names.count(name)] *)
Definition count_name (name : pystr) (names : list pystr) : nat :=
  length (List.filter (fun n => bool_decide (n = name)) names).

(** [validate_topic(topic)]: the three lists are filled in program order. *)
Definition validate_topic (topic : TopicConfig.t) : ValidationResult :=
  let name := TopicConfig.name topic in
  let slug := TopicConfig.slug topic in
  let description := TopicConfig.description topic in
  let hours := TopicConfig.estimated_hours topic in
  let concepts := TopicConfig.concepts topic in
  let objectives := TopicConfig.learning_objectives topic in
  let modules := TopicConfig.modules topic in
  (* Validate topic name *)
  let e_name :=
    if Nat.eqb (length name) 0 || Nat.eqb (length (py_strip name)) 0
    then [u "Topic name cannot be empty"]
    else when (100 <? length name)%nat (u "Topic name must be 100 characters or less") in
  (* Validate slug format *)
  let e_slug :=
    if Nat.eqb (length slug) 0
    then [u "Topic slug cannot be empty"]
    else when (negb (re_match_all re_slug slug))
           (u "Topic slug must contain only lowercase letters, numbers, and underscores") in
  (* Validate description *)
  let e_description :=
    if Nat.eqb (length description) 0 || (length (py_strip description) <? 10)%nat
    then [u "Topic description must be at least 10 characters"]
    else when (500 <? length description)%nat
           (u "Topic description must be 500 characters or less") in
  (* Validate estimated hours *)
  let e_hours :=
    if Qltb hours (1 # 2) then [u "Estimated hours must be at least 0.5"]
    else when (Qltb 40 hours) (u "Estimated hours must be 40 or less") in
  let w_hours :=
    when (negb (Qltb hours (1 # 2)) && negb (Qltb 40 hours) && Qltb 20 hours)
      (u "Topic with more than 20 hours might be too long for a single lesson") in
  (* Validate concepts *)
  let e_concepts := when (Nat.eqb (length concepts) 0) (u "At least one concept is required") in
  let w_concepts :=
    when (negb (Nat.eqb (length concepts) 0) && (15 <? length concepts)%nat)
      (u "More than 15 concepts might make the lesson unfocused") in
  (* Check for empty concepts *)
  let empty_concepts :=
    positions_from (fun c => Nat.eqb (length (py_strip c)) 0) 0 concepts in
  let e_empty :=
    match empty_concepts with
    | [] => []
    | _ => [u "Empty concepts found at positions: " ++ repr_nat_list empty_concepts]
    end in
  (* Validate learning objectives *)
  let e_objectives :=
    when (length objectives <? 2)%nat (u "At least 2 learning objectives are required") in
  let w_objectives :=
    when (negb (length objectives <? 2)%nat && (10 <? length objectives)%nat)
      (u "More than 10 learning objectives might be overwhelming") in
  (* Check learning objectives quality *)
  let w_short :=
    map (fun i => u "Learning objective " ++ str_of_nat (S i) ++
                  u " is very short - consider adding more detail")
        (positions_from (fun o => (length (py_strip o) <? 10)%nat) 0 objectives) in
  (* Validate modules *)
  let e_modules := when (length modules <? 1)%nat (u "At least 1 module is required") in
  let w_modules :=
    when (negb (length modules <? 1)%nat && (10 <? length modules)%nat)
      (u "More than 10 modules might make the lesson too complex") in
  (* Check module type distribution *)
  let starter_modules := count_type STARTER modules in
  let assignment_modules := count_type ASSIGNMENT modules in
  let nonempty := negb (Nat.eqb (length modules) 0) in
  let e_starter :=
    when (nonempty && Nat.eqb starter_modules 0) (u "At least one starter module is required") in
  let w_starter :=
    when (nonempty && negb (Nat.eqb starter_modules 0) && (2 <? starter_modules)%nat)
      (u "More than 2 starter modules might be excessive") in
  (* For single module lessons, don't require assignment modules *)
  let e_assignment :=
    when (nonempty && (1 <? length modules)%nat && Nat.eqb assignment_modules 0)
      (u "Multi-module lessons need at least one assignment module") in
  (* Check for duplicate module names *)
  let module_names := map (fun m => py_strip (py_lower db (ModuleConfig.name m))) modules in
  let repeated := List.filter (fun n => (1 <? count_name n module_names)%nat) module_names in
  let duplicates := set_iter repeated in
  let e_duplicates :=
    match repeated with
    | [] => []
    | _ => when nonempty (u "Duplicate module names found: " ++ join (u ", ") duplicates)
    end in
  (* Suggestions for improvement *)
  let s_beginner :=
    when (bool_decide (TopicConfig.difficulty topic = BEGINNER) && Qltb 8 hours)
      (u "Consider breaking down beginner topics into smaller lessons") in
  let s_prerequisites :=
    when (Nat.eqb (length (TopicConfig.prerequisites topic)) 0 &&
          negb (bool_decide (TopicConfig.difficulty topic = BEGINNER)))
      (u "Consider adding prerequisites for non-beginner topics") in
  let s_project :=
    when (Nat.eqb (count_type PROJECT modules) 0)
      (u "Consider adding a project module for hands-on practice") in
  let errors := e_name ++ e_slug ++ e_description ++ e_hours ++ e_concepts ++ e_empty ++
                e_objectives ++ e_modules ++ e_starter ++ e_assignment ++ e_duplicates in
  let warnings := w_hours ++ w_concepts ++ w_objectives ++ w_short ++ w_modules ++ w_starter in
  let suggestions := s_beginner ++ s_prerequisites ++ s_project in
  {| vr_file_path := None;
     is_valid := Nat.eqb (length errors) 0;
     errors := errors;
     warnings := warnings;
     suggestions := suggestions |}.

(** The characters refused in a topic name: the angle brackets, the colon,
    the double quote, the slash, the backslash, the bar, the question mark
    and the star. *)
Definition re_invalid_name_char (c : char) : bool :=
  char_in [60; 62; 58; 34; 47; 92; 124; 63; 42] c.

(** [validate_topic_name(name)] *)
Definition validate_topic_name (name : pystr) : result pystr :=
  if Nat.eqb (length name) 0 || Nat.eqb (length (py_strip name)) 0
  then Raise (Exn ValueError (u "Topic name cannot be empty"))
  else
    let normalized := py_strip name in
    if (100 <? length normalized)%nat
    then Raise (Exn ValueError (u "Topic name must be 100 characters or less"))
    (* Check for invalid characters that might cause issues *)
    else if existsb re_invalid_name_char normalized
    then Raise (Exn ValueError (u "Topic name contains invalid characters"))
    else Ok normalized.

(** The class [[\s\-\.]] of the first substitution. *)
Definition slug_separator (c : char) : bool :=
  py_isspace c || (c =? c_hyphen) || (c =? c_dot).

(** [create_slug_from_name(name)]. *)
Definition create_slug_from_name (name : pystr) : result pystr :=
  (* Convert to lowercase *)
  let slug := py_strip (py_lower db name) in
  (* Replace spaces and common separators with underscores *)
  let slug := re_sub_runs slug_separator (u "_") slug in
  (* Remove non-alphanumeric characters except underscores *)
  let slug := re_remove re_slug_other slug in
  (* Remove multiple consecutive underscores *)
  let slug := re_sub_runs (N.eqb c_underscore) (u "_") slug in
  (* Remove leading/trailing underscores *)
  let slug := py_strip_chars (u "_") slug in
  match slug with
  | [] => Raise (Exn ValueError (u "Cannot create valid slug from topic name"))
  | _ => Ok slug
  end.

(** The class [[^a-zA-Z0-9\-]]. *)
Definition re_key_other (c : char) : bool :=
  negb (ascii_alpha c || ascii_digit c || (c =? c_hyphen)).

(** [validate_openai_api_key(api_key)] *)
Definition validate_openai_api_key (api_key : pystr) : result bool :=
  if Nat.eqb (length api_key) 0 || Nat.eqb (length (py_strip api_key)) 0
  then Raise (Exn ValueError (u "OpenAI API key cannot be empty"))
  else
    let key := py_strip api_key in
    (* OpenAI keys typically start with 'sk-' and are 48+ characters *)
    if negb (startswith (u "sk-") key)
    then Raise (Exn ValueError (u "OpenAI API key must start with 'sk-'"))
    else if (length key <? 20)%nat
    then Raise (Exn ValueError (u "OpenAI API key appears to be too short"))
    (* Check for obviously invalid characters *)
    else if existsb re_key_other key
    then Raise (Exn ValueError (u "OpenAI API key contains invalid characters"))
    else Ok true.

(** [l.index(x)] *)
Fixpoint index_of (x : pystr) (l : list pystr) : option nat :=
  match l with
  | [] => None
  | y :: r => if bool_decide (y = x) then Some 0%nat else option_map S (index_of x r)
  end.

Definition difficulty_order : list pystr := [u "beginner"; u "intermediate"; u "advanced"].

(** One turn of the loop of [validate_difficulty_progression]: the warning
    for position [i], if any.  A member of [DifficultyLevel] is looked up in
    [difficulty_order] by its value; [by_value] says how an f-string prints
    it. *)
Definition progression_step (by_value : bool) (difficulties : list DifficultyLevel)
    (warnings : list pystr) (i : nat) : result (list pystr) :=
  match difficulties !! i, difficulties !! (i - 1)%nat with
  | Some current, Some previous =>
    match index_of (DifficultyLevel_value current) difficulty_order,
          index_of (DifficultyLevel_value previous) difficulty_order with
    | Some current_idx, Some previous_idx =>
      if (Z.of_nat current_idx <? Z.of_nat previous_idx - 1)%Z
      then Ok (warnings ++
               [u "Large difficulty drop from '" ++ DifficultyLevel_format by_value previous ++
                u "' to '" ++ DifficultyLevel_format by_value current ++
                u "' between topics " ++ str_of_nat i ++ u " and " ++ str_of_nat (i + 1)])
      else Ok warnings
    | _, _ => Raise (Exn ValueError (u "value is not in list"))
    end
  | _, _ => Raise (Exn IndexError (u "list index out of range"))
  end.

Fixpoint progression_loop (by_value : bool) (difficulties : list DifficultyLevel)
    (warnings : list pystr) (indices : list nat) : result (list pystr) :=
  match indices with
  | [] => Ok warnings
  | i :: r =>
    match progression_step by_value difficulties warnings i with
    | Ok warnings' => progression_loop by_value difficulties warnings' r
    | Raise e => Raise e
    end
  end.

(** [validate_difficulty_progression(topics)] *)
Definition validate_difficulty_progression (by_value : bool) (topics : list TopicConfig.t)
    : result ValidationResult :=
  if (length topics <=? 1)%nat
  then Ok {| vr_file_path := None; is_valid := true; errors := []; warnings := [];
             suggestions := [] |}
  else
    let difficulties := map TopicConfig.difficulty topics in
    (* Find any backward progressions *)
    match progression_loop by_value difficulties []
            (seq 1 (length difficulties - 1)) with
    | Raise e => Raise e
    | Ok warnings =>
      (* Suggest improvements *)
      let suggestions :=
        if forallb (fun d => bool_decide (d = ADVANCED)) difficulties
        then [u "All topics are advanced - consider adding some intermediate topics"]
        else if forallb (fun d => bool_decide (d = BEGINNER)) difficulties
        then [u "All topics are beginner level - consider progression to intermediate"]
        else [] in
      Ok {| vr_file_path := None;
            is_valid := true;  (* Progression warnings don't make the sequence invalid *)
            errors := [];
            warnings := warnings;
            suggestions := suggestions |}
    end.

End WithDB.
End Validation.

(** ** The interpreter and the world outside the program *)

Module Runtime.

(** What the interpreter fixes: the character database, how an f-string
    prints an enumeration member, the iteration order of sets. *)
Record Interp := {
  interp_db : UnicodeDB;
  format_enum_by_value : bool;
  set_iter : list pystr -> list pystr;
  str_float : Q -> pystr       (* [str(x)] of a float *)
}.

(** [OPENAI_CLIENT_TYPE] *)
Inductive ClientType := Modern | Legacy.

(** A chat completion as the two clients deliver it: the choices, each with
    a message whose content may be null, with a bare text, or with neither;
    and the usage record when there is one. *)
Inductive Choice :=
| ChatMessage (content : option pystr)
| TextChoice (text : pystr)
| MalformedChoice.

Record Reply := { choices : list Choice; usage_total_tokens : option nat }.

(** What [ast.parse] raises on a text it refuses. *)
Inductive ParseError :=
| SyntaxErr (lineno : nat) (msg : pystr)
| OtherParseErr (msg : pystr).

(** The arguments from which [_create_template_context] builds the context
    of a template. *)
Record RenderArgs := {
  ra_topic : TopicConfig.t;
  ra_module : ModuleConfig.t;
  ra_content_type : pystr;
  ra_response : ContentGenerationResponse;
  ra_extra_context : gmap pystr pystr
}.

(** The collaborators of the generator.  Every call carries the number of
    effects performed so far, so that two calls with the same arguments may
    be answered differently. *)
Record Env := {
  env_time : nat -> Z;                                   (* time.time() *)
  env_client_type : option ClientType;                   (* OPENAI_CLIENT_TYPE *)
  env_client_init : option exn;                          (* OpenAI(...) raises *)
  env_create_prompt : ContentGenerationRequest -> pystr; (* _create_prompt *)
  env_chat_create :
    nat -> pystr -> pystr -> pystr -> nat -> result Reply;
      (* model, system prompt, user prompt, max_tokens *)
  env_ast_parse : pystr -> option ParseError;   (* ast.parse: the error, if any *)
  env_mkdir : nat -> pystr -> option exn;
  env_write_text : nat -> pystr -> pystr -> option exn;
  env_template_exists : nat -> pystr -> bool;
  env_render_template : nat -> pystr -> RenderArgs -> result pystr;
  env_path_exists : nat -> pystr -> bool;
  env_has_custom_templates : nat -> bool;
  env_extract_templates : nat -> pystr -> option exn;
  env_qa_fault : nat -> option exn         (* scanning the lesson tree raises *)
}.

(** The mutable state: storage, and the cache and counters of the content
    generator. *)
Record State := {
  tick : nat;
  files : gmap pystr pystr;
  dirs : gset pystr;
  _content_cache : gmap pystr ContentGenerationResponse;
  ai_calls : nat;
  cache_hits : nat;
  fallback_calls : nat;
  _current_content_type : option pystr
}.

Definition set_tick (n : nat) (s : State) : State :=
  {| tick := n; files := files s; dirs := dirs s; _content_cache := _content_cache s;
     ai_calls := ai_calls s; cache_hits := cache_hits s;
     fallback_calls := fallback_calls s;
     _current_content_type := _current_content_type s |}.
Definition set_files (f : gmap pystr pystr) (s : State) : State :=
  {| tick := tick s; files := f; dirs := dirs s; _content_cache := _content_cache s;
     ai_calls := ai_calls s; cache_hits := cache_hits s;
     fallback_calls := fallback_calls s;
     _current_content_type := _current_content_type s |}.
Definition set_dirs (d : gset pystr) (s : State) : State :=
  {| tick := tick s; files := files s; dirs := d; _content_cache := _content_cache s;
     ai_calls := ai_calls s; cache_hits := cache_hits s;
     fallback_calls := fallback_calls s;
     _current_content_type := _current_content_type s |}.
Definition set_cache (c : gmap pystr ContentGenerationResponse) (s : State) : State :=
  {| tick := tick s; files := files s; dirs := dirs s; _content_cache := c;
     ai_calls := ai_calls s; cache_hits := cache_hits s;
     fallback_calls := fallback_calls s;
     _current_content_type := _current_content_type s |}.
Definition set_ai_calls (n : nat) (s : State) : State :=
  {| tick := tick s; files := files s; dirs := dirs s; _content_cache := _content_cache s;
     ai_calls := n; cache_hits := cache_hits s;
     fallback_calls := fallback_calls s;
     _current_content_type := _current_content_type s |}.
Definition set_cache_hits (n : nat) (s : State) : State :=
  {| tick := tick s; files := files s; dirs := dirs s; _content_cache := _content_cache s;
     ai_calls := ai_calls s; cache_hits := n;
     fallback_calls := fallback_calls s;
     _current_content_type := _current_content_type s |}.
Definition set_fallback_calls (n : nat) (s : State) : State :=
  {| tick := tick s; files := files s; dirs := dirs s; _content_cache := _content_cache s;
     ai_calls := ai_calls s; cache_hits := cache_hits s;
     fallback_calls := n;
     _current_content_type := _current_content_type s |}.
Definition set_current_content_type (c : option pystr) (s : State) : State :=
  {| tick := tick s; files := files s; dirs := dirs s; _content_cache := _content_cache s;
     ai_calls := ai_calls s; cache_hits := cache_hits s;
     fallback_calls := fallback_calls s;
     _current_content_type := c |}.

Definition initial_state : State :=
  {| tick := 0; files := ∅; dirs := ∅; _content_cache := ∅;
     ai_calls := 0; cache_hits := 0; fallback_calls := 0;
     _current_content_type := None |}.

(** Computations: state passing with exceptions.  The state reached when an
    exception is raised is kept, as in Python. *)
Definition M (A : Type) : Type := State -> State * result A.

Definition ret {A} (a : A) : M A := fun s => (s, Ok a).
Definition raise {A} (e : exn) : M A := fun s => (s, Raise e).
Definition bind {A B} (m : M A) (k : A -> M B) : M B :=
  fun s => match m s with
           | (s', Ok a) => k a s'
           | (s', Raise e) => (s', Raise e)
           end.
(** [try: m  except Exception as e: h e] *)
Definition try_except {A} (m : M A) (h : exn -> M A) : M A :=
  fun s => match m s with
           | (s', Ok a) => (s', Ok a)
           | (s', Raise e) => h e s'
           end.
Definition get_state : M State := fun s => (s, Ok s).
Definition modify (f : State -> State) : M unit := fun s => (f s, Ok tt).
(** An effect: the collaborator is asked at the current tick, which then
    advances. *)
Definition ask {A} (f : nat -> A) : M A :=
  fun s => (set_tick (S (tick s)) s, Ok (f (tick s))).
Definition lift_result {A} (r : result A) : M A :=
  match r with Ok a => ret a | Raise e => raise e end.
Definition lift_fault (o : option exn) : M unit :=
  match o with None => ret tt | Some e => raise e end.

End Runtime.

Import Runtime.

Declare Scope py_scope.
Delimit Scope py_scope with py.
Notation "'let*' x ':=' m 'in' k" := (bind m (fun x => k))
  (at level 10, x name, m at level 100, k at level 200) : py_scope.
Notation "m ';;;' k" := (bind m (fun _ => k))
  (at level 100, k at level 200, right associativity) : py_scope.

(** ** content.py *)

Module Content.

(** The part of [GenerationConfig] the generator reads. *)
Record GenerationConfig := {
  output_dir : pystr;
  use_ai : bool;
  enable_cache : bool;
  openai_api_key : option pystr;
  openai_model : pystr;
  rate_limit_delay : Q;
  reference_lesson_dir : option pystr
}.

(** The attributes [__init__] sets besides the cache and the counters:
    whether a client object is held, and [ai_enabled]. *)
Record ContentGenerator := {
  config : GenerationConfig;
  client : bool;
  ai_enabled : bool
}.

(** Truth value of a string. *)
Definition truthy (s : pystr) : bool := negb (Nat.eqb (length s) 0).
Definition truthy_opt (o : option pystr) : bool :=
  match o with Some s => truthy s | None => false end.

(** [d.get(key, default)] on a dictionary written as a literal. *)
Fixpoint dict_get {A} (d : list (pystr * A)) (key : pystr) (default : A) : A :=
  match d with
  | [] => default
  | (k, v) :: r => if bool_decide (k = key) then v else dict_get r key default
  end.

(** [key in [..]] *)
Definition str_in (key : pystr) (l : list pystr) : bool :=
  existsb (fun k => bool_decide (k = key)) l.

(** *** Fallback texts *)

Section Fallback.
Variable I : Interp.
Abbreviation db := (interp_db I).

Definition _generate_learning_path_fallback (request : ContentGenerationRequest) : pystr :=
  let topic := req_topic request in
  let md := req_module request in
  concat [
    u "# ";
    (ModuleConfig.name md);
    u " - Learning Path

## 🎯 Learning Objectives

By the end of this module, you will understand:
";
    (join nl (map (fun objective => u "- " ++ objective) (TopicConfig.learning_objectives topic)));
    u "

## 🔑 Key Concepts

";
    (join nl (map (fun area => u "- **" ++ py_title db area ++ u "**: Core concept in " ++ py_lower db (TopicConfig.name topic)) (ModuleConfig.focus_areas md)));
    u "

## �️ Step-by-Step Learning Path

Follow this exact sequence for optimal learning:

### 📝 **Step 1: Study the Starter Example**
**File to work with**: `starter_example.py`

**ACTION ITEMS**:
1. **Open and read** `starter_example.py` carefully
2. **Run the code** to see the concepts in action:
   ```bash
   python starter_example.py
   ```
3. **Understand the implementation** - examine how each method demonstrates ";
    (join (u ", ") (ModuleConfig.focus_areas md));
    u " concepts
4. **Review the comments** and docstrings to understand the design decisions

### 🧪 **Step 2: Understand the Tests**
**File to work with**: `test_starter_example.py`

**ACTION ITEMS**:
1. **Read through** `test_starter_example.py` to understand testing approaches
2. **Run the tests** to see how the starter example is validated:
   ```bash
   python -m pytest test_starter_example.py -v
   ```
3. **Analyze test patterns** - notice how different scenarios are tested
4. **Understand test structure** - observe setup, execution, and assertion patterns

### 📝 **Step 3: Write Tests for Assignment A**
**Files to work with**: `assignment_a.py` → `test_assignment_a.py`

**OBJECTIVE**: Practice test-driven learning by writing comprehensive tests

**ACTION ITEMS**:
1. **Study the code** in `assignment_a.py` thoroughly
2. **Analyze the class structure** and method signatures
3. **Write comprehensive tests** in `test_assignment_a.py` to achieve 100% coverage
4. **Test edge cases** and error conditions
5. **Run your tests** to verify they work:
   ```bash
   python -m pytest test_assignment_a.py -v
   ```

### 🚀 **Step 4: Implement Assignment B**
**Files to work with**: `test_assignment_b.py` → `assignment_b.py`

**OBJECTIVE**: Practice implementation by making tests pass

**ACTION ITEMS**:
1. **Study the test requirements** in `test_assignment_b.py`
2. **Understand what needs to be implemented** by reading test expectations
3. **Implement the methods** in `assignment_b.py` to make tests pass
4. **Run tests iteratively** to check progress:
   ```bash
   python -m pytest test_assignment_b.py -v
   ```
5. **Refine your implementation** until all tests pass

### 🎯 **Step 5: Extra Practice**
**File to work with**: `extra_exercises.md`

**ACTION ITEMS**:
1. **Complete the additional exercises** for deeper understanding
2. **Apply concepts** to new scenarios
3. **Challenge yourself** with advanced variations

## ✅ Success Criteria

- [ ] Successfully ran and understood `starter_example.py`
- [ ] Comprehended test patterns in `test_starter_example.py`
- [ ] Achieved 100% test coverage for `assignment_a.py`
- [ ] Made all tests pass in `test_assignment_b.py`
- [ ] Completed extra exercises

**Estimated Time**: ";
    (str_of_nat (match TopicConfig.difficulty topic with BEGINNER => 60 | INTERMEDIATE => 90 | ADVANCED => 120 end));
    u " minutes
"
  ].

Definition _generate_starter_example_fallback (request : ContentGenerationRequest) : pystr :=
  let topic := req_topic request in
  let md := req_module request in
  let class_name := SafeName._create_safe_class_name db (TopicConfig.name topic) (u "Example") in
  concat [
    dq3;
    u "
Starter Example: ";
    (ModuleConfig.name md);
    u "

This example demonstrates ";
    (join (u ", ") (ModuleConfig.focus_areas md));
    u " concepts
in ";
    (py_lower db (TopicConfig.name topic));
    u ".

Learning Objectives:
- Understand ";
    (py_lower db (TopicConfig.name topic));
    u " concepts
- Practice implementation and testing skills
";
    dq3;
    u "

# Starter Example for ";
    (ModuleConfig.name md);
    u "

class ";
    (class_name);
    u ":
    ";
    dq3;
    u "
    Example class for ";
    (ModuleConfig.name md);
    u ".
    
    This is a starter example to demonstrate ";
    (join (u ", ") (ModuleConfig.focus_areas md));
    u " concepts
    in ";
    (py_lower db (TopicConfig.name topic));
    u ".
    Study this code to understand the patterns and techniques used.
    ";
    dq3;
    u "
    
    def __init__(self):
        ";
    dq3;
    u "Initialize the example.";
    dq3;
    u "
        self.data = {}
    
    def example_method(self, param):
        ";
    dq3;
    u "
        Example method demonstrating basic functionality.
        
        Args:
            param: Example parameter
            
        Returns:
            Processed result
        ";
    dq3;
    u "
        # TODO: Add meaningful implementation
        return f";
    dq;
    u "Processed: {param}";
    dq;
    u "
    
    def demonstrate_concept(self):
        ";
    dq3;
    u "Demonstrate the main concept of this module.";
    dq3;
    u "
        # TODO: Add concept demonstration
        print(f";
    dq;
    u "Demonstrating ";
    (match ModuleConfig.focus_areas md with area :: _ => area | [] => u "concepts" end);
    dq;
    u ")

if __name__ == ";
    dq;
    u "__main__";
    dq;
    u ":
    example = ";
    (class_name);
    u "()
    result = example.example_method(";
    dq;
    u "test";
    dq;
    u ")
    print(result)
    example.demonstrate_concept()
"
  ].

Definition _generate_assignment_a_fallback (request : ContentGenerationRequest) : pystr :=
  let topic := req_topic request in
  let md := req_module request in
  let class_name := SafeName._create_safe_class_name db (TopicConfig.name topic) (u "Assignment") in
  concat [
    dq3;
    u "
Assignment A: ";
    (ModuleConfig.name md);
    u "
Students need to write tests to achieve 100% coverage.

Learning Objectives:
- Understand ";
    (py_lower db (TopicConfig.name topic));
    u " concepts
- Practice implementation and testing skills
";
    dq3;
    u "

# Assignment A: ";
    (ModuleConfig.name md);
    u "
# Students need to write tests for this code

class ";
    (class_name);
    u ":
    ";
    dq3;
    u "
    Assignment class for testing practice.
    
    TASK: Write comprehensive tests for this class in test_assignment_a.py
    Focus on:
    - Testing all methods with various inputs
    - Edge cases and error conditions
    - Code coverage of all branches
    ";
    dq3;
    u "
    
    def process_data(self, data):
        ";
    dq3;
    u "Process input data and return result.";
    dq3;
    u "
        if not data:
            return None
        return str(data).upper()
    
    def calculate_result(self, a, b):
        ";
    dq3;
    u "Calculate result from two inputs.";
    dq3;
    u "
        if not isinstance(a, (int, float)) or not isinstance(b, (int, float)):
            raise TypeError(";
    dq;
    u "Inputs must be numbers";
    dq;
    u ")
        return a + b
    
    def validate_input(self, value):
        ";
    dq3;
    u "Validate input and return boolean.";
    dq3;
    u "
        return value is not None and len(str(value)) > 0
"
  ].

Definition _generate_assignment_b_fallback (request : ContentGenerationRequest) : pystr :=
  let topic := req_topic request in
  let md := req_module request in
  let class_name := SafeName._create_safe_class_name db (TopicConfig.name topic) (u "Implementation") in
  concat [
    dq3;
    u "
Assignment B: ";
    (ModuleConfig.name md);
    u "
Students need to implement methods to make tests pass.

Learning Objectives:
- Understand ";
    (py_lower db (TopicConfig.name topic));
    u " concepts
- Practice implementation and testing skills
";
    dq3;
    u "

# Assignment B: ";
    (ModuleConfig.name md);
    u "  
# Students need to implement code to make tests pass

class ";
    (class_name);
    u ":
    ";
    dq3;
    u "
    Implementation class for ";
    (ModuleConfig.name md);
    u ".
    
    TASK: Implement the methods below to make the tests in test_assignment_b.py pass.
    Follow the method signatures and docstrings carefully.
    ";
    dq3;
    u "
    
    def __init__(self):
        ";
    dq3;
    u "Initialize the implementation.";
    dq3;
    u "
        # TODO: Add initialization code
        pass
    
    def required_method(self, param):
        ";
    dq3;
    u "
        Implement this method according to test requirements.
        
        Args:
            param: Input parameter
            
        Returns:
            Expected result based on tests
        ";
    dq3;
    u "
        # TODO: Implement to make tests pass
        raise NotImplementedError(";
    dq;
    u "Implement this method";
    dq;
    u ")
    
    def helper_method(self, data):
        ";
    dq3;
    u "
        Helper method for processing data.
        
        Args:
            data: Data to process
            
        Returns:
            Processed data
        ";
    dq3;
    u "
        # TODO: Implement helper functionality
        raise NotImplementedError(";
    dq;
    u "Implement this method";
    dq;
    u ")
"
  ].

Definition _generate_test_fallback (request : ContentGenerationRequest) : pystr :=
  let topic := req_topic request in
  let md := req_module request in
  concat [
    dq3;
    u "
Tests for ";
    (ModuleConfig.name md);
    u "
";
    dq3;
    u "

import pytest

class TestModule:
    ";
    dq3;
    u "Test cases for the module.";
    dq3;
    u "
    
    def setup_method(self):
        ";
    dq3;
    u "Set up test fixtures.";
    dq3;
    u "
        pass
    
    def test_basic_functionality(self):
        ";
    dq3;
    u "Test basic functionality works.";
    dq3;
    u "
        # TODO: Add meaningful test
        assert True
    
    def test_edge_cases(self):
        ";
    dq3;
    u "Test edge cases.";
    dq3;
    u "
        # TODO: Add edge case tests
        assert True

if __name__ == ";
    dq;
    u "__main__";
    dq;
    u ":
    pytest.main([__file__, ";
    dq;
    u "-v";
    dq;
    u "])
"
  ].

Definition _generate_test_assignment_a_fallback (request : ContentGenerationRequest) : pystr :=
  let topic := req_topic request in
  let md := req_module request in
  concat [
    dq3;
    u "
Assignment A Test Template: ";
    (ModuleConfig.name md);
    u "

STUDENT TASK: Write comprehensive tests for assignment_a.py
Focus on achieving 100% code coverage and testing edge cases.
";
    dq3;
    u "

import pytest
# TODO: Import your classes from assignment_a.py

class TestAssignment:
    ";
    dq3;
    u "
    Test cases for Assignment A.
    
    INSTRUCTIONS:
    1. Import the class from assignment_a.py
    2. Write tests for all methods
    3. Achieve 100% code coverage
    4. Test edge cases and error conditions
    ";
    dq3;
    u "
    
    def setup_method(self):
        ";
    dq3;
    u "Set up test fixtures before each test method.";
    dq3;
    u "
        # TODO: Initialize test objects here
        pass
    
    # TODO: Write your test methods here
    def test_placeholder(self):
        ";
    dq3;
    u "Remove this test once you add real tests.";
    dq3;
    u "
        assert True

if __name__ == ";
    dq;
    u "__main__";
    dq;
    u ":
    pytest.main([__file__, ";
    dq;
    u "-v";
    dq;
    u "])
"
  ].

Definition _generate_test_assignment_b_fallback (request : ContentGenerationRequest) : pystr :=
  let topic := req_topic request in
  let md := req_module request in
  let class_name := py_replace (u " ") [] (ModuleConfig.name md) ++ u "Implementation" in
  concat [
    dq3;
    u "
Assignment B Tests: ";
    (ModuleConfig.name md);
    u "
Students need to implement code to make these tests pass.
";
    dq3;
    u "

import pytest
from assignment_b import ";
    (class_name);
    u "

class Test";
    (class_name);
    u ":
    ";
    dq3;
    u "Tests that student implementation must pass.";
    dq3;
    u "
    
    def setup_method(self):
        ";
    dq3;
    u "Setup test fixture.";
    dq3;
    u "
        self.implementation = ";
    (class_name);
    u "()
    
    def test_required_method_basic(self):
        ";
    dq3;
    u "Test required method with basic input.";
    dq3;
    u "
        result = self.implementation.required_method(";
    dq;
    u "test";
    dq;
    u ")
        assert result is not None
    
    def test_helper_method(self):
        ";
    dq3;
    u "Test helper method functionality.";
    dq3;
    u "
        result = self.implementation.helper_method(";
    dq;
    u "data";
    dq;
    u ")
        assert result is not None

if __name__ == ";
    dq;
    u "__main__";
    dq;
    u ":
    pytest.main([__file__, ";
    dq;
    u "-v";
    dq;
    u "])
"
  ].

Definition _generate_extra_exercises_fallback (request : ContentGenerationRequest) : pystr :=
  let topic := req_topic request in
  let md := req_module request in
  concat [
    u "# Extra Exercises: ";
    (ModuleConfig.name md);
    u "

## 🎯 Objective
Practice and reinforce ";
    (join (u ", ") (ModuleConfig.focus_areas md));
    u " concepts.

## 📚 Focus Areas
";
    (join nl (map (fun area => u "- " ++ py_title db area) (ModuleConfig.focus_areas md)));
    u "

---

## 🚀 Exercise 1: Basic Practice
**Difficulty**: ⭐⭐

Apply the concepts from this module in a simple scenario.

**Task**:
1. Create a simple implementation using the module concepts
2. Write tests for your implementation
3. Ensure all tests pass

---

## 🚀 Exercise 2: Intermediate Challenge
**Difficulty**: ⭐⭐⭐

Extend the concepts to handle more complex scenarios.

**Task**:
1. Design a solution that combines multiple concepts
2. Handle edge cases and errors
3. Write comprehensive tests

---

## 🚀 Exercise 3: Advanced Application
**Difficulty**: ⭐⭐⭐⭐

Create a real-world application using the module concepts.

**Task**:
1. Identify a practical problem to solve
2. Design and implement a complete solution
3. Include documentation and tests
4. Consider performance and maintainability

## 🧪 Testing Your Solutions

Run your exercise tests:
```bash
pytest test_exercise_*.py -v
```

## 📋 Success Criteria

- [ ] Complete all exercises
- [ ] Achieve good test coverage
- [ ] Follow best practices
- [ ] Document your solutions
"
  ].

Definition _generate_generic_fallback (request : ContentGenerationRequest) : pystr :=
  let topic := req_topic request in
  let md := req_module request in
  concat [
    u "# ";
    (py_title db (req_content_type request));
    u ": ";
    (ModuleConfig.name md);
    u "

This is placeholder content for ";
    (req_content_type request);
    u ".

## Module Information
- **Topic**: ";
    (TopicConfig.name topic);
    u "
- **Module**: ";
    (ModuleConfig.name md);
    u "
- **Type**: ";
    (ModuleType_format (format_enum_by_value I) (ModuleConfig.type md));
    u "
- **Focus Areas**: ";
    (join (u ", ") (ModuleConfig.focus_areas md));
    u "
- **Difficulty**: ";
    (DifficultyLevel_format (format_enum_by_value I) (TopicConfig.difficulty topic));
    u "

## TODO
Implement ";
    (req_content_type request);
    u " content for this module.
"
  ].

End Fallback.

(** *** System prompts *)

Definition system_prompt_tests : pystr :=
  u "You are an expert Python programming instructor specializing in test generation. 

CRITICAL REQUIREMENTS:
1. Generate ONLY valid, executable Python code with NO syntax errors
2. ALL strings must be properly quoted and terminated
3. ALL parentheses, brackets, and braces must be balanced
4. ALL indentation must be consistent (4 spaces)
5. NO markdown formatting, comments outside the code, or explanations
6. Verify all imports are correct and match actual file names
7. Double-check all method names match the actual code being tested

Focus on creating comprehensive, syntactically perfect pytest test cases.".

Definition system_prompt_code : pystr :=
  u "You are an expert Python programming instructor. 

CRITICAL REQUIREMENTS:
1. Generate ONLY valid, executable Python code with NO syntax errors
2. ALL strings must be properly quoted and terminated  
3. ALL parentheses, brackets, and braces must be balanced
4. ALL indentation must be consistent (4 spaces)
5. NO markdown formatting, comments outside the code, or explanations
6. Include proper docstrings and meaningful implementations
7. Focus on practical, educational examples with proper error handling

Generate clean, professional Python code that students can learn from.".

Definition system_prompt_prose : pystr :=
  u "You are an expert educational content creator. Generate practical, engaging educational content focused on programming concepts. Use clear explanations and real-world examples.".

(** [_get_system_prompt(content_type)] *)
Definition _get_system_prompt (content_type : pystr) : pystr :=
  if str_in content_type [u "test_starter"; u "test_assignment_a"; u "test_assignment_b"]
  then system_prompt_tests
  else if str_in content_type [u "starter_example"; u "assignment_a"; u "assignment_b"]
  then system_prompt_code
  else system_prompt_prose.

(** [_get_optimal_max_tokens(content_type)] *)
Definition token_limits : list (pystr * nat) :=
  [ (u "starter_example", 800%nat);
    (u "assignment_a", 600%nat);
    (u "assignment_b", 600%nat);
    (u "test_starter", 400%nat);
    (u "test_assignment_a", 400%nat);
    (u "test_assignment_b", 400%nat);
    (u "extra_exercises", 800%nat);
    (u "learning_path", 1200%nat) ].
Definition _get_optimal_max_tokens (content_type : pystr) : nat :=
  dict_get token_limits content_type 600%nat.

Definition optimizations : list (pystr * pystr) :=
  [ (u "starter_example", u "Generate a concise code example with minimal comments. Focus on core functionality only.");
    (u "assignment_a", u "Create a brief assignment with clear objectives. Keep instructions concise.");
    (u "assignment_b", u "Generate a short, focused assignment. Avoid lengthy descriptions.");
    (u "test_starter", u "Write minimal test cases covering key functionality only.");
    (u "test_assignment_a", u "Create essential test cases. Keep test names descriptive but brief.");
    (u "test_assignment_b", u "Generate focused test cases. Prioritize coverage over quantity.");
    (u "extra_exercises", u "List 3-5 concise exercises. Keep descriptions short and actionable.");
    (u "learning_path", u "Create a structured learning guide. Be comprehensive but concise.") ].

(** *** Code blocks of a reply *)

Definition fence : pystr := u "```".

(** The text up to the next fence, and the text after that fence. *)
Fixpoint until_fence (acc : pystr) (s : pystr) : option (pystr * pystr) :=
  match s with
  | [] => None
  | c :: r =>
    if startswith fence s then Some (rev acc, drop 3 s)
    else until_fence (c :: acc) r
  end.

(** [(?:python|py)?\n?] after an opening fence. *)
Definition skip_language (s : pystr) : pystr :=
  let s := if startswith (u "python") s then drop 6 s
           else if startswith (u "py") s then drop 2 s else s in
  if startswith nl s then drop 1 s else s.

(** [re.findall(r'```(?:python|py)?\n?(.*?)```', content, re.DOTALL)] *)
Fixpoint code_blocks (fuel : nat) (s : pystr) : list pystr :=
  match fuel with
  | O => []
  | S fuel' =>
    match until_fence [] s with
    | None => []
    | Some (_, opened) =>
      match until_fence [] (skip_language opened) with
      | None => []
      | Some (block, rest) => block :: code_blocks fuel' rest
      end
    end
  end.

(** [max(matches, key=len)]: the first of the longest. *)
Fixpoint longest (best : pystr) (l : list pystr) : pystr :=
  match l with
  | [] => best
  | x :: r => longest (if (length best <? length x)%nat then x else best) r
  end.

(** [_extract_code_from_markdown(content)] *)
Definition _extract_code_from_markdown (content : pystr) : pystr :=
  match code_blocks (length content) content with
  | [] => content
  | m :: ms => py_strip (longest m ms)
  end.

Section Generator.
Variable I : Interp.
Variable E : Env.
Variable self : ContentGenerator.
Abbreviation db := (interp_db I).
Local Open Scope py_scope.

(** [_create_cache_key(content_type, topic, module_config)] *)
Definition _create_cache_key (content_type : pystr) (topic : TopicConfig.t)
    (module_config : option ModuleConfig.t) : pystr :=
  let module_name :=
    match module_config with Some m => ModuleConfig.name m | None => u "no_module" end in
  let module_type :=
    match module_config with
    | Some m => ModuleType_str (ModuleConfig.type m)
    | None => u "no_type"
    end in
  let key_components :=
    [ content_type;
      py_replace (u " ") (u "_") (py_lower db (TopicConfig.name topic));
      DifficultyLevel_str (TopicConfig.difficulty topic);
      py_replace (u " ") (u "_") (py_lower db module_name);
      module_type ] in
  join (u "|") key_components.

(** [_generate_fallback_content(request, start_time)] *)
Definition content_generators : list (pystr * (ContentGenerationRequest -> pystr)) :=
  [ (u "learning_path", _generate_learning_path_fallback I);
    (u "starter_example", _generate_starter_example_fallback I);
    (u "assignment_a", _generate_assignment_a_fallback I);
    (u "assignment_b", _generate_assignment_b_fallback I);
    (u "test_starter", _generate_test_fallback);
    (u "test_assignment_a", _generate_test_assignment_a_fallback);
    (u "test_assignment_b", _generate_test_assignment_b_fallback);
    (u "extra_exercises", _generate_extra_exercises_fallback I) ].

Definition _generate_fallback_content (request : ContentGenerationRequest)
    (start_time : Z) : M ContentGenerationResponse :=
  let generator :=
    dict_get content_generators (req_content_type request) (_generate_generic_fallback I) in
  let content := generator request in
  let* now := ask (env_time E) in
  ret {| content := content;
         model_used := u "fallback";
         tokens_used := 0;
         generation_time_seconds := (now - start_time)%Z;
         success := true;
         error := None |}.

(** [_optimize_prompt_for_cost(prompt, content_type)] *)
Definition _optimize_prompt_for_cost (prompt content_type : pystr) : M pystr :=
  (* Store content type for model selection *)
  modify (set_current_content_type (Some content_type)) ;;;
  let optimization_prefix :=
    dict_get optimizations content_type (u "Generate concise, focused content.") in
  ret (optimization_prefix ++ nl ++ nl ++ prompt).

(** [_get_cost_optimal_model()] *)
Definition _get_cost_optimal_model : M pystr :=
  let* s := get_state in
  let complex_types := [u "learning_path"; u "project_assignment"] in
  match _current_content_type s with
  | Some ct =>
    if bool_decide (openai_model (config self) = u "gpt-4") && negb (str_in ct complex_types)
    then ret (u "gpt-3.5-turbo")
    else ret (openai_model (config self))
  | None => ret (openai_model (config self))
  end.

(** [time.sleep(delay)] refuses a negative delay. *)
Definition sleep (delay : Q) : M unit :=
  if Validation.Qltb delay 0
  then raise (Exn ValueError (u "sleep length must be non-negative"))
  else ask (fun _ => tt).

(** [response.choices[0]] *)
Definition first_choice (r : Reply) : M Choice :=
  match choices r with
  | c :: _ => ret c
  | [] => raise (Exn IndexError (u "list index out of range"))
  end.

Definition none_has_no_strip {A} : M A :=
  raise (Exn AttributeError (u "'NoneType' object has no attribute 'strip'")).

(** The text of the first choice, as each client shape is read. *)
Definition reply_content (ct : ClientType) (r : Reply) : M pystr :=
  let* choice := first_choice r in
  match ct, choice with
  | _, ChatMessage (Some text) => ret (py_strip text)
  | _, ChatMessage None => none_has_no_strip
  | Modern, TextChoice _ =>
    raise (Exn AttributeError (u "object has no attribute 'message'"))
  | Legacy, TextChoice text => ret (if truthy text then py_strip text else text)
  | _, MalformedChoice => raise (Exn AttributeError (u "object has no attribute 'message'"))
  end.

Definition reply_tokens (r : Reply) : nat :=
  match usage_total_tokens r with Some n => n | None => 0%nat end.

Definition code_content_types : list pystr :=
  [u "starter_example"; u "assignment_a"; u "assignment_b";
   u "test_starter"; u "test_assignment_a"; u "test_assignment_b"].

(** The body of the [try] of [_generate_ai_content]. *)
Definition ai_attempt (request : ContentGenerationRequest) (prompt : pystr)
    (start_time : Z) : M ContentGenerationResponse :=
  let content_type := req_content_type request in
  (* Add rate limiting delay *)
  sleep (rate_limit_delay (config self)) ;;;
  (* Prepare messages *)
  let system := _get_system_prompt content_type in
  let* user := _optimize_prompt_for_cost prompt content_type in
  match env_client_type E with
  | Some ct =>
    let* model := _get_cost_optimal_model in
    let max_tokens := _get_optimal_max_tokens content_type in
    let* answer := ask (fun t => env_chat_create E t model system user max_tokens) in
    let* response := lift_result answer in
    let* content := reply_content ct response in
    let tokens_used := reply_tokens response in
    (* Extract code from markdown blocks if it's Python content *)
    let content :=
      if str_in content_type code_content_types
      then _extract_code_from_markdown content else content in
    let* now := ask (env_time E) in
    ret {| content := content;
           model_used := openai_model (config self);
           tokens_used := tokens_used;
           generation_time_seconds := (now - start_time)%Z;
           success := true;
           error := None |}
  | None => raise (Exn RuntimeError (u "No OpenAI client available"))
  end.

(** [_generate_ai_content(request, start_time)] *)
Definition _generate_ai_content (request : ContentGenerationRequest)
    (start_time : Z) : M ContentGenerationResponse :=
  (* Create appropriate prompt based on content type *)
  let prompt := env_create_prompt E request in
  try_except (ai_attempt request prompt start_time)
    (fun e => _generate_fallback_content request start_time).

(** The module used when [module_config] is [None]. *)
Definition default_module (topic : TopicConfig.t) : ModuleConfig.t :=
  ModuleConfig.mk (TopicConfig.name topic ++ u " Module") STARTER [u "general"] SIMPLE.

(** [generate_content(content_type, topic, module_config, extra_context)] *)
Definition generate_content (content_type : pystr) (topic : TopicConfig.t)
    (module_config : option ModuleConfig.t) (extra_context : option (gmap pystr pystr))
    : M ContentGenerationResponse :=
  let* start_time := ask (env_time E) in
  (* Create cache key for cost optimization *)
  let cache_key := _create_cache_key content_type topic module_config in
  let* s := get_state in
  (* Check cache first to avoid duplicate API calls *)
  match (if enable_cache (config self) then _content_cache s !! cache_key else None) with
  | Some cached_response =>
    modify (fun s => set_cache_hits (S (cache_hits s)) s) ;;;
    ret cached_response
  | None =>
    (* Create generation request *)
    let module_config :=
      match module_config with Some m => m | None => default_module topic end in
    let request :=
      {| req_topic := topic;
         req_module := module_config;
         req_content_type := content_type;
         additional_context := default ∅ extra_context |} in
    (* Generate content using AI or fallback *)
    let* response :=
      if client self && use_ai (config self) && ai_enabled self
      then
        let* response := _generate_ai_content request start_time in
        modify (fun s => set_ai_calls (S (ai_calls s)) s) ;;;
        ret response
      else
        let* response := _generate_fallback_content request start_time in
        modify (fun s => set_fallback_calls (S (fallback_calls s)) s) ;;;
        ret response in
    (* Cache the response for future use *)
    (if enable_cache (config self)
     then modify (fun s => set_cache (<[cache_key := response]> (_content_cache s)) s)
     else ret tt) ;;;
    ret response
  end.

End Generator.

(** [get_generation_stats()]: the counters, their sum and two percentages.
    The program computes the percentages in floating point; they are given
    here as the exact quotients. *)
Record GenerationStats := {
  stats_ai_calls : nat;
  stats_cache_hits : nat;
  stats_fallback_calls : nat;
  total_calls : nat;
  cache_efficiency : Q;
  ai_usage : Q
}.

Definition percentage (part total : nat) : Q :=
  (inject_Z (Z.of_nat part) / inject_Z (Z.of_nat (Nat.max total 1))) * 100.

Definition get_generation_stats (s : State) : GenerationStats :=
  let total_calls := (ai_calls s + cache_hits s + fallback_calls s)%nat in
  {| stats_ai_calls := ai_calls s;
     stats_cache_hits := cache_hits s;
     stats_fallback_calls := fallback_calls s;
     total_calls := total_calls;
     cache_efficiency := percentage (cache_hits s) total_calls;
     ai_usage := percentage (ai_calls s) total_calls |}.

(** [ContentGenerator.__init__(config)]: the client is created when AI is
    asked for, a key is given and a client library was found. *)
Definition ContentGenerator_init (E : Env) (cfg : GenerationConfig) : ContentGenerator :=
  if use_ai cfg && truthy_opt (openai_api_key cfg) && bool_decide (is_Some (env_client_type E))
  then
    match env_client_type E, env_client_init E with
    | Some Modern, Some _ => {| config := cfg; client := false; ai_enabled := false |}
    | _, _ => {| config := cfg; client := true; ai_enabled := true |}
    end
  else {| config := cfg; client := false; ai_enabled := false |}.

End Content.

(** ** quality.py *)

Module Quality.

(** The metrics the score reads, and the file counts beside them
    ([total_lines] is not modelled: nothing reads it). *)
Record Metrics := {
  total_files : nat;
  python_files : nat;
  test_files : nat;
  markdown_files : nat;
  has_readme : bool;
  has_requirements : bool;
  has_makefile : bool;
  module_count : nat
}.

(** The score is a number of tenths: [quality_score = tenths / 10]. *)
Record QualityReport := {
  lesson_path : pystr;
  python_files_valid : bool;
  tests_executable : bool;
  quality_score_tenths : nat;
  issues : list pystr;
  metrics : option Metrics      (* [None] is the empty dictionary *)
}.

(** Paths are strings with [/] between the components. *)
Definition path_join (dir name : pystr) : pystr := dir ++ u "/" ++ name.
Definition basename (p : pystr) : pystr := List.last (split_on 47 p) [].
Definition under (dir p : pystr) : bool := startswith (dir ++ u "/") p.

(** [Path.suffix]: from the last dot of the name, unless the name starts
    or ends with it. *)
Fixpoint suffix_from (name : pystr) (seen : nat) (best : option pystr) : option pystr :=
  match name with
  | [] => best
  | c :: r =>
    suffix_from r (S seen)
      (if (c =? c_dot) && negb (Nat.eqb seen 0) && negb (Nat.eqb (length r) 0)
       then Some name else best)
  end.
Definition path_suffix (p : pystr) : pystr := default [] (suffix_from (basename p) 0 None).

Section WithEnv.
Variable E : Env.
Local Open Scope py_scope.

(** The files below [lesson_path], as [rglob] finds them. *)
Definition tree (fs : gmap pystr pystr) (lesson_path : pystr) : list (pystr * pystr) :=
  List.filter (fun pc => under lesson_path (fst pc)) (map_to_list fs).

(** [_validate_python_syntax]: one verdict for every [*.py] file. *)
Definition _validate_python_syntax (fs : gmap pystr pystr) (lesson_path : pystr) : list bool :=
  map (fun pc => bool_decide (env_ast_parse E (snd pc) = None))
      (List.filter (fun pc => endswith (u ".py") (basename (fst pc))) (tree fs lesson_path)).

(** [_validate_tests]: executable as soon as one [test_*.py] file exists. *)
Definition is_test_file (p : pystr) : bool :=
  startswith (u "test_") (basename p) && endswith (u ".py") (basename p) &&
  (8 <=? length (basename p))%nat.
Definition _validate_tests (fs : gmap pystr pystr) (lesson_path : pystr) : bool :=
  existsb (fun pc => is_test_file (fst pc)) (tree fs lesson_path).

(** [_calculate_quality_metrics] *)
Definition count_if {A} (p : A -> bool) (l : list A) : nat := length (List.filter p l).
Definition is_module_dir (lesson_path d : pystr) : bool :=
  under lesson_path d &&
  bool_decide (d = path_join lesson_path (basename d)) &&
  startswith (u "module_") (basename d).
Definition _calculate_quality_metrics (s : State) (lesson_path : pystr) : Metrics :=
  let t := tree (files s) lesson_path in
  let is_py := fun pc : pystr * pystr => bool_decide (path_suffix (fst pc) = u ".py") in
  {| total_files := length t;
     python_files := count_if is_py t;
     test_files := count_if (fun pc => is_py pc && startswith (u "test_") (basename (fst pc))) t;
     markdown_files := count_if (fun pc => bool_decide (path_suffix (fst pc) = u ".md")) t;
     has_readme := bool_decide (is_Some (files s !! path_join lesson_path (u "README.md")));
     has_requirements :=
       bool_decide (is_Some (files s !! path_join lesson_path (u "requirements.txt")));
     has_makefile := bool_decide (is_Some (files s !! path_join lesson_path (u "Makefile")));
     module_count := count_if (is_module_dir lesson_path) (elements (dirs s)) |}.

(** [report.metrics.get(key, default)] *)
Definition metrics_get {A} (m : option Metrics) (f : Metrics -> A) (d : A) : A :=
  match m with Some x => f x | None => d end.

(** [_calculate_quality_score]: points out of ten.  The ratio of test files
    to Python files is compared with 0.4 and 0.2. *)
Definition _calculate_quality_score (valid executable : bool) (m : option Metrics) : nat :=
  let score := 0%nat in
  (* Python syntax validation (3 points) *)
  let score := if valid then (score + 3)%nat else score in
  (* Test executability (2 points) *)
  let score := if executable then (score + 2)%nat else score in
  (* Required files (3 points) *)
  let score := if metrics_get m has_readme false then (score + 1)%nat else score in
  let score := if metrics_get m has_requirements false then (score + 1)%nat else score in
  let score := if metrics_get m has_makefile false then (score + 1)%nat else score in
  (* File structure quality (2 points) *)
  let py := metrics_get m python_files 0%nat in
  let tests := metrics_get m test_files 0%nat in
  let score :=
    if (0 <? py)%nat && (4 * py <=? 10 * tests)%nat then (score + 2)%nat
    else if (0 <? py)%nat && (2 * py <=? 10 * tests)%nat then (score + 1)%nat
    else score in
  Nat.min score 10.

(** [validate_lesson(lesson_path)] *)
Definition validate_lesson (lesson_path : pystr) : M QualityReport :=
  let* fault := ask (env_qa_fault E) in
  let* s := get_state in
  match fault with
  | Some e =>
    ret {| lesson_path := lesson_path;
           python_files_valid := true;
           tests_executable := true;
           quality_score_tenths := 0;
           issues := [u "Quality validation failed: " ++ exn_msg e];
           metrics := None |}
  | None =>
    (* Validate Python syntax *)
    let valid := forallb id (_validate_python_syntax (files s) lesson_path) in
    (* Check test executability *)
    let executable := _validate_tests (files s) lesson_path in
    (* Calculate quality metrics *)
    let m := Some (_calculate_quality_metrics s lesson_path) in
    ret {| lesson_path := lesson_path;
           python_files_valid := valid;
           tests_executable := executable;
           quality_score_tenths := _calculate_quality_score valid executable m;
           issues := [];
           metrics := m |}
  end.

End WithEnv.

(** [f"{quality_score:.2f}"] *)
Definition format_score (tenths : nat) : pystr :=
  if (10 <=? tenths)%nat then u "1.00"
  else u "0." ++ str_of_nat tenths ++ u "0".

End Quality.

(** ** models.py: results *)

Module ModuleGenerationResult.
Record t := mk {
  module_name : pystr;
  success : bool;
  files : list GeneratedFile;
  error : option pystr;
  generation_time_seconds : Z
}.
Definition file_count (r : t) : nat := length (files r).
Definition total_size_bytes (r : t) : nat :=
  foldr (fun file n => (size_bytes file + n)%nat) 0%nat (files r).
End ModuleGenerationResult.

Module LessonGenerationResult.
Record t := mk {
  topic_name : pystr;
  topic_slug : pystr;
  success : bool;
  output_path : pystr;
  modules : list ModuleGenerationResult.t;
  config_files : list GeneratedFile;
  error : option pystr;
  generation_time_seconds : Z;
  created_at : Z;
  generator_version : pystr;
  ai_model_used : option pystr;
  quality_report : option Quality.QualityReport
}.

Definition with_modules (ms : list ModuleGenerationResult.t) (r : t) : t :=
  mk (topic_name r) (topic_slug r) (success r) (output_path r) ms (config_files r)
     (error r) (generation_time_seconds r) (created_at r) (generator_version r)
     (ai_model_used r) (quality_report r).
Definition with_success (b : bool) (r : t) : t :=
  mk (topic_name r) (topic_slug r) b (output_path r) (modules r) (config_files r)
     (error r) (generation_time_seconds r) (created_at r) (generator_version r)
     (ai_model_used r) (quality_report r).
Definition with_error (e : option pystr) (r : t) : t :=
  mk (topic_name r) (topic_slug r) (success r) (output_path r) (modules r) (config_files r)
     e (generation_time_seconds r) (created_at r) (generator_version r)
     (ai_model_used r) (quality_report r).
Definition with_config_files (fs : list GeneratedFile) (r : t) : t :=
  mk (topic_name r) (topic_slug r) (success r) (output_path r) (modules r) fs
     (error r) (generation_time_seconds r) (created_at r) (generator_version r)
     (ai_model_used r) (quality_report r).
Definition with_quality_report (q : option Quality.QualityReport) (r : t) : t :=
  mk (topic_name r) (topic_slug r) (success r) (output_path r) (modules r) (config_files r)
     (error r) (generation_time_seconds r) (created_at r) (generator_version r)
     (ai_model_used r) q.
Definition with_generation_time (z : Z) (r : t) : t :=
  mk (topic_name r) (topic_slug r) (success r) (output_path r) (modules r) (config_files r)
     (error r) z (created_at r) (generator_version r)
     (ai_model_used r) (quality_report r).

Definition total_modules (r : t) : nat := length (modules r).
Definition successful_modules (r : t) : nat :=
  length (List.filter ModuleGenerationResult.success (modules r)).
Definition total_files (r : t) : nat :=
  (foldr (fun module n => (ModuleGenerationResult.file_count module + n)%nat) 0%nat (modules r)
   + length (config_files r))%nat.
Definition total_size_bytes (r : t) : nat :=
  let modules_size :=
    foldr (fun module n => (ModuleGenerationResult.total_size_bytes module + n)%nat) 0%nat
      (modules r) in
  let config_size := foldr (fun file n => (size_bytes file + n)%nat) 0%nat (config_files r) in
  (modules_size + config_size)%nat.
End LessonGenerationResult.

(** ** core.py *)

Module Core.
Import Content Quality.

(** *** Texts of the lesson-level configuration files *)

Section ConfigTexts.
Variable I : Interp.

Definition _generate_lesson_readme (topic : TopicConfig.t) : pystr :=
  concat [
    u "# ";
    (TopicConfig.name topic);
    u "

";
    (TopicConfig.description topic);
    u "

## Learning Objectives

";
    (join nl (map (fun obj => u "- " ++ obj) (TopicConfig.learning_objectives topic)));
    u "

## Prerequisites

";
    (match TopicConfig.prerequisites topic with [] => u "None" | prerequisites => join nl (map (fun prereq => u "- " ++ prereq) prerequisites) end);
    u "

## Modules

";
    (join nl (imap (fun i md => str_of_nat (S i) ++ u ". " ++ ModuleConfig.name md) (TopicConfig.modules topic)));
    u "

## Getting Started

1. Clone this repository
2. Create a virtual environment: `python -m venv venv`
3. Activate the virtual environment: `source venv/bin/activate` (Linux/Mac) or `venv\Scripts\activate` (Windows)
4. Install dependencies: `pip install -r requirements.txt`
5. Run tests: `pytest`

## Estimated Time

This lesson should take approximately ";
    (str_float I (TopicConfig.estimated_hours topic));
    u " hours to complete.
"
  ].

Definition _generate_requirements_txt : pystr :=
  concat [
    u "pytest>=7.0.0
pytest-cov>=4.0.0
pylint>=2.17.0
black>=23.0.0
"
  ].

Definition _generate_pytest_ini : pystr :=
  concat [
    u "[tool:pytest]
testpaths = .
python_files = test_*.py
python_classes = Test*
python_functions = test_*
addopts = --tb=short --cov=. --cov-report=term-missing
"
  ].

Definition _generate_makefile : pystr :=
  concat [
    u "# Makefile for lesson

.PHONY: test lint format clean install

install:
	pip install -r requirements.txt

test:
	pytest

lint:
	pylint **/*.py

format:
	black **/*.py

clean:
	find . -type d -name ";
    dq;
    u "__pycache__";
    dq;
    u " -delete
	find . -type f -name ";
    dq;
    u "*.pyc";
    dq;
    u " -delete
	rm -rf .pytest_cache
	rm -rf .coverage
"
  ].

Definition _generate_setup_cfg : pystr :=
  concat [
    u "[pylint]
disable = missing-docstring,too-few-public-methods

[coverage:run]
source = .
omit = test_*, *_test.py

[coverage:report]
exclude_lines =
    pragma: no cover
    def __repr__
    raise AssertionError
    raise NotImplementedError
"
  ].

Definition _generate_gitignore : pystr :=
  concat [
    u "# Python
__pycache__/
*.py[cod]
*$py.class
*.so
.Python
build/
develop-eggs/
dist/
downloads/
eggs/
.eggs/
lib/
lib64/
parts/
sdist/
var/
wheels/
*.egg-info/
.installed.cfg
*.egg

# Testing
.pytest_cache/
.coverage
htmlcov/
.tox/

# IDEs
.vscode/
.idea/
*.swp
*.swo

# OS
.DS_Store
Thumbs.db
"
  ].

End ConfigTexts.

Section LessonGenerator.
Variable I : Interp.
Variable E : Env.
(** [self.config] *)
Variable config : GenerationConfig.
Abbreviation db := (interp_db I).
Local Open Scope py_scope.

(** [self.content_generator], built by [__init__]. *)
Definition content_generator : ContentGenerator := ContentGenerator_init E config.

(** Storage: [Path.mkdir(parents=True, exist_ok=True)] and
    [Path.write_text(content, encoding='utf-8')]. *)
Definition mkdir (p : pystr) : M unit :=
  let* fault := ask (fun t => env_mkdir E t p) in
  match fault with
  | Some e => raise e
  | None => modify (fun s => set_dirs ({[p]} ∪ dirs s) s)
  end.

Definition write_text (p content : pystr) : M unit :=
  let* fault := ask (fun t => env_write_text E t p content) in
  match fault with
  | Some e => raise e
  | None => modify (fun s => set_files (<[p := content]> (files s)) s)
  end.

(** [LessonGenerator.__init__]: ensure the output directory exists. *)
Definition LessonGenerator_init : M unit := mkdir (output_dir config).

(** [_validate_python_syntax(content, filename)] *)
Definition _validate_python_syntax (content filename : pystr) : bool * pystr :=
  match env_ast_parse E content with
  | None => (true, [])
  | Some (SyntaxErr lineno msg) =>
    (false, u "Syntax error in " ++ filename ++ u " at line " ++ str_of_nat lineno ++
            u ": " ++ msg)
  | Some (OtherParseErr msg) =>
    (false, u "Parse error in " ++ filename ++ u ": " ++ msg)
  end.

Definition _fix_common_syntax_issues (content filename : pystr) : pystr :=
  SyntaxGuard._fix_common_syntax_issues content.

(** [GeneratedFile(path=.., content=.., file_type=.., size_bytes=..)] *)
Definition generated_file (path content file_type : pystr) : GeneratedFile :=
  {| gf_path := path; gf_content := content; file_type := file_type;
     size_bytes := utf8_len content |}.

Definition file_type_of (filename : pystr) : pystr :=
  if endswith (u ".py") filename then u "python" else u "markdown".

(** The files of a standard module with their content types and templates,
    in the order of the dictionary. *)
Definition files_to_generate : list (pystr * (pystr * pystr)) :=
  [ (u "learning_path.md", (u "learning_path", u "learning_path.md.j2"));
    (u "starter_example.py", (u "starter_example", u "assignment.py.j2"));
    (u "test_starter_example.py", (u "test_starter", u "test_template.py.j2"));
    (u "assignment_a.py", (u "assignment_a", u "assignment.py.j2"));
    (u "test_assignment_a.py", (u "test_assignment_a", u "test_template.py.j2"));
    (u "assignment_b.py", (u "assignment_b", u "assignment.py.j2"));
    (u "test_assignment_b.py", (u "test_assignment_b", u "test_template.py.j2"));
    (u "extra_exercises.md", (u "extra_exercises", u "extra_exercises.md.j2")) ].

(** [m] run under a [try]: its exception, or its value. *)
Definition attempt {A} (m : M A) : M (exn + A) :=
  try_except (let* a := m in ret (inr a)) (fun e => ret (inl e)).

Fixpoint for_each {A B} (body : B -> A -> M B) (l : list A) (acc : B) : M B :=
  match l with
  | [] => ret acc
  | x :: r => let* acc' := body acc x in for_each body r acc'
  end.

Section StandardModule.
Variable topic : TopicConfig.t.
Variable module_config : ModuleConfig.t.
Variable module_dir : pystr.

(** The [try] block of the loop up to the syntax check: the content of the
    file. *)
Definition file_content (generated_content : gmap pystr pystr)
    (filename content_type template_name : pystr) : M pystr :=
  (* For test files, include the corresponding code file content as context *)
  let extra_context : gmap pystr pystr :=
    if startswith (u "test_") filename
    then
      (* Get the corresponding code file *)
      let code_file := py_replace_n (u "test_") [] 1 filename in
      match generated_content !! code_file with
      | Some code => {[ u "code_to_test" := code ]}
      | None => ∅
      end
    else ∅ in
  (* Generate content using AI or fallback *)
  let* content_response :=
    generate_content I E content_generator content_type topic (Some module_config)
      (Some extra_context) in
  (* Prepare template context *)
  let context :=
    {| ra_topic := topic; ra_module := module_config; ra_content_type := content_type;
       ra_response := content_response; ra_extra_context := extra_context |} in
  let from_ai := negb (bool_decide (model_used content_response = u "fallback")) in
  (* Determine content source based on type and AI availability *)
  let* content :=
    if endswith (u ".md") filename && from_ai
    then ret (content content_response)
    else if (startswith (u "assignment_") filename || startswith (u "starter_") filename)
            && from_ai
    then ret (content content_response)
    else if startswith (u "test_") filename
            && truthy_opt (extra_context !! u "code_to_test") && from_ai
    then ret (content content_response)
    else
      let* found := ask (fun t => env_template_exists E t template_name) in
      if found
      then
        let* rendered := ask (fun t => env_render_template E t template_name context) in
        lift_result rendered
      else ret (content content_response) in
  (* Validate Python syntax before writing *)
  if endswith (u ".py") filename
  then
    if fst (_validate_python_syntax content filename) then ret content
    else
      (* Try to fix common issues *)
      ret (_fix_common_syntax_issues content filename)
  else ret content.

(** The text of the minimal file written by the [except] block. *)
Definition placeholder_content (filename : pystr) (e : exn) : pystr :=
  let fallback_content :=
    u "# " ++ filename ++ nl ++ nl ++ u "# Error generating content: " ++ exn_msg e ++ nl ++
    u "# TODO: Implement " ++ filename ++ u " for " ++ ModuleConfig.name module_config ++ nl in
  (* Validate fallback content too if it's Python *)
  if endswith (u ".py") filename && negb (fst (_validate_python_syntax fallback_content filename))
  then dq3 ++ nl ++ filename ++ nl ++ nl ++ u "Error generating content: " ++ exn_msg e ++ nl ++
       u "TODO: Implement " ++ filename ++ u " for " ++ ModuleConfig.name module_config ++ nl ++
       dq3 ++ nl ++ nl ++ u "pass" ++ nl
  else fallback_content.

(** The [except] block: create a minimal fallback file. *)
Definition write_placeholder (filename : pystr) (e : exn) : M GeneratedFile :=
  let fallback_content := placeholder_content filename e in
  let file_path := path_join module_dir filename in
  write_text file_path fallback_content ;;;
  ret (generated_file file_path fallback_content (file_type_of filename)).

(** One turn of the loop.  [generated_content] and [result.files] are local
    objects: what the [try] block did to them before it raised stays. *)
Definition generate_file (acc : gmap pystr pystr * list GeneratedFile)
    (entry : pystr * (pystr * pystr)) : M (gmap pystr pystr * list GeneratedFile) :=
  let '(generated_content, result_files) := acc in
  let '(filename, (content_type, template_name)) := entry in
  let* made := attempt (file_content generated_content filename content_type template_name) in
  match made with
  | inl e =>
    let* f := write_placeholder filename e in
    ret (generated_content, result_files ++ [f])
  | inr content =>
    (* Store generated content for contextual generation of related files *)
    let generated_content := <[filename := content]> generated_content in
    let file_path := path_join module_dir filename in
    let* written := attempt (write_text file_path content) in
    match written with
    | inl e =>
      let* f := write_placeholder filename e in
      ret (generated_content, result_files ++ [f])
    | inr _ =>
      ret (generated_content,
           result_files ++ [generated_file file_path content (file_type_of filename)])
    end
  end.

(** [_generate_standard_module_files]: the files appended to the result. *)
Definition _generate_standard_module_files : M (list GeneratedFile) :=
  let* acc := for_each generate_file files_to_generate (∅, []) in
  ret (snd acc).

(** [_generate_extra_module_files] *)
Definition _generate_extra_module_files : M (list GeneratedFile) :=
  let file_path := path_join module_dir (u "extra_exercises.md") in
  let content :=
    u "# Extra Exercises: " ++ ModuleConfig.name module_config ++ nl ++ nl ++
    u "# TODO: Implement extra exercises" ++ nl in
  write_text file_path content ;;;
  ret [generated_file file_path content (u "markdown")].

End StandardModule.

(** [_generate_module(topic, module_config, lesson_dir)] *)
Definition module_dir_of (lesson_dir : pystr) (module_config : ModuleConfig.t) : pystr :=
  let module_name := py_replace (u " ") (u "_") (py_lower db (ModuleConfig.name module_config)) in
  path_join lesson_dir (u "module_" ++ module_name).

Definition _generate_module (topic : TopicConfig.t) (module_config : ModuleConfig.t)
    (lesson_dir : pystr) : M ModuleGenerationResult.t :=
  let* start_time := ask (env_time E) in
  try_except
    ((* Create module directory *)
     let module_dir := module_dir_of lesson_dir module_config in
     mkdir module_dir ;;;
     (* Generate module files based on type *)
     let* result_files :=
       match ModuleConfig.type module_config with
       | STARTER | ASSIGNMENT | PROJECT =>
         _generate_standard_module_files topic module_config module_dir
       | EXTRA => _generate_extra_module_files module_config module_dir
       end in
     let* now := ask (env_time E) in
     ret (ModuleGenerationResult.mk (ModuleConfig.name module_config) true result_files None
            (now - start_time)%Z))
    (fun e =>
     let* now := ask (env_time E) in
     ret (ModuleGenerationResult.mk (ModuleConfig.name module_config) false []
            (Some (exn_msg e)) (now - start_time)%Z)).

(** [_generate_lesson_config_files]: the files appended to
    [result.config_files]. *)
Definition config_files_of (topic : TopicConfig.t) : list (pystr * pystr) :=
  [ (u "README.md", _generate_lesson_readme I topic);
    (u "requirements.txt", _generate_requirements_txt);
    (u "pytest.ini", _generate_pytest_ini);
    (u "Makefile", _generate_makefile);
    (u "setup.cfg", _generate_setup_cfg);
    (u ".gitignore", _generate_gitignore) ].

Definition _generate_lesson_config_files (topic : TopicConfig.t) (lesson_dir : pystr)
    : M (list GeneratedFile) :=
  for_each
    (fun acc entry =>
       let file_path := path_join lesson_dir (fst entry) in
       write_text file_path (snd entry) ;;;
       ret (acc ++ [generated_file file_path (snd entry) (u "text")]))
    (config_files_of topic) [].

(** The template source is resolved before the lesson directory is made:
    templates are extracted from the reference lesson when there is one and
    no custom templates override it; a failure is not fatal. *)
Definition resolve_templates : M unit :=
  match reference_lesson_dir config with
  | Some reference =>
    let* there := ask (fun t => env_path_exists E t reference) in
    if there
    then
      let* custom := ask (env_has_custom_templates E) in
      if negb custom
      then try_except
             (let* fault := ask (fun t => env_extract_templates E t reference) in
              lift_fault fault)
             (fun _ => ret tt)
      else ret tt
    else ret tt
  | None => ret tt
  end.

(** One turn of the loop over the modules. *)
Definition add_module (topic : TopicConfig.t) (lesson_dir : pystr)
    (result : LessonGenerationResult.t) (module_config : ModuleConfig.t)
    : M LessonGenerationResult.t :=
  let* module_result := _generate_module topic module_config lesson_dir in
  let result :=
    LessonGenerationResult.with_modules
      (LessonGenerationResult.modules result ++ [module_result]) result in
  if negb (ModuleGenerationResult.success module_result)
  then
    let result := LessonGenerationResult.with_success false result in
    match LessonGenerationResult.error result with
    | Some msg =>
      if truthy msg then ret result
      else ret (LessonGenerationResult.with_error
                  (Some (u "Failed to generate module: " ++ ModuleConfig.name module_config))
                  result)
    | None =>
      ret (LessonGenerationResult.with_error
             (Some (u "Failed to generate module: " ++ ModuleConfig.name module_config))
             result)
    end
  else ret result.

(** The quality gate. *)
Definition quality_gate (lesson_dir : pystr) (result : LessonGenerationResult.t)
    : M LessonGenerationResult.t :=
  let* quality_report := validate_lesson E lesson_dir in
  let result := LessonGenerationResult.with_quality_report (Some quality_report) result in
  (* Mark as failed if quality is too low *)
  if (quality_score_tenths quality_report <? 5)%nat
  then
    ret (LessonGenerationResult.with_error
           (Some (u "Quality score too low: " ++
                  format_score (quality_score_tenths quality_report)))
           (LessonGenerationResult.with_success false result))
  else ret result.

(** [generate_lesson(topic)] *)
Definition generate_lesson (topic : TopicConfig.t) : M LessonGenerationResult.t :=
  let* start_time := ask (env_time E) in
  try_except
    ((* Validate topic configuration *)
     let validation_result := Validation.validate_topic db (set_iter I) topic in
     if negb (is_valid validation_result)
     then
       let* created := ask (env_time E) in
       ret (LessonGenerationResult.mk (TopicConfig.name topic) (TopicConfig.slug topic) false
              (output_dir config) [] []
              (Some (u "Topic validation failed: " ++
                     join (u "; ") (errors validation_result)))
              0 created (u "0.1.0") None None)
     else
       (* Check if we need to extract templates from reference lesson *)
       resolve_templates ;;;
       (* Create lesson directory *)
       let lesson_dir := path_join (output_dir config) (TopicConfig.slug topic) in
       mkdir lesson_dir ;;;
       (* Generate lesson structure *)
       let* created := ask (env_time E) in
       let result :=
         LessonGenerationResult.mk (TopicConfig.name topic) (TopicConfig.slug topic) true
           lesson_dir [] [] None 0 created (u "0.1.0")
           (if use_ai config then Some (openai_model config) else None) None in
       (* Generate each module *)
       let* result := for_each (add_module topic lesson_dir) (TopicConfig.modules topic) result in
       (* Generate lesson-level configuration files *)
       let* result :=
         if LessonGenerationResult.success result
         then
           let* written := _generate_lesson_config_files topic lesson_dir in
           ret (LessonGenerationResult.with_config_files written result)
         else ret result in
       (* Run quality assurance if lesson generation was successful *)
       let* result :=
         if LessonGenerationResult.success result
         then quality_gate lesson_dir result
         else ret result in
       (* Calculate generation time *)
       let* now := ask (env_time E) in
       ret (LessonGenerationResult.with_generation_time (now - start_time)%Z result))
    (fun e =>
     let* now := ask (env_time E) in
     let* created := ask (env_time E) in
     ret (LessonGenerationResult.mk (TopicConfig.name topic) (TopicConfig.slug topic) false
            (output_dir config) [] []
            (Some (u "Unexpected error: " ++ exn_msg e))
            (now - start_time)%Z created (u "0.1.0") None None)).

End LessonGenerator.
End Core.

(** ** cli.py *)

Module Cli.

(** [complexity_map.get(difficulty, CodeComplexity.MODERATE)] *)
Definition default_complexity (difficulty : pystr) : CodeComplexity :=
  if bool_decide (difficulty = u "beginner") then SIMPLE
  else if bool_decide (difficulty = u "intermediate") then MODERATE
  else if bool_decide (difficulty = u "advanced") then COMPLEX
  else MODERATE.

(** The module of one round of the loop over [range(assignment_count)]. *)
Definition assignment_module (normalized_name difficulty : pystr) (i : nat) : ModuleConfig.t :=
  ModuleConfig.mk
    (normalized_name ++ u " Implementation " ++ str_of_nat (S i))
    ASSIGNMENT
    [u "implementation " ++ str_of_nat (S i); u "practical exercises"]
    (default_complexity difficulty).

(** The list [modules] of [create_topic_from_name], from the normalized
    name, the difficulty and the requested count: the fields that the
    function hands to [ModuleConfig], in the order in which it appends
    them.  The count is a Python integer and may be negative. *)
Definition topic_modules (normalized_name difficulty : pystr) (modules_count : Z)
    : list ModuleConfig.t :=
  (* Validate modules_count *)
  let modules_count := if (modules_count <? 1)%Z then 1%Z else modules_count in
  (* For single module, create just one starter module *)
  if (modules_count =? 1)%Z
  then
    [ModuleConfig.mk (normalized_name ++ u " Overview") STARTER
       [u "core concepts"; u "overview"; u "practical examples"] SIMPLE]
  else
    (* Always start with a starter module for multi-module lessons *)
    let modules :=
      [ModuleConfig.mk (normalized_name ++ u " Fundamentals") STARTER
         [u "basic concepts"; u "introduction"; u "setup"] SIMPLE] in
    (* Add assignment modules (leave room for project module if needed) *)
    let assignment_count := (modules_count - 1)%Z in
    let assignment_count :=
      if (4 <=? modules_count)%Z then (assignment_count - 1)%Z else assignment_count in
    let modules :=
      modules ++ map (assignment_module normalized_name difficulty)
                     (seq 0 (Z.to_nat assignment_count)) in
    (* Add a final project module if we have enough modules *)
    if (4 <=? modules_count)%Z
    then modules ++
         [ModuleConfig.mk (normalized_name ++ u " Project") PROJECT
            [u "project implementation"; u "integration"; u "real-world application"] COMPLEX]
    else modules.

End Cli.

(** * Sample runs *)

Module Sample.
Import Content.

(** An interpreter for ASCII text: f-strings print enumeration members by
    value, sets are iterated in the order of first insertion, and a float is
    printed by its integer part. *)
Definition interp : Interp :=
  {| interp_db := ascii_db;
     format_enum_by_value := true;
     set_iter := remove_dups;
     str_float := fun q => str_of_nat (Z.to_nat (Qnum q / Zpos (Qden q))) ++ u ".0" |}.

Definition starter_module : ModuleConfig.t :=
  ModuleConfig.mk (u "Getting Started") STARTER [u "coroutines"] SIMPLE.
Definition assignment_module : ModuleConfig.t :=
  ModuleConfig.mk (u "Practice") ASSIGNMENT [u "tasks"] MODERATE.
Definition extra_module : ModuleConfig.t :=
  ModuleConfig.mk (u "More") EXTRA [u "tasks"] SIMPLE.

Definition topic_with (modules : list ModuleConfig.t) : TopicConfig.t :=
  TopicConfig.mk (u "Async Programming") (u "async_programming")
    (u "Writing concurrent code with asyncio") INTERMEDIATE 2
    [u "event loop"]
    [u "Understand the event loop"; u "Write coroutines with async and await"]
    [u "Python basics"]
    modules.

(** One starter module: the smallest valid topic. *)
Definition topic : TopicConfig.t := topic_with [starter_module].

Definition request : ContentGenerationRequest :=
  {| req_topic := topic; req_module := starter_module;
     req_content_type := u "learning_path"; additional_context := ∅ |}.

Definition code_request : ContentGenerationRequest :=
  {| req_topic := topic; req_module := starter_module;
     req_content_type := u "starter_example"; additional_context := ∅ |}.

(** Generation without AI. *)
Definition config_no_ai : GenerationConfig :=
  {| output_dir := u "/lessons"; use_ai := false; enable_cache := true;
     openai_api_key := None; openai_model := u "gpt-4"; rate_limit_delay := 1;
     reference_lesson_dir := None |}.

(** Generation without AI and without the cache. *)
Definition config_no_cache : GenerationConfig :=
  {| output_dir := u "/lessons"; use_ai := false; enable_cache := false;
     openai_api_key := None; openai_model := u "gpt-4"; rate_limit_delay := 1;
     reference_lesson_dir := None |}.

(** Generation with AI. *)
Definition config_ai : GenerationConfig :=
  {| output_dir := u "/lessons"; use_ai := true; enable_cache := true;
     openai_api_key := Some (u "sk-test"); openai_model := u "gpt-4";
     rate_limit_delay := 1; reference_lesson_dir := None |}.

(** The world in which storage works, no client library is loaded, no
    template exists and every text parses. *)
Definition env : Env :=
  {| env_time := Z.of_nat;
     env_client_type := None;
     env_client_init := None;
     env_create_prompt := fun _ => [];
     env_chat_create := fun _ _ _ _ _ => Raise (Exn OSError (u "Connection error"));
     env_ast_parse := fun _ => None;
     env_mkdir := fun _ _ => None;
     env_write_text := fun _ _ _ => None;
     env_template_exists := fun _ _ => false;
     env_render_template := fun _ _ _ => Raise (Exn OtherError (u "TemplateNotFound"));
     env_path_exists := fun _ _ => false;
     env_has_custom_templates := fun _ => false;
     env_extract_templates := fun _ _ => None;
     env_qa_fault := fun _ => None |}.

(** The same world with a modern client that answers every request with
    the given reply. *)
Definition env_replying (answer : result Reply) : Env :=
  {| env_time := Z.of_nat;
     env_client_type := Some Modern;
     env_client_init := None;
     env_create_prompt := fun _ => [];
     env_chat_create := fun _ _ _ _ _ => answer;
     env_ast_parse := fun _ => None;
     env_mkdir := fun _ _ => None;
     env_write_text := fun _ _ _ => None;
     env_template_exists := fun _ _ => false;
     env_render_template := fun _ _ _ => Raise (Exn OtherError (u "TemplateNotFound"));
     env_path_exists := fun _ _ => false;
     env_has_custom_templates := fun _ => false;
     env_extract_templates := fun _ _ => None;
     env_qa_fault := fun _ => None |}.

(** The world with a modern client whose provider knows one model only. *)
Definition env_model_only (model : pystr) (answer : result Reply) : Env :=
  {| env_time := Z.of_nat;
     env_client_type := Some Modern;
     env_client_init := None;
     env_create_prompt := fun _ => u "Write the starter example.";
     env_chat_create := fun _ m _ _ _ =>
       if bool_decide (m = model) then answer
       else Raise (Exn OtherError (u "The model does not exist"));
     env_ast_parse := fun _ => None;
     env_mkdir := fun _ _ => None;
     env_write_text := fun _ _ _ => None;
     env_template_exists := fun _ _ => false;
     env_render_template := fun _ _ _ => Raise (Exn OtherError (u "TemplateNotFound"));
     env_path_exists := fun _ _ => false;
     env_has_custom_templates := fun _ => false;
     env_extract_templates := fun _ _ => None;
     env_qa_fault := fun _ => None |}.

(** A reply with one line of code. *)
Definition code_reply : Reply :=
  {| choices := [ChatMessage (Some (u " print(42) "))]; usage_total_tokens := Some 12%nat |}.

(** A reply whose only choice has an empty text. *)
Definition empty_reply : Reply :=
  {| choices := [ChatMessage (Some [])]; usage_total_tokens := Some 7%nat |}.

(** The world in which [faults] decides which writes fail, and creating a
    directory fails when [mkdir_fails]. *)
Definition env_storage (write_fault : pystr -> pystr -> option exn)
    (mkdir_fault : pystr -> option exn) (qa_fault : option exn) : Env :=
  {| env_time := Z.of_nat;
     env_client_type := None;
     env_client_init := None;
     env_create_prompt := fun _ => [];
     env_chat_create := fun _ _ _ _ _ => Raise (Exn OSError (u "Connection error"));
     env_ast_parse := fun _ => None;
     env_mkdir := fun _ p => mkdir_fault p;
     env_write_text := fun _ p c => write_fault p c;
     env_template_exists := fun _ _ => false;
     env_render_template := fun _ _ _ => Raise (Exn OtherError (u "TemplateNotFound"));
     env_path_exists := fun _ _ => false;
     env_has_custom_templates := fun _ => false;
     env_extract_templates := fun _ _ => None;
     env_qa_fault := fun _ => qa_fault |}.

Definition disk_full : exn := Exn OSError (u "No space left on device").

End Sample.

(** ** Runs in worlds where storage, the provider or the quality scan fail *)

Module Runs.
Import Content Quality Core Sample.

(** The generator with AI enabled, in the world whose provider answers
    with an empty text. *)
Definition ai_generator : ContentGenerator :=
  ContentGenerator_init (env_replying (Ok empty_reply)) config_ai.

Definition empty_reply_run : State * result ContentGenerationResponse :=
  _generate_ai_content interp (env_replying (Ok empty_reply)) ai_generator request 0
    initial_state.

(** Storage refuses every write. *)
Definition env_no_writes : Env :=
  env_storage (fun _ _ => Some disk_full) (fun _ => None) None.

Definition no_writes_run : State * result LessonGenerationResult.t :=
  generate_lesson interp env_no_writes config_no_ai topic initial_state.

(** Storage refuses the directory of the module. *)
Definition env_no_module_dir : Env :=
  env_storage (fun _ _ => None)
    (fun p => if bool_decide (p = u "/lessons/async_programming") then None
              else Some disk_full)
    None.

Definition no_module_dir_run : State * result LessonGenerationResult.t :=
  generate_lesson interp env_no_module_dir config_no_ai topic initial_state.

(** The scan of the quality pass fails. *)
Definition env_scan_fails : Env :=
  env_storage (fun _ _ => None) (fun _ => None) (Some (Exn OSError (u "Permission denied"))).

Definition scan_fails_run : State * result LessonGenerationResult.t :=
  generate_lesson interp env_scan_fails config_no_ai topic initial_state.

(** The value of a run that returned. *)
Definition returned {A} (run : State * result A) : option A :=
  match snd run with Ok a => Some a | Raise _ => None end.

End Runs.

(** * Specification vocabulary *)

Section SafeNameTerms.
Variable db : UnicodeDB.
Import SafeName.

(** The name before the suffix is appended. *)
Definition safe_name (topic_name : pystr) : pystr :=
  let titled := alnum_titled db topic_name in
  let prefixed :=
    match titled with
    | c :: _ => if py_isdigit db c then u "Lesson" ++ titled else titled
    | [] => titled
    end in
  if py_isidentifier db prefixed then prefixed else u "Assignment".

End SafeNameTerms.

(** A property of the character database: lower-casing a character outside
    ASCII that is neither a letter nor a number never yields an ASCII letter
    or digit. *)
Definition lower_keeps_non_alnum (db : UnicodeDB) : Prop :=
  forall c, (128 <=? c) = true -> py_isalnum db c = false ->
            forallb (fun d => negb (re_az09 d)) (db_lower db c) = true.

Section SlugTerms.
Variable db : UnicodeDB.
Import Validation.

Definition no_az09 (s : pystr) : Prop := Forall (fun d => re_az09 d = false) s.

End SlugTerms.

Section ValidationTerms.
Variable db : UnicodeDB.
Variable set_iter : list pystr -> list pystr.
Import Validation.
Local Abbreviation validate := (validate_topic db set_iter).

(** The name of a module as the duplicate check compares it. *)
Definition normalized_name (m : ModuleConfig.t) : pystr :=
  py_strip (py_lower db (ModuleConfig.name m)).

End ValidationTerms.

(** [wp m Q Qx s]: run from [s], [m] returns a value and a state that
    satisfy [Q], or raises an exception in a state that satisfy [Qx]. *)
Definition wp {A} (m : M A) (Q : State -> A -> Prop) (Qx : State -> exn -> Prop)
    (s : State) : Prop :=
  match m s with
  | (s', Ok a) => Q s' a
  | (s', Raise e) => Qx s' e
  end.

(** A relation between the state at the start and a later state is kept by
    a computation when every state it passes through is related to the
    start. *)
Definition keeps (R : State -> State -> Prop) {A} (m : M A) : Prop :=
  forall s0 s, R s0 s -> wp m (fun s' _ => R s0 s') (fun s' _ => R s0 s') s.

(** What a step may change without breaking a relation. *)
Record Tolerates (R : State -> State -> Prop) := {
  tol_tick : forall s0 s n, R s0 s -> R s0 (set_tick n s);
  tol_current : forall s0 s c, R s0 s -> R s0 (set_current_content_type c s)
}.

Section ContentTerms.
Variable I : Interp.
Variable E : Env.
Variable self : Content.ContentGenerator.
Import Content.

(** The text the fallback generator writes for a request. *)
Definition fallback_text (request : ContentGenerationRequest) : pystr :=
  dict_get (content_generators I) (req_content_type request)
    (_generate_generic_fallback I) request.

(** The generator's own fields and the storage, which producing one
    response leaves alone. *)
Definition same_books (s0 s : State) : Prop :=
  _content_cache s = _content_cache s0 /\ ai_calls s = ai_calls s0 /\
  cache_hits s = cache_hits s0 /\ fallback_calls s = fallback_calls s0 /\
  files s = files s0 /\ dirs s = dirs s0.

(** The collaborator gives the same answer to every chat request. *)
Definition answers (answer : result Reply) : Prop :=
  forall t model system user max_tokens,
    env_chat_create E t model system user max_tokens = answer.

(** The ways in which a provider call fails with an exception: the delay is
    refused, no client library is loaded, the call raises, or the reply has
    no first choice with a text. *)
Definition provider_raises (answer : result Reply) : Prop :=
  Validation.Qltb (rate_limit_delay (config self)) 0 = true \/
  env_client_type E = None \/
  (exists e, answer = Raise e) \/
  (exists reply, answer = Ok reply /\
     match choices reply with
     | [] => True
     | ChatMessage None :: _ => True
     | MalformedChoice :: _ => True
     | TextChoice _ :: _ => env_client_type E = Some Modern
     | ChatMessage (Some _) :: _ => False
     end).

(** The text taken from a reply for a content type. *)
Definition reply_text (content_type text : pystr) : pystr :=
  if str_in content_type code_content_types
  then _extract_code_from_markdown (py_strip text) else py_strip text.

(** The content the generator takes from the first choice of a reply. *)
Definition finish (content_type raw : pystr) : pystr :=
  if str_in content_type code_content_types
  then _extract_code_from_markdown raw else raw.
Definition ai_content (ct : ClientType) (c : Choice) (content_type : pystr) : option pystr :=
  match ct, c with
  | _, ChatMessage (Some text) => Some (finish content_type (py_strip text))
  | Legacy, TextChoice text =>
    Some (finish content_type (if truthy text then py_strip text else text))
  | _, _ => None
  end.

End ContentTerms.

(** One call of [generate_content]. *)
Record Call := {
  call_content_type : pystr;
  call_topic : TopicConfig.t;
  call_module : option ModuleConfig.t;
  call_extra : option (gmap pystr pystr)
}.

Section CacheTerms.
Variable I : Interp.
Variable E : Env.
Variable self : Content.ContentGenerator.
Import Content.
Local Abbreviation generate := (generate_content I E self).
Local Abbreviation key_of := (_create_cache_key I).

(** A name as the cache key holds it: lower case, spaces replaced by
    underscores. *)
Definition normalize (name : pystr) : pystr :=
  py_replace (u " ") (u "_") (py_lower (interp_db I) name).

(** The identity of a request. *)
Definition request_identity (content_type : pystr) (topic : TopicConfig.t)
    (module_config : option ModuleConfig.t) :=
  (content_type, normalize (TopicConfig.name topic), TopicConfig.difficulty topic,
   option_map (fun m => (normalize (ModuleConfig.name m), ModuleConfig.type m)) module_config).

Definition run_call (c : Call) : M ContentGenerationResponse :=
  generate (call_content_type c) (call_topic c) (call_module c) (call_extra c).

(** The state after a sequence of calls. *)
Definition run_calls (calls : list Call) (s : State) : State :=
  foldl (fun s c => fst (run_call c s)) s calls.

End CacheTerms.

(** Nothing is ever removed from storage. *)
Definition grows (s0 s : State) : Prop :=
  forall p, is_Some (files s0 !! p) -> is_Some (files s !! p).

(** A file of a result is in storage. *)
Definition stored (s : State) (f : GeneratedFile) : Prop :=
  is_Some (files s !! gf_path f).

Section CoreTerms.
Variable I : Interp.
Variable E : Env.
Variable cfg : Content.GenerationConfig.
Import Content Quality Core.

(** Storage refuses a write, or the creation of a directory, at some time. *)
Definition write_refused (p c : pystr) (e : exn) : Prop :=
  exists t, env_write_text E t p c = Some e.
Definition mkdir_refused (p : pystr) (e : exn) : Prop :=
  exists t, env_mkdir E t p = Some e.

Section OneModuleTerms.
Variable topic : TopicConfig.t.
Variable module_config : ModuleConfig.t.
Variable module_dir : pystr.

(** The writes whose failure makes the module fail: that of a placeholder,
    and that of the only file of an extra module. *)
Definition extra_content : pystr :=
  u "# Extra Exercises: " ++ ModuleConfig.name module_config ++ nl ++ nl ++
  u "# TODO: Implement extra exercises" ++ nl.

Definition last_resort_refused (e' : exn) : Prop :=
  (exists filename e,
      write_refused (path_join module_dir filename)
        (placeholder_content E module_config filename e) e') \/
  write_refused (path_join module_dir (u "extra_exercises.md")) extra_content e'.

(** The files of a module by its type. *)
Definition expected_files (ty : ModuleType) : list pystr :=
  match ty with
  | EXTRA => [u "extra_exercises.md"]
  | _ => [u "learning_path.md"; u "starter_example.py"; u "test_starter_example.py";
          u "assignment_a.py"; u "test_assignment_a.py";
          u "assignment_b.py"; u "test_assignment_b.py"; u "extra_exercises.md"]
  end.

End OneModuleTerms.

(** What [_generate_module] returns for a module: all its files, or a
    failure without files when a directory or a last write was refused. *)
Definition module_ok (lesson_dir : pystr) (m : ModuleConfig.t)
    (mr : ModuleGenerationResult.t) : Prop :=
  ModuleGenerationResult.module_name mr = ModuleConfig.name m /\
  ModuleGenerationResult.success mr = true /\
  ModuleGenerationResult.error mr = None /\
  map gf_path (ModuleGenerationResult.files mr) =
    map (path_join (module_dir_of I lesson_dir m)) (expected_files (ModuleConfig.type m)).

Definition module_failed (lesson_dir : pystr) (m : ModuleConfig.t)
    (mr : ModuleGenerationResult.t) : Prop :=
  ModuleGenerationResult.module_name mr = ModuleConfig.name m /\
  ModuleGenerationResult.success mr = false /\
  ModuleGenerationResult.files mr = [] /\
  exists e,
    ModuleGenerationResult.error mr = Some (exn_msg e) /\
    (mkdir_refused (module_dir_of I lesson_dir m) e \/
     last_resort_refused m (module_dir_of I lesson_dir m) e).

Definition module_outcome (lesson_dir : pystr) (m : ModuleConfig.t)
    (mr : ModuleGenerationResult.t) : Prop :=
  module_ok lesson_dir m mr \/ module_failed lesson_dir m mr.

Definition files_stored (s : State) (mr : ModuleGenerationResult.t) : Prop :=
  Forall (stored s) (ModuleGenerationResult.files mr).

Definition all_succeeded (mrs : list ModuleGenerationResult.t) : bool :=
  forallb ModuleGenerationResult.success mrs.

(** The result while the modules are generated. *)
Definition loop_inv (lesson_dir : pystr) (s : State) (processed : list ModuleConfig.t)
    (r : LessonGenerationResult.t) : Prop :=
  Forall2 (module_outcome lesson_dir) processed (LessonGenerationResult.modules r) /\
  Forall (files_stored s) (LessonGenerationResult.modules r) /\
  LessonGenerationResult.success r = all_succeeded (LessonGenerationResult.modules r) /\
  (LessonGenerationResult.success r = true -> LessonGenerationResult.error r = None) /\
  (LessonGenerationResult.success r = false ->
     exists m, In m processed /\ LessonGenerationResult.error r = Some ((u "Failed to generate module: " ++ ModuleConfig.name m))) /\
  LessonGenerationResult.config_files r = [] /\
  LessonGenerationResult.quality_report r = None.

Definition config_write_refused (topic : TopicConfig.t) (lesson_dir : pystr) (e : exn) : Prop :=
  exists entry, In entry (config_files_of I topic) /\
                write_refused (path_join lesson_dir (fst entry)) (snd entry) e.

(** What the quality gate makes of a result that was successful so far. *)
Definition gated (r r' : LessonGenerationResult.t) : Prop :=
  LessonGenerationResult.modules r' = LessonGenerationResult.modules r /\
  LessonGenerationResult.config_files r' = LessonGenerationResult.config_files r /\
  exists q,
    LessonGenerationResult.quality_report r' = Some q /\
    if (quality_score_tenths q <? 5)%nat
    then LessonGenerationResult.success r' = false /\
         LessonGenerationResult.error r' = Some (u "Quality score too low: " ++ format_score (quality_score_tenths q))
    else LessonGenerationResult.success r' = LessonGenerationResult.success r /\
         LessonGenerationResult.error r' = LessonGenerationResult.error r.

Definition lesson_dir_of (topic : TopicConfig.t) : pystr :=
  path_join (output_dir cfg) (TopicConfig.slug topic).

Definition config_paths (topic : TopicConfig.t) : list pystr :=
  map (fun entry => path_join (lesson_dir_of topic) (fst entry)) (config_files_of I topic).

Definition topic_valid (topic : TopicConfig.t) : bool :=
  is_valid (Validation.validate_topic (interp_db I) (set_iter I) topic).

(** The terminal states of a lesson run, read off the returned result and
    the final storage. *)
Inductive lesson_outcome (topic : TopicConfig.t) (s' : State)
    (r : LessonGenerationResult.t) : Prop :=
| Rejected :
    topic_valid topic = false ->
    LessonGenerationResult.modules r = [] ->
    LessonGenerationResult.success r = false ->
    LessonGenerationResult.config_files r = [] ->
    LessonGenerationResult.quality_report r = None ->
    lesson_outcome topic s' r
| Aborted (e : exn) :
    topic_valid topic = true ->
    mkdir_refused (lesson_dir_of topic) e \/
      config_write_refused topic (lesson_dir_of topic) e ->
    LessonGenerationResult.modules r = [] ->
    LessonGenerationResult.success r = false ->
    LessonGenerationResult.config_files r = [] ->
    LessonGenerationResult.quality_report r = None ->
    LessonGenerationResult.error r = Some (u "Unexpected error: " ++ exn_msg e) ->
    lesson_outcome topic s' r
| PartialFailure (m : ModuleConfig.t) :
    topic_valid topic = true ->
    Forall2 (module_outcome (lesson_dir_of topic)) (TopicConfig.modules topic)
      (LessonGenerationResult.modules r) ->
    Forall (files_stored s') (LessonGenerationResult.modules r) ->
    all_succeeded (LessonGenerationResult.modules r) = false ->
    LessonGenerationResult.success r = false ->
    LessonGenerationResult.config_files r = [] ->
    LessonGenerationResult.quality_report r = None ->
    In m (TopicConfig.modules topic) ->
    LessonGenerationResult.error r = Some ((u "Failed to generate module: " ++ ModuleConfig.name m)) ->
    lesson_outcome topic s' r
| Completed (q : QualityReport) :
    topic_valid topic = true ->
    Forall2 (module_outcome (lesson_dir_of topic)) (TopicConfig.modules topic)
      (LessonGenerationResult.modules r) ->
    Forall (files_stored s') (LessonGenerationResult.modules r) ->
    all_succeeded (LessonGenerationResult.modules r) = true ->
    map gf_path (LessonGenerationResult.config_files r) = config_paths topic ->
    Forall (stored s') (LessonGenerationResult.config_files r) ->
    LessonGenerationResult.quality_report r = Some q ->
    (if (quality_score_tenths q <? 5)%nat
     then LessonGenerationResult.success r = false /\
          LessonGenerationResult.error r = Some (u "Quality score too low: " ++ format_score (quality_score_tenths q))
     else LessonGenerationResult.success r = true /\
          LessonGenerationResult.error r = None) ->
    lesson_outcome topic s' r.

End CoreTerms.

Section LessonTerms.
Variable I : Interp.
Variable E : Env.
Variable cfg : Content.GenerationConfig.
Import Content Quality Core.

(** The number of files of a module by its type. *)
Definition expected_count (ty : ModuleType) : nat :=
  match ty with EXTRA => 1 | _ => 8 end.

(** A module result with the whole file set of its module. *)
Definition has_file_set (lesson_dir : pystr) (m : ModuleConfig.t)
    (mr : ModuleGenerationResult.t) : Prop :=
  ModuleGenerationResult.success mr = true /\
  map gf_path (ModuleGenerationResult.files mr) =
    map (path_join (module_dir_of I lesson_dir m)) (expected_files (ModuleConfig.type m)) /\
  ModuleGenerationResult.file_count mr = expected_count (ModuleConfig.type m).

(** The texts written as a last resort or without a [try] around the write:
    the placeholders, the file of an extra module, the configuration files. *)
Definition unguarded_text (topic : TopicConfig.t) (c : pystr) : Prop :=
  (exists m filename e,
      In m (TopicConfig.modules topic) /\ c = placeholder_content E m filename e) \/
  (exists m, In m (TopicConfig.modules topic) /\ c = extra_content m) \/
  (exists entry, In entry (config_files_of I topic) /\ c = snd entry).

End LessonTerms.

(** ** Further vocabulary *)

(** A step from an advanced topic straight to a beginner topic. *)
Definition is_large_drop (previous current : DifficultyLevel) : bool :=
  match previous, current with
  | ADVANCED, BEGINNER => true
  | _, _ => false
  end.

(** The number of such steps between neighbours of a series. *)
Fixpoint large_drops (ds : list DifficultyLevel) : nat :=
  match ds with
  | [] => 0
  | previous :: r =>
    (match r with
     | current :: _ => if is_large_drop previous current then 1 else 0
     | [] => 0
     end + large_drops r)%nat
  end.

(** No two neighbours of a text are both the character [c]. *)
Fixpoint no_double (c : char) (s : pystr) : bool :=
  match s with
  | [] => true
  | a :: r =>
    match r with
    | b :: _ => negb ((a =? c) && (b =? c))
    | [] => true
    end && no_double c r
  end.

(** The position of a level in [difficulty_order]. *)
Definition difficulty_rank (d : DifficultyLevel) : nat :=
  match d with BEGINNER => 0 | INTERMEDIATE => 1 | ADVANCED => 2 end.

(** ** The books of the content generator *)

Section ContentBooks.
Variable I : Interp.
Variable E : Env.
Variable self : Content.ContentGenerator.
Import Content.

(** The cached response that answers a request, if any. *)
Definition cache_lookup (content_type : pystr) (topic : TopicConfig.t)
    (module_config : option ModuleConfig.t) (s : State) : option ContentGenerationResponse :=
  if enable_cache (config self)
  then _content_cache s !! _create_cache_key I content_type topic module_config
  else None.

(** The condition under which [generate_content] takes the AI path. *)
Definition uses_ai : bool := client self && use_ai (config self) && ai_enabled self.

(** The request [generate_content] builds. *)
Definition request_of (content_type : pystr) (topic : TopicConfig.t)
    (module_config : option ModuleConfig.t) (extra_context : option (gmap pystr pystr))
    : ContentGenerationRequest :=
  {| req_topic := topic;
     req_module := default (default_module topic) module_config;
     req_content_type := content_type;
     additional_context := default ∅ extra_context |}.

(** The three counters. *)
Definition counters (s : State) : nat * nat * nat :=
  (ai_calls s, cache_hits s, fallback_calls s).

(** Every cached response was made by the fallback generator. *)
Definition cache_all_fallback (s : State) : Prop :=
  forall key r, _content_cache s !! key = Some r ->
                model_used r = u "fallback" /\ tokens_used r = 0%nat.

(** The model named in the request to the provider. *)
Definition requested_model (content_type : pystr) : pystr :=
  if bool_decide (openai_model (config self) = u "gpt-4") &&
     negb (str_in content_type [u "learning_path"; u "project_assignment"])
  then u "gpt-3.5-turbo"
  else openai_model (config self).

(** The user message of the request to the provider. *)
Definition optimized_prompt (request : ContentGenerationRequest) : pystr :=
  dict_get optimizations (req_content_type request) (u "Generate concise, focused content.")
  ++ nl ++ nl ++ env_create_prompt E request.

(** The provider gives [answer] to the request made for [request],
    whenever it is made; nothing is said about other requests. *)
Definition answers_request (request : ContentGenerationRequest) (answer : result Reply) : Prop :=
  forall t,
    env_chat_create E t (requested_model (req_content_type request))
      (_get_system_prompt (req_content_type request)) (optimized_prompt request)
      (_get_optimal_max_tokens (req_content_type request)) = answer.

End ContentBooks.

(** ** The reports of the quality pass *)

Section Reports.
Variable E : Env.
Import Quality.

(** The report of a scan that failed with [e]. *)
Definition failed_report (lesson_path : pystr) (e : exn) : QualityReport :=
  {| lesson_path := lesson_path;
     python_files_valid := true;
     tests_executable := true;
     quality_score_tenths := 0;
     issues := [u "Quality validation failed: " ++ exn_msg e];
     metrics := None |}.

(** The report of a scan of the storage of [s]. *)
Definition scan_report (lesson_path : pystr) (s : State) : QualityReport :=
  let valid := forallb id (_validate_python_syntax E (files s) lesson_path) in
  let executable := _validate_tests (files s) lesson_path in
  let m := Some (_calculate_quality_metrics s lesson_path) in
  {| lesson_path := lesson_path;
     python_files_valid := valid;
     tests_executable := executable;
     quality_score_tenths := _calculate_quality_score valid executable m;
     issues := [];
     metrics := m |}.

(** The quality report of a lesson result was made from the storage the
    run ended with. *)
Definition report_of_storage (lesson_dir : pystr) (s' : State)
    (r : LessonGenerationResult.t) : Prop :=
  forall q, LessonGenerationResult.quality_report r = Some q ->
    exists sq, files sq = files s' /\ dirs sq = dirs s' /\
      q = match env_qa_fault E (tick sq) with
          | Some e => failed_report lesson_dir e
          | None => scan_report lesson_dir sq
          end.

End Reports.

(** ** Lines of the syntax repair *)

(** A line that starts a class definition, as the repair recognises it. *)
Definition class_line (line : pystr) : bool :=
  startswith (u "class ") (py_strip line).

(** A text without a double quote. *)
Definition quote_free (s : pystr) : Prop := ~ In c_dquote s.

(** * Properties *)

(** ** Strings *)

Section StringFacts.

Lemma startswith_app (p r : pystr) : startswith p (p ++ r) = true.
Proof.
  induction p as [|a p IH]; simpl; [done|].
  by rewrite N.eqb_refl, IH.
Qed.

Lemma endswith_app (p r : pystr) : endswith p (r ++ p) = true.
Proof.
  unfold endswith. rewrite rev_app_distr. apply startswith_app.
Qed.

Lemma lstrip_by_incl (p : char -> bool) (s : pystr) (c : char) :
  In c (lstrip_by p s) -> In c s.
Proof.
  induction s as [|a s IH]; simpl; [done|].
  destruct (p a); [right; auto | done].
Qed.

Lemma strip_by_incl (p : char -> bool) (s : pystr) (c : char) :
  In c (strip_by p s) -> In c s.
Proof.
  unfold strip_by, rstrip_by. intros H.
  apply in_rev in H. apply lstrip_by_incl in H.
  apply in_rev in H. by apply lstrip_by_incl in H.
Qed.

Lemma lstrip_by_all (p : char -> bool) (s : pystr) :
  Forall (fun c => p c = true) s -> lstrip_by p s = [].
Proof.
  induction 1 as [|a s Ha _ IH]; simpl; [done|]. by rewrite Ha.
Qed.

Lemma strip_by_all (p : char -> bool) (s : pystr) :
  Forall (fun c => p c = true) s -> strip_by p s = [].
Proof.
  intros H. unfold strip_by, rstrip_by. by rewrite (lstrip_by_all _ _ H).
Qed.

Lemma sub_runs_incl (cls : char -> bool) (rep : pystr) (b : bool) (s : pystr) (c : char) :
  In c (sub_runs cls rep b s) -> In c rep \/ In c s.
Proof.
  revert b. induction s as [|a s IH]; intros b; simpl; [tauto|].
  destruct (cls a).
  - rewrite in_app_iff. intros [H|H].
    + destruct b; [done | by left].
    + destruct (IH _ H); [by left | right; by right].
  - intros [->|H]; [right; by left|].
    destruct (IH _ H); [by left | right; by right].
Qed.

End StringFacts.

(** ** Class names (content.py) *)

Section SafeNameFacts.
Variable db : UnicodeDB.
Import SafeName.
Local Abbreviation safe_name := (safe_name db).

Lemma isidentifier_app (s t : pystr) :
  py_isidentifier db s = true ->
  forallb (xid_continue db) t = true ->
  py_isidentifier db (s ++ t) = true.
Proof.
  destruct s as [|c r]; simpl; [done|].
  intros [Hc Hr]%andb_true_iff Ht.
  rewrite forallb_app, Hc. simpl. apply andb_true_iff. by split.
Qed.

Lemma Assignment_isidentifier : py_isidentifier db (u "Assignment") = true.
Proof. reflexivity. Qed.

Lemma create_safe_class_name_eq (topic_name suffix : pystr) :
  _create_safe_class_name db topic_name suffix = safe_name topic_name ++ suffix.
Proof.
  unfold _create_safe_class_name, safe_name.
  destruct (alnum_titled db topic_name) as [|c r]; [done|].
  destruct (py_isdigit db c); [|done].
  cbn -[py_isidentifier]. by destruct (py_isidentifier db _).
Qed.

Lemma safe_name_isidentifier (topic_name : pystr) :
  py_isidentifier db (safe_name topic_name) = true.
Proof.
  unfold safe_name. cbv zeta.
  match goal with |- context [if ?b then _ else _] => destruct b eqn:Hb end;
    [done | apply Assignment_isidentifier].
Qed.


End SafeNameFacts.


(** ** Slugs (utils/validation.py) *)

Lemma ascii_db_lower_keeps_non_alnum : lower_keeps_non_alnum ascii_db.
Proof.
  intros c Hc _. simpl. rewrite andb_true_r.
  unfold re_az09, ascii_lower, ascii_digit, in_range.
  apply N.leb_le in Hc.
  rewrite !negb_true_iff, !orb_false_iff, !andb_false_iff, !N.leb_gt. lia.
Qed.

Section SlugFacts.
Variable db : UnicodeDB.
Hypothesis Hdb : lower_keeps_non_alnum db.
Import Validation.

Lemma lower_full_no_az09 (c : char) :
  py_isalnum db c = false -> no_az09 (lower_full db c).
Proof.
  intros Hc. unfold lower_full.
  destruct (c <? 128) eqn:Hascii.
  - unfold py_isalnum, py_isalpha, py_isdecimal in Hc. rewrite Hascii in Hc.
    apply orb_false_iff in Hc as [[[Halpha Hdigit]%orb_false_iff _]%orb_false_iff _].
    unfold ascii_alpha in Halpha. apply orb_false_iff in Halpha as [Hup Hlow].
    rewrite Hup. constructor; [|constructor].
    unfold re_az09. by rewrite Hlow, Hdigit.
  - apply N.ltb_ge, N.leb_le in Hascii.
    specialize (Hdb c Hascii Hc).
    apply Forall_forall. intros d Hd.
    rewrite forallb_forall in Hdb. apply negb_true_iff. apply Hdb.
    by apply list_elem_of_In.
Qed.

Lemma lower_from_no_az09 (before s : pystr) :
  Forall (fun c => py_isalnum db c = false) s -> no_az09 (lower_from db before s).
Proof.
  intros H. revert before.
  induction H as [|c s Hc _ IH]; intros before; simpl; [constructor|].
  apply Forall_app. split; [|apply IH].
  destruct (c =? 931); [|by apply lower_full_no_az09].
  unfold lower_sigma. constructor; [|constructor].
  by destruct (_ && _).
Qed.

Lemma only_underscores_after_filter (s : pystr) :
  no_az09 s ->
  Forall (fun c => c = c_underscore)
    (re_remove re_slug_other (re_sub_runs slug_separator (u "_") (py_strip s))).
Proof.
  intros Hs. apply Forall_forall. intros c Hc.
  apply list_elem_of_In in Hc.
  unfold re_remove in Hc. apply filter_In in Hc as [Hin Hkeep].
  unfold re_slug_other in Hkeep. rewrite negb_involutive in Hkeep.
  apply sub_runs_incl in Hin as [Hin|Hin].
  - destruct Hin as [<-|[]]. reflexivity.
  - apply strip_by_incl in Hin. unfold no_az09 in Hs.
    rewrite Forall_forall in Hs. specialize (Hs c (proj2 (list_elem_of_In _ _) Hin)).
    unfold re_slug in Hkeep. rewrite Hs in Hkeep. simpl in Hkeep.
    by apply N.eqb_eq in Hkeep.
Qed.

Lemma collapse_only_underscores (s : pystr) :
  Forall (fun c => c = c_underscore) s ->
  Forall (fun c => char_in (u "_") c = true)
    (re_sub_runs (N.eqb c_underscore) (u "_") s).
Proof.
  intros Hs. apply Forall_forall. intros c Hc.
  apply list_elem_of_In, sub_runs_incl in Hc as [Hc|Hc].
  - destruct Hc as [<-|[]]. reflexivity.
  - rewrite Forall_forall in Hs.
    by rewrite (Hs c (proj2 (list_elem_of_In _ _) Hc)).
Qed.

(** A name without any letter or digit has no slug. *)
Lemma create_slug_non_alnum (name : pystr) :
  Forall (fun c => py_isalnum db c = false) name ->
  create_slug_from_name db name =
    Raise (Exn ValueError (u "Cannot create valid slug from topic name")).
Proof.
  intros Hname. unfold create_slug_from_name, py_strip_chars, py_lower. cbv zeta.
  rewrite (strip_by_all (char_in (u "_")));
    [done|].
  apply collapse_only_underscores, only_underscores_after_filter.
  by apply lower_from_no_az09.
Qed.

Lemma create_slug_example :
  create_slug_from_name db (u "Data-Science & ML") = Ok (u "data_science_ml").
Proof. vm_compute. reflexivity. Qed.

(** C9: the slug of "Data-Science & ML" is "data_science_ml"; a topic name
    that is empty or holds no letter and no digit (punctuation and blanks
    only) has no slug: [create_slug_from_name] raises [ValueError].  The
    second part rests on the character database mapping no such character to
    an ASCII letter or digit when it is lower-cased. *)
Theorem create_slug_from_name_spec (name : pystr) :
  Forall (fun c => py_isalnum db c = false) name ->
  create_slug_from_name db (u "Data-Science & ML") = Ok (u "data_science_ml") /\
  create_slug_from_name db [] =
    Raise (Exn ValueError (u "Cannot create valid slug from topic name")) /\
  create_slug_from_name db name =
    Raise (Exn ValueError (u "Cannot create valid slug from topic name")).
Proof.
  intros Hname. split; [apply create_slug_example|].
  split; [by apply create_slug_non_alnum | by apply create_slug_non_alnum].
Qed.

End SlugFacts.

Lemma create_slug_from_name_spec_witness :
  Forall (fun c => py_isalnum ascii_db c = false) (u " -- !? _.") /\
  Validation.create_slug_from_name ascii_db (u " -- !? _.") =
    Raise (Exn ValueError (u "Cannot create valid slug from topic name")).
Proof.
  assert (H : Forall (fun c => py_isalnum ascii_db c = false) (u " -- !? _.")).
  { apply Forall_forall. intros c Hc. apply list_elem_of_In in Hc.
    vm_compute in Hc. intuition (subst; reflexivity). }
  split; [exact H|].
  apply (create_slug_from_name_spec ascii_db ascii_db_lower_keeps_non_alnum (u " -- !? _.") H).
Defined.

(** ** Syntax repair (core.py) *)

(** C3: [_fix_common_syntax_issues] is not idempotent.  On a class whose
    docstring was cut off, the first application appends the missing
    delimiter; the second one takes the appended delimiter for another
    unclosed docstring and appends a further one. *)
Theorem fix_common_syntax_issues_appends_again :
  let x := u "class Foo:" ++ nl ++ u "    " ++ dq3 ++ u "Doc" in
  let fix_ := SyntaxGuard._fix_common_syntax_issues in
  fix_ x = x ++ nl ++ dq3 /\
  fix_ (fix_ x) = x ++ nl ++ dq3 ++ nl ++ dq3 /\
  fix_ (fix_ x) <> fix_ x.
Proof.
  cbv zeta. split; [|split].
  - vm_compute. reflexivity.
  - vm_compute. reflexivity.
  - vm_compute. discriminate.
Qed.

(** ** Validation (utils/validation.py, models.py) *)

Section ValidationFacts.
Variable db : UnicodeDB.
Variable set_iter : list pystr -> list pystr.
Import Validation.
Local Abbreviation validate := (validate_topic db set_iter).
Local Abbreviation normalized_name := (normalized_name db).

Lemma is_valid_iff_no_errors (topic : TopicConfig.t) :
  is_valid (validate topic) = true <-> errors (validate topic) = [].
Proof.
  unfold validate_topic. cbv zeta. cbn [is_valid errors].
  match goal with |- context [length ?L] => generalize L end.
  intros [|e l]; simpl; split; done.
Qed.

Lemma error_rejects (topic : TopicConfig.t) (msg : pystr) :
  In msg (errors (validate topic)) -> is_valid (validate topic) = false.
Proof.
  intros Hin. destruct (is_valid (validate topic)) eqn:Hv; [|done].
  apply is_valid_iff_no_errors in Hv. rewrite Hv in Hin. destruct Hin.
Qed.

Lemma no_starter_error (topic : TopicConfig.t) :
  TopicConfig.modules topic <> [] ->
  count_type STARTER (TopicConfig.modules topic) = 0%nat ->
  In (u "At least one starter module is required") (errors (validate topic)).
Proof.
  intros Hne Hcount. unfold validate_topic. cbv zeta. cbn [errors].
  rewrite !in_app_iff. do 8 right. left.
  rewrite Hcount. destruct (TopicConfig.modules topic); [done|]. by left.
Qed.

Lemma no_assignment_error (topic : TopicConfig.t) :
  (1 < length (TopicConfig.modules topic))%nat ->
  count_type ASSIGNMENT (TopicConfig.modules topic) = 0%nat ->
  In (u "Multi-module lessons need at least one assignment module")
     (errors (validate topic)).
Proof.
  intros Hlen Hcount. unfold validate_topic. cbv zeta. cbn [errors].
  rewrite !in_app_iff. do 9 right. left.
  rewrite Hcount.
  destruct (TopicConfig.modules topic) as [|m1 [|m2 l]]; simpl in Hlen; [lia | lia |].
  by left.
Qed.

Lemma count_type_none (ty : ModuleType) (ms : list ModuleConfig.t) :
  Forall (fun m => ModuleConfig.type m <> ty) ms -> count_type ty ms = 0%nat.
Proof.
  unfold count_type. induction 1 as [|m ms Hm _ IH]; simpl; [done|].
  by rewrite bool_decide_false.
Qed.

Lemma count_name_app (n : pystr) (l1 l2 : list pystr) :
  count_name n (l1 ++ l2) = (count_name n l1 + count_name n l2)%nat.
Proof. unfold count_name. by rewrite List.filter_app, length_app. Qed.

Lemma count_name_cons_eq (n : pystr) (l : list pystr) :
  count_name n (n :: l) = S (count_name n l).
Proof. unfold count_name. simpl. by rewrite bool_decide_true. Qed.

Lemma duplicate_error (topic : TopicConfig.t) (l1 l2 l3 : list ModuleConfig.t)
    (m1 m2 : ModuleConfig.t) :
  TopicConfig.modules topic = l1 ++ m1 :: l2 ++ m2 :: l3 ->
  normalized_name m1 = normalized_name m2 ->
  exists repeated,
    repeated <> [] /\
    In (u "Duplicate module names found: " ++ join (u ", ") (set_iter repeated))
       (errors (validate topic)).
Proof.
  intros Hmods Hsame.
  set (names := map normalized_name (TopicConfig.modules topic)).
  set (repeated := List.filter (fun n => (1 <? count_name n names)%nat) names).
  assert (Hin : In (normalized_name m1) repeated).
  { apply filter_In. split.
    - unfold names. rewrite Hmods. apply in_map, in_elt.
    - apply Nat.ltb_lt. unfold names. rewrite Hmods, map_app. simpl map.
      rewrite map_app. simpl map. rewrite <- Hsame.
      rewrite count_name_app, count_name_cons_eq, count_name_app, count_name_cons_eq.
      lia. }
  exists repeated. split; [by destruct repeated|].
  unfold validate_topic. cbv zeta. cbn [errors].
  rewrite !in_app_iff. do 10 right.
  fold normalized_name. fold names. fold repeated.
  destruct repeated as [|r rs]; [destruct Hin|].
  rewrite Hmods. destruct l1; by left.
Qed.

(** C7: the validator enforces the composition of the module list.  A
    topic with a single module that is no starter is rejected with an error
    that mentions "starter module" (and the [modules] validator of
    [TopicConfig] refuses it with such a message too); a topic with several
    modules and no assignment module is rejected; a topic in which two
    modules have the same lower-cased, stripped name is rejected with an
    error about duplicate names.  Only errors reject: a topic is valid
    exactly when the list of errors is empty, whatever the warnings and
    suggestions. *)
Theorem validate_topic_module_composition :
  (forall topic m,
     TopicConfig.modules topic = [m] -> ModuleConfig.type m <> STARTER ->
     is_valid (validate topic) = false /\
     (exists e, In e (errors (validate topic)) /\ contains (u "starter module") e = true) /\
     (exists e, TopicConfig.validate_modules [m] = Raise e /\
                contains (u "starter module") (exn_msg e) = true)) /\
  (forall topic,
     (1 < length (TopicConfig.modules topic))%nat ->
     Forall (fun m => ModuleConfig.type m <> ASSIGNMENT) (TopicConfig.modules topic) ->
     is_valid (validate topic) = false) /\
  (forall topic l1 m1 l2 m2 l3,
     TopicConfig.modules topic = l1 ++ m1 :: l2 ++ m2 :: l3 ->
     normalized_name m1 = normalized_name m2 ->
     is_valid (validate topic) = false /\
     (exists e, In e (errors (validate topic)) /\
                startswith (u "Duplicate module names found: ") e = true)) /\
  (forall topic,
     is_valid (validate topic) = true <-> errors (validate topic) = []).
Proof.
  split; [|split; [|split]].
  - intros topic m Hmods Htype.
    assert (Hin : In (u "At least one starter module is required") (errors (validate topic))).
    { apply no_starter_error; rewrite Hmods; [done|].
      apply count_type_none. by constructor. }
    split; [by eapply error_rejects|].
    split; [by eexists|].
    unfold TopicConfig.validate_modules, TopicConfig.has_type. simpl.
    rewrite bool_decide_false by done. simpl. by eexists.
  - intros topic Hlen Hnone.
    eapply error_rejects, no_assignment_error; [done|].
    by apply count_type_none.
  - intros topic l1 m1 l2 m2 l3 Hmods Hsame.
    destruct (duplicate_error topic l1 l2 l3 m1 m2 Hmods Hsame) as (repeated & _ & Hin).
    split; [by eapply error_rejects|].
    eexists. split; [exact Hin|]. apply startswith_app.
  - apply is_valid_iff_no_errors.
Qed.

End ValidationFacts.

(** ** Reasoning about computations *)

Section WpRules.
Context {A B : Type}.
Implicit Types (Q : State -> A -> Prop) (Qx : State -> exn -> Prop).

Lemma wp_ret (a : A) Q Qx s : Q s a -> wp (ret a) Q Qx s.
Proof. done. Qed.

Lemma wp_raise (e : exn) Q Qx s : Qx s e -> wp (raise e) Q Qx s.
Proof. done. Qed.

Lemma wp_bind (m : M A) (k : A -> M B) (Q : State -> B -> Prop) Qx s :
  wp m (fun s' a => wp (k a) Q Qx s') Qx s -> wp (bind m k) Q Qx s.
Proof. unfold wp, bind. by destruct (m s) as [s' [a|e]]. Qed.

Lemma wp_try_except (m : M A) (h : exn -> M A) Q Qx s :
  wp m Q (fun s' e => wp (h e) Q Qx s') s -> wp (try_except m h) Q Qx s.
Proof. unfold wp, try_except. by destruct (m s) as [s' [a|e]]. Qed.

Lemma wp_ask (f : nat -> A) Q Qx s :
  Q (set_tick (S (tick s)) s) (f (tick s)) -> wp (ask f) Q Qx s.
Proof. done. Qed.

Lemma wp_mono (m : M A) Q Q' Qx Qx' s :
  wp m Q Qx s ->
  (forall s' a, Q s' a -> Q' s' a) -> (forall s' e, Qx s' e -> Qx' s' e) ->
  wp m Q' Qx' s.
Proof. unfold wp. destruct (m s) as [s' [a|e]]; auto. Qed.

Lemma wp_run (m : M A) Q Qx s s' r :
  m s = (s', r) -> wp m Q Qx s ->
  match r with Ok a => Q s' a | Raise e => Qx s' e end.
Proof. unfold wp. by intros ->. Qed.

End WpRules.

Lemma wp_modify (f : State -> State) (Q : State -> unit -> Prop) Qx s :
  Q (f s) tt -> wp (modify f) Q Qx s.
Proof. done. Qed.

Lemma wp_get_state (Q : State -> State -> Prop) Qx s :
  Q s s -> wp get_state Q Qx s.
Proof. done. Qed.

Lemma wp_lift_result {A} (r : result A) (Q : State -> A -> Prop) Qx s :
  match r with Ok a => Q s a | Raise e => Qx s e end -> wp (lift_result r) Q Qx s.
Proof. by destruct r. Qed.

Lemma wp_lift_fault (o : option exn) (Q : State -> unit -> Prop) Qx s :
  match o with None => Q s tt | Some e => Qx s e end -> wp (lift_fault o) Q Qx s.
Proof. by destruct o. Qed.

Ltac wp_step :=
  lazymatch goal with
  | |- wp (bind _ _) _ _ _ => apply wp_bind
  | |- wp (try_except _ _) _ _ _ => apply wp_try_except
  | |- wp (ask _) _ _ _ => apply wp_ask
  | |- wp (ret _) _ _ _ => apply wp_ret
  | |- wp (raise _) _ _ _ => apply wp_raise
  | |- wp (modify _) _ _ _ => apply wp_modify
  | |- wp get_state _ _ _ => apply wp_get_state
  | |- wp (lift_result _) _ _ _ => apply wp_lift_result
  | |- wp (lift_fault _) _ _ _ => apply wp_lift_fault
  | |- wp (if ?b then _ else _) _ _ _ => destruct b eqn:?
  | |- wp (match ?x with _ => _ end) _ _ _ => destruct x eqn:?
  | |- match ?x with _ => _ end => destruct x eqn:?
  end.
Ltac wp_steps := repeat wp_step.

Section Keeps.
Variable R : State -> State -> Prop.
Hypothesis HR : Tolerates R.
Context {A B : Type}.

Lemma keeps_ret (a : A) : keeps R (ret a).
Proof. by intros s0 s H. Qed.

Lemma keeps_raise (e : exn) : keeps R (@raise A e).
Proof. by intros s0 s H. Qed.

Lemma keeps_bind (m : M A) (k : A -> M B) :
  keeps R m -> (forall a, keeps R (k a)) -> keeps R (bind m k).
Proof.
  intros Hm Hk s0 s H. apply wp_bind.
  eapply wp_mono; [by apply Hm | | done].
  intros s' a H'. by apply Hk.
Qed.

Lemma keeps_try_except (m : M A) (h : exn -> M A) :
  keeps R m -> (forall e, keeps R (h e)) -> keeps R (try_except m h).
Proof.
  intros Hm Hh s0 s H. apply wp_try_except.
  eapply wp_mono; [by apply Hm | done |].
  intros s' e H'. by apply Hh.
Qed.

Lemma keeps_ask (f : nat -> A) : keeps R (ask f).
Proof. intros s0 s H. apply wp_ask. by apply (tol_tick _ HR). Qed.

Lemma keeps_lift_result (r : result A) : keeps R (lift_result r).
Proof. intros s0 s H. by destruct r. Qed.

End Keeps.

Lemma keeps_get_state R : keeps R get_state.
Proof. by intros s0 s H. Qed.

Lemma keeps_lift_fault R (o : option exn) : keeps R (lift_fault o).
Proof. intros s0 s H. by destruct o. Qed.

Lemma keeps_modify R (f : State -> State) :
  (forall s0 s, R s0 s -> R s0 (f s)) -> keeps R (modify f).
Proof. intros Hf s0 s H. apply wp_modify. by apply Hf. Qed.

Lemma keeps_run R {A} (m : M A) s s' r :
  keeps R m -> R s s -> m s = (s', r) -> R s s'.
Proof.
  intros Hm Hrefl Hrun. specialize (Hm s s Hrefl). unfold wp in Hm.
  rewrite Hrun in Hm. by destruct r.
Qed.

Ltac keeps_step HR :=
  lazymatch goal with
  | |- keeps _ (bind _ _) => apply (keeps_bind _); [|intros ?]
  | |- keeps _ (try_except _ _) => apply (keeps_try_except _); [|intros ?]
  | |- keeps _ (ask _) => apply (keeps_ask _ HR)
  | |- keeps _ (ret _) => apply keeps_ret
  | |- keeps _ (raise _) => apply keeps_raise
  | |- keeps _ get_state => apply keeps_get_state
  | |- keeps _ (lift_result _) => apply keeps_lift_result
  | |- keeps _ (lift_fault _) => apply keeps_lift_fault
  | |- keeps _ (if ?b then _ else _) => destruct b
  | |- keeps _ (match ?x with _ => _ end) => destruct x
  end.

(** ** The content generator (content.py) *)

Section ContentFacts.
Variable I : Interp.
Variable E : Env.
Variable self : Content.ContentGenerator.
Import Content.
Local Abbreviation fallback_text := (fallback_text I).
Local Abbreviation answers := (answers E).
Local Abbreviation provider_raises := (provider_raises E self).

Lemma fallback_content_run (request : ContentGenerationRequest) (start_time : Z) (s : State) :
  _generate_fallback_content I E request start_time s =
    (set_tick (S (tick s)) s,
     Ok {| content := fallback_text request;
           model_used := u "fallback";
           tokens_used := 0;
           generation_time_seconds := (env_time E (tick s) - start_time)%Z;
           success := true;
           error := None |}).
Proof. reflexivity. Qed.

Lemma wp_fallback request start_time (Q : State -> ContentGenerationResponse -> Prop) Qx s :
  Q (set_tick (S (tick s)) s)
    {| content := fallback_text request;
       model_used := u "fallback";
       tokens_used := 0;
       generation_time_seconds := (env_time E (tick s) - start_time)%Z;
       success := true;
       error := None |} ->
  wp (_generate_fallback_content I E request start_time) Q Qx s.
Proof. intros H. unfold wp. by rewrite fallback_content_run. Qed.

Section Kept.
Variable R : State -> State -> Prop.
Hypothesis HR : Tolerates R.

Lemma keeps_fallback request start_time :
  keeps R (_generate_fallback_content I E request start_time).
Proof.
  unfold _generate_fallback_content. cbv zeta.
  repeat keeps_step HR.
Qed.

Lemma keeps_ai_attempt request prompt start_time :
  keeps R (ai_attempt E self request prompt start_time).
Proof.
  unfold ai_attempt, sleep, _optimize_prompt_for_cost, _get_cost_optimal_model,
    reply_content, first_choice, none_has_no_strip.
  cbv zeta.
  repeat first
    [ keeps_step HR
    | apply keeps_modify; intros; by apply (tol_current _ HR) ].
Qed.

Lemma keeps_ai_content request start_time :
  keeps R (_generate_ai_content I E self request start_time).
Proof.
  unfold _generate_ai_content. cbv zeta.
  apply (keeps_try_except _); [apply keeps_ai_attempt | intros e; apply keeps_fallback].
Qed.

End Kept.

Lemma same_books_tolerates : Tolerates same_books.
Proof. by split. Qed.

Lemma same_books_refl s : same_books s s.
Proof. by repeat split. Qed.


(** *** The AI path *)

Lemma ai_attempt_wp request prompt start_time (R : State -> State -> Prop) s0 s :
  Tolerates R -> R s0 s ->
  wp (ai_attempt E self request prompt start_time)
     (fun s' r => R s0 s' /\ success r = true /\ model_used r = openai_model (config self))
     (fun s' _ => R s0 s') s.
Proof.
  intros HR H.
  unfold ai_attempt, sleep, _optimize_prompt_for_cost, _get_cost_optimal_model,
    reply_content, first_choice, none_has_no_strip.
  cbv zeta.
  wp_steps; repeat split;
    repeat (apply (tol_tick _ HR) || apply (tol_current _ HR)); done.
Qed.

Lemma ai_content_wp request start_time (R : State -> State -> Prop) s0 s :
  Tolerates R -> R s0 s ->
  wp (_generate_ai_content I E self request start_time)
     (fun s' r => R s0 s' /\ success r = true)
     (fun _ _ => False) s.
Proof.
  intros HR H. unfold _generate_ai_content. cbv zeta.
  apply wp_try_except.
  eapply wp_mono; [by apply (ai_attempt_wp _ _ _ R s0) | by intros ? ? (? & ? & ?) |].
  intros s' e H'. apply wp_fallback.
  split; [by apply (tol_tick _ HR) | done].
Qed.

Lemma wp_total {A} (m : M A) (Q : State -> A -> Prop) s :
  wp m Q (fun _ _ => False) s -> exists s' a, m s = (s', Ok a) /\ Q s' a.
Proof. unfold wp. destruct (m s) as [s' [a|e]]; [by eexists _, _ | done]. Qed.

Lemma ai_attempt_spec request prompt start_time answer s :
  answers answer ->
  wp (ai_attempt E self request prompt start_time)
     (fun s' r =>
        Validation.Qltb (rate_limit_delay (config self)) 0 = false /\
        exists ct reply c rest,
          env_client_type E = Some ct /\ answer = Ok reply /\ choices reply = c :: rest /\
          ai_content ct c (req_content_type request) = Some (content r) /\
          model_used r = openai_model (config self) /\
          tokens_used r = reply_tokens reply /\ success r = true)
     (fun _ _ => provider_raises answer) s.
Proof.
  intros Hans.
  unfold ai_attempt, sleep. cbv zeta.
  destruct (Validation.Qltb _ 0) eqn:Hdelay.
  { apply wp_bind, wp_raise. by left. }
  apply wp_bind, wp_ask, wp_bind.
  unfold _optimize_prompt_for_cost. apply wp_bind, wp_modify, wp_ret.
  destruct (env_client_type E) as [ct|] eqn:Hct; [|apply wp_raise; right; by left].
  apply wp_bind.
  eapply wp_mono with (Q := fun _ _ => True) (Qx := fun _ _ => False).
  { unfold _get_cost_optimal_model. wp_steps; done. }
  2: done.
  intros s1 model _.
  apply wp_bind, wp_ask. rewrite Hans.
  apply wp_bind.
  destruct answer as [reply|e]; [apply wp_ret | apply wp_raise; do 2 right; left; by eexists].
  apply wp_bind. unfold reply_content, first_choice, none_has_no_strip.
  apply wp_bind.
  destruct (choices reply) as [|c rest] eqn:Hchoices.
  { apply wp_raise. do 3 right. exists reply. by rewrite Hchoices. }
  apply wp_ret.
  assert (Hbad : match c with
                 | ChatMessage None | MalformedChoice => True
                 | TextChoice _ => ct = Modern
                 | ChatMessage (Some _) => False
                 end -> provider_raises (Ok reply)).
  { intros Hc. do 3 right. exists reply. split; [done|]. rewrite Hchoices.
    destruct c as [[?|]| |]; by subst. }
  destruct ct, c as [[text|]|text|];
    try (apply wp_raise; by apply Hbad);
    apply wp_ret, wp_bind, wp_ask, wp_ret;
    (split; [reflexivity|]); eexists _, reply, _, rest;
    unfold ai_content, finish; cbn [content model_used tokens_used success];
    split_and!; first [eassumption | reflexivity].
Qed.


End ContentFacts.

(** ** The content cache (content.py) *)

Section CacheFacts.
Variable I : Interp.
Variable E : Env.
Variable self : Content.ContentGenerator.
Import Content.
Local Abbreviation generate := (generate_content I E self).
Local Abbreviation key_of := (_create_cache_key I).
Local Abbreviation normalize := (normalize I).
Local Abbreviation request_identity := (request_identity I).
Local Abbreviation run_call := (run_call I E self).
Local Abbreviation run_calls := (run_calls I E self).

Lemma same_identity_same_key ct1 topic1 m1 ct2 topic2 m2 :
  request_identity ct1 topic1 m1 = request_identity ct2 topic2 m2 ->
  key_of ct1 topic1 m1 = key_of ct2 topic2 m2.
Proof.
  unfold request_identity, _create_cache_key, normalize.
  intros [= -> Hname Hdiff Hmod]. cbv zeta. rewrite Hname, Hdiff.
  destruct m1 as [m1|], m2 as [m2|]; simpl in Hmod; try done.
  by injection Hmod as -> ->.
Qed.

Hypothesis Hcache : enable_cache (config self) = true.

Lemma generate_content_hit ct topic m x s r :
  _content_cache s !! key_of ct topic m = Some r ->
  generate ct topic m x s =
    (set_cache_hits (S (cache_hits s)) (set_tick (S (tick s)) s), Ok r).
Proof.
  intros Hlook. unfold generate_content, bind, ask, get_state. cbv zeta.
  rewrite Hcache. cbn [_content_cache set_tick]. by rewrite Hlook.
Qed.

Lemma generate_content_caches ct topic m x s :
  wp (generate ct topic m x)
     (fun s' r =>
        _content_cache s' !! key_of ct topic m = Some r /\
        forall k r0, _content_cache s !! k = Some r0 -> _content_cache s' !! k = Some r0)
     (fun _ _ => False) s.
Proof.
  set (same := fun s0 s1 : State => _content_cache s1 = _content_cache s0).
  assert (Htol : Tolerates same) by done.
  unfold generate_content. cbv zeta. rewrite Hcache.
  apply wp_bind, wp_ask, wp_bind, wp_get_state.
  cbn [_content_cache set_tick].
  destruct (_content_cache s !! key_of ct topic m) as [cached|] eqn:Hlook.
  { by apply wp_bind, wp_modify, wp_ret. }
  apply wp_bind.
  eapply wp_mono with (Q := fun s' _ => same s s') (Qx := fun _ _ => False); [| |done].
  - destruct (_ && _).
    + apply wp_bind.
      eapply wp_mono; [by apply (ai_content_wp _ _ _ _ _ same s) | | done].
      intros s' r [Hs' _]. by apply wp_bind, wp_modify, wp_ret.
    + by apply wp_bind, wp_fallback, wp_bind, wp_modify, wp_ret.
  - intros s' r Hs'. apply wp_bind, wp_modify, wp_ret.
    cbn [_content_cache set_cache]. rewrite Hs'. split.
    + apply lookup_insert_eq.
    + intros k r0 Hk. rewrite lookup_insert_ne; [done|]. congruence.
Qed.

Lemma run_calls_keep_entry (calls : list Call) (s : State) k r :
  _content_cache s !! k = Some r -> _content_cache (run_calls calls s) !! k = Some r.
Proof.
  revert s. induction calls as [|c calls IH]; intros s Hk; [done|].
  simpl. apply IH. unfold run_call.
  pose proof (generate_content_caches (call_content_type c) (call_topic c) (call_module c)
                (call_extra c) s) as Hwp.
  unfold wp in Hwp. destruct (generate _ _ _ _ s) as [s' [r'|e]]; [|done].
  simpl. by apply Hwp.
Qed.


End CacheFacts.


(** ** Storage *)

Lemma grows_refl s : grows s s.
Proof. by intros p. Qed.

Lemma grows_trans s0 s1 s2 : grows s0 s1 -> grows s1 s2 -> grows s0 s2.
Proof. intros H1 H2 p Hp. by apply H2, H1. Qed.

Lemma grows_tolerates : Tolerates grows.
Proof. by split. Qed.

Lemma stored_grows s s' f : grows s s' -> stored s f -> stored s' f.
Proof. intros H Hf. by apply H. Qed.

Lemma Forall_stored_grows s s' fs :
  grows s s' -> Forall (stored s) fs -> Forall (stored s') fs.
Proof.
  intros H Hfs. eapply Forall_impl; [exact Hfs|].
  intros f. by apply stored_grows.
Qed.

(** A computation that keeps [grows], started in a state reached from [s0]. *)
Lemma wp_keeps {A} (R : State -> State -> Prop) (m : M A) Q Qx s0 s :
  keeps R m -> R s0 s -> wp m Q Qx s ->
  wp m (fun s' a => R s0 s' /\ Q s' a) (fun s' e => R s0 s' /\ Qx s' e) s.
Proof.
  intros Hk HR Hwp. specialize (Hk s0 s HR). unfold wp in *.
  by destruct (m s) as [s' [a|e]].
Qed.

Lemma wp_true {A} (m : M A) s : wp m (fun _ _ => True) (fun _ _ => True) s.
Proof. unfold wp. by destruct (m s) as [s' [a|e]]. Qed.

Lemma wp_of_keeps {A} (R : State -> State -> Prop) (m : M A) s0 s :
  keeps R m -> R s0 s -> wp m (fun s' _ => R s0 s') (fun s' _ => R s0 s') s.
Proof. intros Hk HR. by apply Hk. Qed.

Section ContentGrows.
Variable I : Interp.
Variable E : Env.
Variable self : Content.ContentGenerator.
Import Content.

Lemma keeps_grows_generate_content ct topic m x :
  keeps grows (generate_content I E self ct topic m x).
Proof.
  unfold generate_content. cbv zeta.
  repeat first
    [ keeps_step grows_tolerates
    | apply keeps_ai_content; apply grows_tolerates
    | apply keeps_fallback; apply grows_tolerates
    | apply keeps_modify; by intros ].
Qed.

End ContentGrows.

(** ** Lesson generation (core.py) *)

Section CoreFacts.
Variable I : Interp.
Variable E : Env.
Variable cfg : Content.GenerationConfig.
Import Content Quality Core.
Local Abbreviation write_refused := (write_refused E).
Local Abbreviation mkdir_refused := (mkdir_refused E).
Local Abbreviation last_resort_refused := (last_resort_refused E).
Local Abbreviation module_ok := (module_ok I).
Local Abbreviation module_failed := (module_failed I E).
Local Abbreviation module_outcome := (module_outcome I E).
Local Abbreviation loop_inv := (loop_inv I E).
Local Abbreviation config_write_refused := (config_write_refused I E).
Local Abbreviation lesson_dir_of := (lesson_dir_of cfg).
Local Abbreviation config_paths := (config_paths I cfg).
Local Abbreviation topic_valid := (topic_valid I).
Local Abbreviation lesson_outcome := (lesson_outcome I E cfg).
Local Abbreviation Rejected := (Rejected I E cfg).
Local Abbreviation Aborted := (Aborted I E cfg).
Local Abbreviation PartialFailure := (PartialFailure I E cfg).
Local Abbreviation Completed := (Completed I E cfg).

Lemma write_text_spec p c s0 s :
  grows s0 s ->
  wp (write_text E p c)
     (fun s' _ => grows s0 s' /\ is_Some (files s' !! p))
     (fun s' e => grows s0 s' /\ write_refused p c e) s.
Proof.
  intros H. unfold write_text. apply wp_bind, wp_ask.
  destruct (env_write_text E (tick s) p c) as [e|] eqn:Hw.
  - apply wp_raise. split; [done | by eexists].
  - apply wp_modify. cbn [files set_files set_tick]. split.
    + intros q Hq. apply lookup_insert_is_Some'. right. by apply H.
    + apply lookup_insert_is_Some'. by left.
Qed.

Lemma mkdir_spec p s0 s :
  grows s0 s ->
  wp (mkdir E p) (fun s' _ => grows s0 s') (fun s' e => grows s0 s' /\ mkdir_refused p e) s.
Proof.
  intros H. unfold mkdir. apply wp_bind, wp_ask.
  destruct (env_mkdir E (tick s) p) as [e|] eqn:Hw.
  - apply wp_raise. split; [done | by eexists].
  - by apply wp_modify.
Qed.

Lemma keeps_grows_file_content topic m gc filename ct tn :
  keeps grows (file_content I E cfg topic m gc filename ct tn).
Proof.
  unfold file_content. cbv zeta.
  repeat first
    [ apply keeps_grows_generate_content
    | keeps_step grows_tolerates ].
Qed.

Lemma wp_attempt {A} (m : M A) (Q : State -> exn + A -> Prop) Qx s :
  wp m (fun s' a => Q s' (inr a)) (fun s' e => Q s' (inl e)) s ->
  wp (attempt m) Q Qx s.
Proof.
  intros H. unfold attempt. apply wp_try_except, wp_bind.
  eapply wp_mono; [exact H | by intros; apply wp_ret | by intros; apply wp_ret].
Qed.

Section OneModule.
Variable topic : TopicConfig.t.
Variable module_config : ModuleConfig.t.
Variable module_dir : pystr.
Local Abbreviation extra_content := (extra_content module_config).
Local Abbreviation last_resort_refused := (last_resort_refused module_config module_dir).

Lemma write_placeholder_spec filename e s0 s :
  grows s0 s ->
  wp (write_placeholder E module_config module_dir filename e)
     (fun s' f => grows s0 s' /\ stored s' f /\ gf_path f = path_join module_dir filename)
     (fun s' e' => grows s0 s' /\ last_resort_refused e') s.
Proof.
  intros H. unfold write_placeholder. cbv zeta. apply wp_bind.
  eapply wp_mono; [apply (write_text_spec _ _ s0 s H) | |].
  - intros s' [] [Hg Hp]. by apply wp_ret.
  - intros s' e' [Hg Hr]. split; [done|]. left. by eexists _, _.
Qed.

Lemma generate_file_spec gc fs filename ct tn s :
  Forall (stored s) fs ->
  wp (generate_file I E cfg topic module_config module_dir (gc, fs) (filename, (ct, tn)))
     (fun s' acc =>
        grows s s' /\ Forall (stored s') (snd acc) /\
        map gf_path (snd acc) = map gf_path fs ++ [path_join module_dir filename])
     (fun s' e' => grows s s' /\ last_resort_refused e') s.
Proof.
  intros Hfs. unfold generate_file.
  assert (Hdone : forall s' f,
             grows s s' -> stored s' f -> gf_path f = path_join module_dir filename ->
             Forall (stored s') (fs ++ [f]) /\
             map gf_path (fs ++ [f]) = map gf_path fs ++ [path_join module_dir filename]).
  { intros s' f Hg Hf Hp. split.
    - apply Forall_app. split; [by eapply Forall_stored_grows | by constructor].
    - by rewrite map_app, <- Hp. }
  apply wp_bind, wp_attempt.
  eapply wp_mono; [apply (wp_of_keeps grows _ s s (keeps_grows_file_content _ _ _ _ _ _)), grows_refl | |].
  - intros s1 content Hg1. cbv beta iota.
    apply wp_bind, wp_attempt.
    eapply wp_mono; [apply (write_text_spec _ _ s s1 Hg1) | |].
    + intros s2 [] [Hg2 Hp]. apply wp_ret. split; [done|]. by apply Hdone.
    + intros s2 e [Hg2 _]. apply wp_bind.
      eapply wp_mono; [apply (write_placeholder_spec _ _ s s2 Hg2) | | done].
      intros s3 f (Hg3 & Hf & Hp). apply wp_ret. split; [done|]. by apply Hdone.
  - intros s1 e Hg1. cbv beta iota. apply wp_bind.
    eapply wp_mono; [apply (write_placeholder_spec _ _ s s1 Hg1) | | done].
    intros s3 f (Hg3 & Hf & Hp). apply wp_ret. split; [done|]. by apply Hdone.
Qed.

Lemma generate_files_spec (entries : list (pystr * (pystr * pystr))) gc fs s :
  Forall (stored s) fs ->
  wp (for_each (generate_file I E cfg topic module_config module_dir) entries (gc, fs))
     (fun s' acc =>
        grows s s' /\ Forall (stored s') (snd acc) /\
        map gf_path (snd acc) =
          map gf_path fs ++ map (fun entry => path_join module_dir (fst entry)) entries)
     (fun s' e' => grows s s' /\ last_resort_refused e') s.
Proof.
  revert gc fs s. induction entries as [|[filename [ct tn]] entries IH]; intros gc fs s Hfs.
  - apply wp_ret. simpl. rewrite app_nil_r. by split; [apply grows_refl|].
  - simpl. apply wp_bind.
    eapply wp_mono; [by apply generate_file_spec | |].
    + intros s1 [gc1 fs1] (Hg1 & Hfs1 & Hpaths1). simpl in *.
      eapply wp_mono; [by apply IH | |].
      * intros s2 acc (Hg2 & Hfs2 & Hpaths2).
        split; [by eapply grows_trans|]. split; [done|].
        by rewrite Hpaths2, Hpaths1, <- app_assoc.
      * intros s2 e' [Hg2 Hr]. split; [by eapply grows_trans | done].
    + by intros.
Qed.

Lemma standard_module_files_spec s :
  wp (_generate_standard_module_files I E cfg topic module_config module_dir)
     (fun s' fs =>
        grows s s' /\ Forall (stored s') fs /\
        map gf_path fs = map (path_join module_dir) (expected_files STARTER))
     (fun s' e' => grows s s' /\ last_resort_refused e') s.
Proof.
  unfold _generate_standard_module_files. apply wp_bind.
  eapply wp_mono; [by apply generate_files_spec | | done].
  intros s' acc (Hg & Hfs & Hpaths). apply wp_ret. split; [done|]. split; [done|].
  rewrite Hpaths. reflexivity.
Qed.

Lemma extra_module_files_spec s :
  wp (_generate_extra_module_files E module_config module_dir)
     (fun s' fs =>
        grows s s' /\ Forall (stored s') fs /\
        map gf_path fs = map (path_join module_dir) (expected_files EXTRA))
     (fun s' e' => grows s s' /\ last_resort_refused e') s.
Proof.
  unfold _generate_extra_module_files. cbv zeta. apply wp_bind.
  eapply wp_mono; [apply write_text_spec, grows_refl | |].
  - intros s' [] [Hg Hp]. apply wp_ret. split; [done|]. split; [by constructor | done].
  - intros s' e' [Hg Hr]. split; [done|]. by right.
Qed.

End OneModule.

Lemma generate_module_spec topic m lesson_dir s :
  wp (_generate_module I E cfg topic m lesson_dir)
     (fun s' mr => grows s s' /\ files_stored s' mr /\ module_outcome lesson_dir m mr)
     (fun _ _ => False) s.
Proof.
  unfold _generate_module. cbv zeta.
  apply wp_bind, wp_ask, wp_try_except, wp_bind.
  set (s1 := set_tick (S (tick s)) s).
  assert (Hg1 : grows s s1) by exact (grows_refl s).
  assert (Hfail : forall s' e,
             grows s s' ->
             mkdir_refused (module_dir_of I lesson_dir m) e \/
             last_resort_refused m (module_dir_of I lesson_dir m) e ->
             wp (let* now := ask (env_time E)
                 in ret (ModuleGenerationResult.mk (ModuleConfig.name m) false []
                           (Some (exn_msg e)) (now - env_time E (tick s))%Z))%py
                (fun s'' mr => grows s s'' /\ files_stored s'' mr /\
                               module_outcome lesson_dir m mr)
                (fun _ _ => False) s').
  { intros s' e Hg Hcause. apply wp_bind, wp_ask, wp_ret.
    split; [done|]. split; [constructor|]. right. repeat split. by exists e. }
  eapply wp_mono; [apply (mkdir_spec _ s s1 Hg1) | |].
  2: { intros s' e [Hg Hr]. apply Hfail; [done | by left]. }
  intros s2 [] Hg2. apply wp_bind.
  assert (Hfiles :
    wp (match ModuleConfig.type m with
        | EXTRA => _generate_extra_module_files E m (module_dir_of I lesson_dir m)
        | _ => _generate_standard_module_files I E cfg topic m (module_dir_of I lesson_dir m)
        end)
       (fun s' fs =>
          grows s2 s' /\ Forall (stored s') fs /\
          map gf_path fs =
            map (path_join (module_dir_of I lesson_dir m)) (expected_files (ModuleConfig.type m)))
       (fun s' e' => grows s2 s' /\ last_resort_refused m (module_dir_of I lesson_dir m) e') s2).
  { destruct (ModuleConfig.type m);
      first [apply standard_module_files_spec | apply extra_module_files_spec]. }
  eapply wp_mono; [exact Hfiles | |].
  - intros s3 fs (Hg3 & Hfs & Hpaths). apply wp_bind, wp_ask, wp_ret.
    split; [exact (grows_trans _ _ _ Hg2 Hg3)|].
    split; [done|]. left. by repeat split.
  - intros s3 e [Hg3 Hr]. apply Hfail; [|by right].
    exact (grows_trans _ _ _ Hg2 Hg3).
Qed.

(** *** The loop over the modules *)

Lemma files_stored_grows s s' mr : grows s s' -> files_stored s mr -> files_stored s' mr.
Proof. intros. by eapply Forall_stored_grows. Qed.

Lemma all_succeeded_app mrs mr :
  all_succeeded (mrs ++ [mr]) = all_succeeded mrs && ModuleGenerationResult.success mr.
Proof. unfold all_succeeded. rewrite forallb_app. simpl. by rewrite andb_true_r. Qed.

Ltac result_simpl :=
  cbn [LessonGenerationResult.modules LessonGenerationResult.success
       LessonGenerationResult.error LessonGenerationResult.config_files
       LessonGenerationResult.quality_report LessonGenerationResult.output_path
       LessonGenerationResult.with_modules LessonGenerationResult.with_success
       LessonGenerationResult.with_error LessonGenerationResult.with_config_files
       LessonGenerationResult.with_quality_report
       LessonGenerationResult.with_generation_time] in *.

Lemma add_module_spec topic lesson_dir processed r m s :
  loop_inv lesson_dir s processed r ->
  wp (add_module I E cfg topic lesson_dir r m)
     (fun s' r' => grows s s' /\ loop_inv lesson_dir s' (processed ++ [m]) r')
     (fun _ _ => False) s.
Proof.
  intros (Hout & Hst & Hsucc & Hnone & Hsome & Hcfg & Hqa).
  unfold add_module. cbv zeta. apply wp_bind.
  eapply wp_mono; [apply generate_module_spec | | done].
  intros s' mr (Hg & Hmr & Hoc).
  assert (Hout' : Forall2 (module_outcome lesson_dir) (processed ++ [m])
                    (LessonGenerationResult.modules r ++ [mr])).
  { apply Forall2_app; [done | by constructor]. }
  assert (Hst' : Forall (files_stored s') (LessonGenerationResult.modules r ++ [mr])).
  { apply Forall_app. split; [|by constructor].
    eapply Forall_impl; [exact Hst|]. intros x. by apply files_stored_grows. }
  destruct (ModuleGenerationResult.success mr) eqn:Hok; cbn [negb].
  - apply wp_ret. split; [done|]. unfold loop_inv. result_simpl.
    rewrite all_succeeded_app, Hok, andb_true_r.
    split_and!; try done.
    intros Hf. destruct (Hsome Hf) as (m0 & Hin & Herr).
    exists m0. split; [|done]. apply in_app_iff. by left.
  - assert (Hnew : forall r',
               LessonGenerationResult.modules r' = LessonGenerationResult.modules r ++ [mr] ->
               LessonGenerationResult.success r' = false ->
               (exists m0, In m0 (processed ++ [m]) /\
                           LessonGenerationResult.error r' = Some ((u "Failed to generate module: " ++ ModuleConfig.name m0))) ->
               LessonGenerationResult.config_files r' = [] ->
               LessonGenerationResult.quality_report r' = None ->
               loop_inv lesson_dir s' (processed ++ [m]) r').
    { intros r' Hm Hs He Hc Hq. unfold loop_inv. rewrite Hm, Hs, all_succeeded_app, Hok, andb_false_r.
      split_and!; done. }
    assert (Hlast : In m (processed ++ [m])) by (apply in_app_iff; right; by left).
    result_simpl.
    destruct (LessonGenerationResult.error r) as [msg|] eqn:Herr.
    + destruct (truthy msg) eqn:Hmsg; apply wp_ret; (split; [exact Hg|]);
        apply Hnew; result_simpl; [reflexivity | reflexivity | | exact Hcfg | exact Hqa
                                  | reflexivity | reflexivity | | exact Hcfg | exact Hqa].
      * destruct (LessonGenerationResult.success r) eqn:Hs;
          [specialize (Hnone eq_refl); congruence|].
        destruct (Hsome eq_refl) as (m0 & Hin & Herr').
        exists m0. split; [apply in_app_iff; by left | congruence].
      * exists m. split; [exact Hlast | reflexivity].
    + apply wp_ret. split; [exact Hg|].
      apply Hnew; result_simpl; [reflexivity | reflexivity | | exact Hcfg | exact Hqa].
      exists m. split; [exact Hlast | reflexivity].
Qed.

Lemma module_loop_spec topic lesson_dir (rest processed : list ModuleConfig.t) r s :
  loop_inv lesson_dir s processed r ->
  wp (for_each (add_module I E cfg topic lesson_dir) rest r)
     (fun s' r' => grows s s' /\ loop_inv lesson_dir s' (processed ++ rest) r')
     (fun _ _ => False) s.
Proof.
  revert processed r s. induction rest as [|m rest IH]; intros processed r s Hinv.
  - apply wp_ret. rewrite app_nil_r. split; [apply grows_refl | done].
  - simpl. apply wp_bind.
    eapply wp_mono; [by apply add_module_spec | | done].
    intros s1 r1 [Hg1 Hinv1].
    eapply wp_mono; [by apply IH | | done].
    intros s2 r2 [Hg2 Hinv2]. split; [by eapply grows_trans|].
    by rewrite <- app_assoc in Hinv2.
Qed.

(** *** Configuration files and quality gate *)

Lemma config_files_loop_spec (lesson_dir : pystr) (entries : list (pystr * pystr)) acc s :
  Forall (stored s) acc ->
  wp (for_each
        (fun acc entry =>
           let file_path := path_join lesson_dir (fst entry) in
           write_text E file_path (snd entry) ;;;
           ret (acc ++ [generated_file file_path (snd entry) (u "text")]))%py
        entries acc)
     (fun s' fs =>
        grows s s' /\ Forall (stored s') fs /\
        map gf_path fs = map gf_path acc ++ map (fun entry => path_join lesson_dir (fst entry)) entries)
     (fun s' e =>
        grows s s' /\
        exists entry, In entry entries /\
                      write_refused (path_join lesson_dir (fst entry)) (snd entry) e) s.
Proof.
  revert acc s. induction entries as [|entry entries IH]; intros acc s Hacc.
  - apply wp_ret. simpl. rewrite app_nil_r. split; [apply grows_refl | done].
  - simpl. apply wp_bind, wp_bind.
    eapply wp_mono; [apply (write_text_spec _ _ s s (grows_refl s)) | |].
    + intros s1 [] [Hg1 Hp]. apply wp_ret.
      eapply wp_mono; [apply IH | |].
      * apply Forall_app. split; [by eapply Forall_stored_grows | by constructor].
      * intros s2 fs (Hg2 & Hfs & Hpaths). split; [by eapply grows_trans|]. split; [done|].
        rewrite Hpaths, map_app. simpl. by rewrite <- app_assoc.
      * intros s2 e (Hg2 & entry' & Hin & Hr). split; [by eapply grows_trans|].
        exists entry'. split; [by right | done].
    + intros s1 e [Hg1 Hr]. split; [done|]. exists entry. split; [by left | done].
Qed.

Lemma config_files_spec topic lesson_dir s :
  wp (_generate_lesson_config_files I E topic lesson_dir)
     (fun s' fs =>
        grows s s' /\ Forall (stored s') fs /\
        map gf_path fs =
          map (fun entry => path_join lesson_dir (fst entry)) (config_files_of I topic))
     (fun s' e => grows s s' /\ config_write_refused topic lesson_dir e) s.
Proof.
  unfold _generate_lesson_config_files.
  eapply wp_mono; [apply config_files_loop_spec; constructor | by intros | by intros].
Qed.

Lemma resolve_templates_spec s :
  wp (resolve_templates E cfg) (fun s' _ => grows s s') (fun _ _ => False) s.
Proof.
  unfold resolve_templates, lift_fault. wp_steps; exact (grows_refl s).
Qed.

Lemma validate_lesson_spec lesson_dir s :
  wp (validate_lesson E lesson_dir) (fun s' _ => grows s s') (fun _ _ => False) s.
Proof.
  unfold validate_lesson. wp_steps; exact (grows_refl s).
Qed.

Lemma quality_gate_spec lesson_dir r s :
  wp (quality_gate E lesson_dir r) (fun s' r' => grows s s' /\ gated r r') (fun _ _ => False) s.
Proof.
  unfold quality_gate. cbv zeta. apply wp_bind.
  eapply wp_mono; [apply validate_lesson_spec | | done].
  intros s' q Hg.
  destruct (quality_score_tenths q <? 5)%nat eqn:Hlow; apply wp_ret;
    (split; [exact Hg|]); unfold gated; result_simpl;
    (split; [reflexivity|]); (split; [reflexivity|]); exists q;
    (split; [reflexivity|]); rewrite Hlow; split; reflexivity.
Qed.

(** *** The lesson *)

Lemma generate_lesson_spec topic s :
  wp (generate_lesson I E cfg topic)
     (fun s' r => grows s s' /\ lesson_outcome topic s' r)
     (fun _ _ => False) s.
Proof.
  unfold generate_lesson. cbv zeta.
  apply wp_bind, wp_ask.
  set (s0 := set_tick (S (tick s)) s).
  assert (Hg0 : grows s s0) by exact (grows_refl s).
  fold (topic_valid topic). fold (lesson_dir_of topic).
  destruct (topic_valid topic) eqn:Hvalid; cbn [negb].
  2: { apply wp_try_except, wp_bind, wp_ask, wp_ret.
       split; [exact Hg0|]. by apply Rejected. }
  apply wp_try_except.
  apply wp_mono with
    (Q := fun s' r => grows s s' /\ lesson_outcome topic s' r)
    (Qx := fun s' e => grows s s' /\
             (mkdir_refused (lesson_dir_of topic) e \/
              config_write_refused topic (lesson_dir_of topic) e)).
  2: done.
  2: { intros s' e [Hg Hcause]. apply wp_bind, wp_ask, wp_bind, wp_ask, wp_ret.
       split; [exact Hg|]. by eapply Aborted. }
  apply wp_bind.
  eapply wp_mono; [apply resolve_templates_spec | | done].
  intros s1 [] Hg1. apply wp_bind.
  assert (Hg01 : grows s s1) by exact (grows_trans _ _ _ Hg0 Hg1).
  eapply wp_mono; [apply (mkdir_spec _ s s1 Hg01) | |].
  2: { intros s' e [Hg Hr]. split; [exact Hg | by left]. }
  intros s2 [] Hg2. apply wp_bind, wp_ask, wp_bind.
  set (s3 := set_tick (S (tick s2)) s2).
  eapply wp_mono;
    [apply (module_loop_spec topic (lesson_dir_of topic) (TopicConfig.modules topic) []
              _ s3) | | done].
  { unfold loop_inv. result_simpl. split_and!; try done; constructor. }
  intros s4 r4 [Hg4 Hinv]. simpl app in Hinv.
  destruct Hinv as (Hout & Hst & Hsucc & Hnone & Hsome & Hcfg & Hqa).
  assert (Hg04 : grows s s4) by exact (grows_trans _ _ _ Hg2 Hg4).
  destruct (LessonGenerationResult.success r4) eqn:Hok.
  - (* all modules done *)
    apply wp_bind, wp_bind.
    eapply wp_mono; [apply config_files_spec | |].
    2: { intros s' e [Hg Hr]. split; [exact (grows_trans _ _ _ Hg04 Hg) | by right]. }
    intros s5 written (Hg5 & Hwritten & Hpaths). apply wp_ret.
    result_simpl. rewrite Hok. apply wp_bind.
    eapply wp_mono; [apply quality_gate_spec | | done].
    intros s6 r6 (Hg6 & Hmods & Hcfgs & q & Hq & Hgate). result_simpl.
    apply wp_bind, wp_ask, wp_ret.
    assert (Hg46 : grows s4 s6) by exact (grows_trans _ _ _ Hg5 Hg6).
    split; [exact (grows_trans _ _ _ Hg04 Hg46)|].
    apply (Completed _ _ _ q); result_simpl; rewrite ?Hmods, ?Hcfgs; try done.
    + eapply Forall_impl; [exact Hst|]. intros mr.
      apply files_stored_grows. exact Hg46.
    + eapply Forall_stored_grows; [|exact Hwritten]. exact Hg6.
    + destruct (quality_score_tenths q <? 5)%nat; [done|].
      destruct Hgate as [-> ->]. by rewrite (Hnone eq_refl).
  - (* partial failure *)
    apply wp_bind, wp_ret. rewrite Hok. apply wp_bind, wp_ret, wp_bind, wp_ask, wp_ret.
    split; [exact Hg04|].
    destruct (Hsome eq_refl) as (m & Hin & Herr).
    apply (PartialFailure _ _ _ m); result_simpl; try done.
Qed.

End CoreFacts.

(** ** The claims about lesson generation *)

Section LessonClaims.
Variable I : Interp.
Variable E : Env.
Variable cfg : Content.GenerationConfig.
Import Content Quality Core.
Local Abbreviation has_file_set := (has_file_set I).
Local Abbreviation unguarded_text := (unguarded_text I E).

Lemma generate_lesson_outcome topic s s' r :
  generate_lesson I E cfg topic s = (s', Ok r) ->
  grows s s' /\ lesson_outcome I E cfg topic s' r.
Proof.
  intros Hrun. exact (wp_run _ _ _ _ _ _ Hrun (generate_lesson_spec I E cfg topic s)).
Qed.

Lemma generate_lesson_returns topic s :
  exists s' r, generate_lesson I E cfg topic s = (s', Ok r).
Proof.
  destruct (wp_total _ _ _ (generate_lesson_spec I E cfg topic s)) as (s' & r & Hrun & _).
  by exists s', r.
Qed.

Lemma all_succeeded_Forall mrs :
  all_succeeded mrs = true <->
  Forall (fun mr => ModuleGenerationResult.success mr = true) mrs.
Proof.
  unfold all_succeeded. rewrite forallb_forall, Forall_forall.
  split; intros H x Hx; apply H; by apply list_elem_of_In.
Qed.

Lemma module_ok_file_set lesson_dir m mr :
  module_ok I lesson_dir m mr -> has_file_set lesson_dir m mr.
Proof.
  intros (_ & Hok & _ & Hpaths). split; [done|]. split; [done|].
  unfold ModuleGenerationResult.file_count.
  rewrite <- (length_map gf_path), Hpaths, length_map.
  by destruct (ModuleConfig.type m).
Qed.

Lemma outcomes_ok lesson_dir (ms : list ModuleConfig.t) mrs :
  (forall m e, In m ms ->
     ~ mkdir_refused E (module_dir_of I lesson_dir m) e /\
     ~ last_resort_refused E m (module_dir_of I lesson_dir m) e) ->
  Forall2 (module_outcome I E lesson_dir) ms mrs ->
  Forall2 (has_file_set lesson_dir) ms mrs.
Proof.
  intros Hno H. induction H as [|m mr ms mrs Hm _ IH]; [constructor|].
  constructor.
  - destruct Hm as [Hok|(_ & _ & _ & e & _ & Hcause)]; [by apply module_ok_file_set|].
    destruct (Hno m e (or_introl eq_refl)) as [H1 H2]. tauto.
  - apply IH. intros m' e' Hin. apply Hno. by right.
Qed.



(** C5, as the code has it: the configuration files are written and the
    quality pass is run only after every module succeeded.  When a module
    result of the returned result has [success = false], the result has no
    configuration files and no quality report, [success = false], and the
    error is "Failed to generate module: " followed by the name of a module
    of the topic; when the result has module results and
    all succeeded, it has the six configuration files, all in storage, and a
    quality report. *)
Theorem config_and_quality_after_all_modules (topic : TopicConfig.t) (s s' : State)
    (r : LessonGenerationResult.t) :
  generate_lesson I E cfg topic s = (s', Ok r) ->
  (forall mr, In mr (LessonGenerationResult.modules r) ->
     ModuleGenerationResult.success mr = false ->
     LessonGenerationResult.config_files r = [] /\
     LessonGenerationResult.quality_report r = None /\
     LessonGenerationResult.success r = false /\
     exists m, In m (TopicConfig.modules topic) /\
               LessonGenerationResult.error r =
                 Some (u "Failed to generate module: " ++ ModuleConfig.name m)) /\
  (LessonGenerationResult.modules r <> [] ->
   Forall (fun mr => ModuleGenerationResult.success mr = true)
     (LessonGenerationResult.modules r) ->
   map gf_path (LessonGenerationResult.config_files r) = config_paths I cfg topic /\
   length (LessonGenerationResult.config_files r) = 6%nat /\
   Forall (stored s') (LessonGenerationResult.config_files r) /\
   exists q, LessonGenerationResult.quality_report r = Some q).
Proof.
  intros Hrun.
  destruct (generate_lesson_outcome _ _ _ _ Hrun) as [Hg Hout].
  split.
  - intros mr Hin Hfail.
    destruct Hout as [? Hm|e ? ? Hm|m ? ? ? ? ? ? ? Hinm Herr|q ? ? ? Hall].
    + rewrite Hm in Hin. destruct Hin.
    + rewrite Hm in Hin. destruct Hin.
    + split_and!; [done | done | done |].
      exists m. split; [exact Hinm | exact Herr].
    + apply all_succeeded_Forall in Hall. rewrite Forall_forall in Hall.
      rewrite (Hall mr) in Hfail; [done|]. by apply list_elem_of_In.
  - intros Hne Hall.
    destruct Hout as [? Hm|e ? ? Hm|m ? ? ? Hnot|q ? ? ? ? Hpaths Hst Hq]; try done.
    + apply all_succeeded_Forall in Hall. congruence.
    + split; [done|]. split; [|split; [done | by exists q]].
      rewrite <- (length_map gf_path), Hpaths. unfold config_paths.
      rewrite length_map. reflexivity.
Qed.

End LessonClaims.

(** * Witnesses and counterexamples of the lesson claims *)

Import Runs.





(** C5 fails when a module fails: the run ends without configuration files
    and without a quality report, and nothing was written. *)
Lemma failed_module_skips_config_and_quality :
  (map ModuleGenerationResult.success <$>
     (LessonGenerationResult.modules <$> returned no_module_dir_run)) = Some [false] /\
  (LessonGenerationResult.config_files <$> returned no_module_dir_run) = Some [] /\
  (LessonGenerationResult.quality_report <$> returned no_module_dir_run) = Some None /\
  (LessonGenerationResult.success <$> returned no_module_dir_run) = Some false /\
  files (fst no_module_dir_run) = ∅.
Proof. vm_compute. by split_and!. Qed.

Lemma config_and_quality_after_all_modules_witness :
  exists s' r,
    Core.generate_lesson Sample.interp env_no_module_dir Sample.config_no_ai Sample.topic
      initial_state = (s', Ok r) /\
    LessonGenerationResult.config_files r = [] /\
    LessonGenerationResult.quality_report r = None.
Proof.
  destruct (generate_lesson_returns Sample.interp env_no_module_dir Sample.config_no_ai
              Sample.topic initial_state) as (s' & r & Hrun).
  exists s', r. split; [exact Hrun|].
  destruct (config_and_quality_after_all_modules Sample.interp env_no_module_dir
              Sample.config_no_ai Sample.topic initial_state s' r Hrun) as [Hfailed _].
  assert (Hmods : exists mr, In mr (LessonGenerationResult.modules r) /\
                             ModuleGenerationResult.success mr = false).
  { change (Core.generate_lesson Sample.interp env_no_module_dir Sample.config_no_ai
              Sample.topic initial_state) with no_module_dir_run in Hrun.
    vm_compute in Hrun. injection Hrun as <- <-. eexists. split; [by left | reflexivity]. }
  destruct Hmods as (mr & Hin & Hfail).
  destruct (Hfailed mr Hin Hfail) as (Hcfg & Hqa & _). by split.
Defined.


(** C7 on sample topics. *)
Lemma validate_topic_module_composition_witness :
  is_valid (Validation.validate_topic ascii_db remove_dups
              (Sample.topic_with [Sample.assignment_module])) = false /\
  is_valid (Validation.validate_topic ascii_db remove_dups
              (Sample.topic_with [Sample.starter_module; Sample.extra_module])) = false /\
  is_valid (Validation.validate_topic ascii_db remove_dups
              (Sample.topic_with
                 [Sample.starter_module; Sample.assignment_module;
                  ModuleConfig.mk (u "PRACTICE") ASSIGNMENT [u "more"] SIMPLE])) = false.
Proof.
  destruct (validate_topic_module_composition ascii_db remove_dups)
    as (Hsingle & Hmulti & Hdup & _).
  split; [|split].
  - apply (Hsingle (Sample.topic_with [Sample.assignment_module]) Sample.assignment_module);
      [reflexivity | discriminate].
  - apply (Hmulti (Sample.topic_with [Sample.starter_module; Sample.extra_module]));
      [simpl; lia | repeat constructor; discriminate].
  - apply (Hdup (Sample.topic_with
                   [Sample.starter_module; Sample.assignment_module;
                    ModuleConfig.mk (u "PRACTICE") ASSIGNMENT [u "more"] SIMPLE])
                [Sample.starter_module] Sample.assignment_module []
                (ModuleConfig.mk (u "PRACTICE") ASSIGNMENT [u "more"] SIMPLE) []);
      reflexivity.
Defined.

(** * Further properties of the validation helpers (utils/validation.py) *)

Section StripFacts.
Variable p : char -> bool.

Lemma lstrip_by_head (s : pystr) :
  match lstrip_by p s with [] => True | c :: _ => p c = false end.
Proof.
  induction s as [|a s IH]; simpl; [done|].
  destruct (p a) eqn:Ha; [exact IH | exact Ha].
Qed.

Lemma lstrip_by_keeps (c : char) (s : pystr) :
  p c = false -> lstrip_by p (c :: s) = c :: s.
Proof. intros H. simpl. by rewrite H. Qed.

Lemma lstrip_by_idem (s : pystr) : lstrip_by p (lstrip_by p s) = lstrip_by p s.
Proof.
  pose proof (lstrip_by_head s) as H.
  destruct (lstrip_by p s) as [|c r]; [done|]. by apply lstrip_by_keeps.
Qed.

Lemma lstrip_by_snoc (s : pystr) (c : char) :
  p c = false -> lstrip_by p (s ++ [c]) = lstrip_by p s ++ [c].
Proof.
  intros Hc. induction s as [|a s IH]; simpl; [by rewrite Hc|].
  by destruct (p a).
Qed.

Lemma rstrip_by_cons (c : char) (s : pystr) :
  p c = false -> rstrip_by p (c :: s) = c :: rstrip_by p s.
Proof.
  intros Hc. unfold rstrip_by. simpl.
  rewrite lstrip_by_snoc by done. by rewrite rev_app_distr.
Qed.

Lemma rstrip_by_idem (s : pystr) : rstrip_by p (rstrip_by p s) = rstrip_by p s.
Proof. unfold rstrip_by. by rewrite rev_involutive, lstrip_by_idem. Qed.

Lemma strip_by_idem (s : pystr) : strip_by p (strip_by p s) = strip_by p s.
Proof.
  unfold strip_by. pose proof (lstrip_by_head s) as H.
  destruct (lstrip_by p s) as [|c r]; [done|].
  rewrite rstrip_by_cons by done. rewrite lstrip_by_keeps by done.
  rewrite rstrip_by_cons by done. by rewrite rstrip_by_idem.
Qed.

Lemma strip_by_head (s : pystr) :
  match strip_by p s with [] => True | c :: _ => p c = false end.
Proof.
  unfold strip_by. pose proof (lstrip_by_head s) as H.
  destruct (lstrip_by p s) as [|c r]; [done|].
  by rewrite rstrip_by_cons.
Qed.

Lemma rstrip_by_last (s : pystr) :
  match last (rstrip_by p s) with None => True | Some c => p c = false end.
Proof.
  unfold rstrip_by. pose proof (lstrip_by_head (rev s)) as H.
  destruct (lstrip_by p (rev s)) as [|c r]; [done|].
  simpl. by rewrite last_snoc.
Qed.

Lemma strip_by_last (s : pystr) :
  match last (strip_by p s) with None => True | Some c => p c = false end.
Proof. apply rstrip_by_last. Qed.

Lemma Forall_lstrip_by (P : char -> Prop) (s : pystr) :
  Forall P s -> Forall P (lstrip_by p s).
Proof.
  induction 1 as [|a s Ha Hs IH]; simpl; [constructor|].
  destruct (p a); [exact IH | by constructor].
Qed.

Lemma Forall_strip_by (P : char -> Prop) (s : pystr) :
  Forall P s -> Forall P (strip_by p s).
Proof.
  intros H. unfold strip_by, rstrip_by.
  apply Forall_rev, Forall_lstrip_by, Forall_rev, Forall_lstrip_by, H.
Qed.

End StripFacts.

Lemma existsb_false_Forall {A} (f : A -> bool) (l : list A) :
  existsb f l = false -> Forall (fun x => f x = false) l.
Proof.
  induction l as [|a l IH]; simpl; [constructor|].
  intros [Ha Hl]%orb_false_iff. constructor; auto.
Qed.

Lemma Forall_existsb_false {A} (f : A -> bool) (l : list A) :
  Forall (fun x => f x = false) l -> existsb f l = false.
Proof.
  induction 1 as [|a l Ha _ IH]; simpl; [done|]. by rewrite Ha, IH.
Qed.

Lemma length_zero_nil {A} (l : list A) : Nat.eqb (length l) 0 = true <-> l = [].
Proof. destruct l; simpl; split; intros; congruence. Qed.

(** ** Topic names *)

Section TopicNameFacts.
Import Validation.

(** X1: a topic name that [validate_topic_name] accepts is returned in
    normal form: it is the name without the white space around it, it is not
    empty, it has at most 100 characters, none of them is one of the refused
    characters, and validating it again returns it unchanged. *)
Theorem validate_topic_name_normal_form (name n : pystr) :
  validate_topic_name name = Ok n ->
  n = py_strip name /\ n <> [] /\ (length n <= 100)%nat /\
  Forall (fun c => re_invalid_name_char c = false) n /\
  py_strip n = n /\
  validate_topic_name n = Ok n.
Proof.
  unfold validate_topic_name. cbv zeta.
  destruct (Nat.eqb (length name) 0 || Nat.eqb (length (py_strip name)) 0) eqn:Hempty;
    [discriminate|].
  destruct (100 <? length (py_strip name))%nat eqn:Hlong; [discriminate|].
  destruct (existsb re_invalid_name_char (py_strip name)) eqn:Hbad; [discriminate|].
  intros [= <-].
  apply orb_false_iff in Hempty as [_ Hstripped].
  assert (Hidem : py_strip (py_strip name) = py_strip name) by apply strip_by_idem.
  split; [done|]. split.
  { intros Hnil. rewrite Hnil in Hstripped. discriminate. }
  split; [by apply Nat.ltb_ge in Hlong|].
  split; [by apply existsb_false_Forall|].
  split; [done|].
  rewrite Hidem, Hstripped, Hlong, Hbad.
  by rewrite orb_diag.
Qed.

End TopicNameFacts.

Lemma validate_topic_name_normal_form_witness :
  Validation.validate_topic_name (u "  Async IO in Python ") = Ok (u "Async IO in Python") /\
  Validation.validate_topic_name (u "Async IO in Python") = Ok (u "Async IO in Python").
Proof.
  assert (H : Validation.validate_topic_name (u "  Async IO in Python ")
              = Ok (u "Async IO in Python")) by (vm_compute; reflexivity).
  split; [exact H|].
  apply (validate_topic_name_normal_form (u "  Async IO in Python ")
           (u "Async IO in Python") H).
Defined.

(** ** API keys *)

Section ApiKeyFacts.
Import Validation.

(** X2: [validate_openai_api_key] never returns [False]: it returns [True]
    or raises.  A key it accepts, without the white space around it, starts
    with "sk-", has at least 20 characters, and consists of ASCII letters,
    digits and hyphens only, so it holds no underscore; the white space
    around a key does not matter to the verdict. *)
Theorem validate_openai_api_key_accepts (api_key : pystr) (b : bool) :
  validate_openai_api_key api_key = Ok b ->
  b = true /\
  startswith (u "sk-") (py_strip api_key) = true /\
  (20 <= length (py_strip api_key))%nat /\
  Forall (fun c => ascii_alpha c || ascii_digit c || (c =? c_hyphen) = true)
    (py_strip api_key) /\
  ~ In c_underscore (py_strip api_key) /\
  validate_openai_api_key (py_strip api_key) = Ok true.
Proof.
  unfold validate_openai_api_key. cbv zeta.
  destruct (Nat.eqb (length api_key) 0 || Nat.eqb (length (py_strip api_key)) 0) eqn:Hempty;
    [discriminate|].
  destruct (startswith (u "sk-") (py_strip api_key)) eqn:Hsk; [|discriminate].
  destruct (length (py_strip api_key) <? 20)%nat eqn:Hshort; [discriminate|].
  destruct (existsb re_key_other (py_strip api_key)) eqn:Hbad; [discriminate|].
  intros [= <-]. cbn [negb].
  apply orb_false_iff in Hempty as [_ Hstripped].
  assert (Hidem : py_strip (py_strip api_key) = py_strip api_key) by apply strip_by_idem.
  assert (Hchars : Forall (fun c => ascii_alpha c || ascii_digit c || (c =? c_hyphen) = true)
                     (py_strip api_key)).
  { apply existsb_false_Forall in Hbad. eapply Forall_impl; [exact Hbad|].
    intros c Hc. unfold re_key_other in Hc. by apply negb_false_iff in Hc. }
  split; [done|]. split; [done|].
  split; [by apply Nat.ltb_ge in Hshort|].
  split; [exact Hchars|]. split.
  - intros Hin. rewrite Forall_forall in Hchars.
    specialize (Hchars _ (proj2 (list_elem_of_In _ _) Hin)). discriminate Hchars.
  - rewrite Hidem, Hstripped, Hsk, Hshort, Hbad. by rewrite orb_diag.
Qed.

End ApiKeyFacts.

Lemma validate_openai_api_key_accepts_witness :
  Validation.validate_openai_api_key (u " sk-abcDEF0123456789-xyz ") = Ok true /\
  Validation.validate_openai_api_key (u "sk-abcDEF0123456789-xyz") = Ok true.
Proof.
  assert (H : Validation.validate_openai_api_key (u " sk-abcDEF0123456789-xyz ") = Ok true)
    by (vm_compute; reflexivity).
  split; [exact H|].
  destruct (validate_openai_api_key_accepts _ _ H) as (_ & _ & _ & _ & _ & Hstripped).
  exact Hstripped.
Defined.

(** ** Difficulty progression *)

Section ProgressionFacts.
Import Validation.
Variable by_value : bool.

Lemma index_of_value (d : DifficultyLevel) :
  index_of (DifficultyLevel_value d) difficulty_order = Some (difficulty_rank d).
Proof. destruct d; vm_compute; reflexivity. Qed.

Lemma progression_step_spec (ds : list DifficultyLevel) (w : list pystr) (i : nat)
    (previous current : DifficultyLevel) :
  ds !! i = Some current -> ds !! (i - 1)%nat = Some previous ->
  exists ws, progression_step by_value ds w i = Ok (w ++ ws) /\
             length ws = if is_large_drop previous current then 1%nat else 0%nat.
Proof.
  intros Hc Hp. unfold progression_step. rewrite Hc, Hp, !index_of_value.
  destruct previous, current; cbn [difficulty_rank is_large_drop];
    match goal with
    | |- context [(?a <? ?b)%Z] =>
      let v := eval vm_compute in (a <? b)%Z in change (a <? b)%Z with v
    end; cbv iota;
    first [ by (exists []; rewrite app_nil_r) | by eexists [_] ].
Qed.

Lemma progression_loop_spec (ds pre rest : list DifficultyLevel) (x : DifficultyLevel)
    (w : list pystr) :
  ds = pre ++ x :: rest ->
  exists ws, progression_loop by_value ds w (seq (S (length pre)) (length rest)) = Ok (w ++ ws) /\
             length ws = large_drops (x :: rest).
Proof.
  revert pre x w. induction rest as [|y rest IH]; intros pre x w Hds.
  - exists []. simpl. by rewrite app_nil_r.
  - cbn [length seq progression_loop].
    destruct (progression_step_spec ds w (S (length pre)) x y) as (ws1 & -> & Hlen1).
    + rewrite Hds. rewrite (lookup_app_r pre) by lia.
      replace (S (length pre) - length pre)%nat with 1%nat by lia. reflexivity.
    + rewrite Hds. replace (S (length pre) - 1)%nat with (length pre) by lia.
      rewrite (lookup_app_r pre) by lia.
      by rewrite Nat.sub_diag.
    + destruct (IH (pre ++ [x]) y (w ++ ws1)) as (ws2 & Hrun & Hlen2).
      { by rewrite <- app_assoc. }
      rewrite length_app in Hrun. simpl in Hrun.
      replace (length pre + 1)%nat with (S (length pre)) in Hrun by lia.
      exists (ws1 ++ ws2). rewrite Hrun. split; [by rewrite app_assoc|].
      rewrite length_app, Hlen1, Hlen2. reflexivity.
Qed.

(** X3: [validate_difficulty_progression] never raises and never rejects a
    series of topics: the result is valid and has no errors.  It warns once
    for every topic of beginner level that directly follows one of advanced
    level, and for nothing else; it makes at most one suggestion. *)
Theorem validate_difficulty_progression_spec (topics : list TopicConfig.t) :
  exists vr,
    validate_difficulty_progression by_value topics = Ok vr /\
    is_valid vr = true /\ errors vr = [] /\
    length (warnings vr) = large_drops (map TopicConfig.difficulty topics) /\
    (length (suggestions vr) <= 1)%nat.
Proof.
  unfold validate_difficulty_progression.
  destruct topics as [|a [|b r]].
  - eexists. split; [reflexivity|]. simpl. by split_and!; try lia.
  - eexists. split; [reflexivity|]. simpl. by split_and!; try lia.
  - cbn [length Nat.leb]. cbv zeta.
    destruct (progression_loop_spec (map TopicConfig.difficulty (a :: b :: r)) []
                (map TopicConfig.difficulty (b :: r)) (TopicConfig.difficulty a) [])
      as (ws & Hrun & Hlen); [reflexivity|].
    rewrite length_map in Hrun. cbn [length] in Hrun.
    rewrite length_map. cbn [length Nat.sub]. rewrite Hrun.
    eexists. split; [reflexivity|]. cbn [is_valid errors warnings suggestions app].
    split; [done|]. split; [done|]. split; [exact Hlen|].
    repeat match goal with |- context [if ?c then _ else _] => destruct c end; simpl; lia.
Qed.

End ProgressionFacts.

(** ** The shape of a slug *)

Lemma startswith_iff (p s : pystr) : startswith p s = true <-> exists r, s = p ++ r.
Proof.
  revert s. induction p as [|a p IH]; intros s; simpl.
  - split; [by exists s | done].
  - destruct s as [|b s]; [split; [done | by intros [r Hr]]|].
    rewrite andb_true_iff, N.eqb_eq, IH. split.
    + intros [-> [r ->]]. by exists r.
    + intros [r [= -> ->]]. split; [done | by exists r].
Qed.

Lemma contains_iff (p s : pystr) :
  p <> [] -> contains p s = true <-> exists l1 l2, s = l1 ++ p ++ l2.
Proof.
  intros Hp. induction s as [|b s IH].
  - simpl. destruct p as [|a p]; [done|]. split; [done|].
    intros (l1 & l2 & H). by destruct l1.
  - cbn [contains]. rewrite orb_true_iff, startswith_iff, IH. split.
    + intros [[r Hr]|(l1 & l2 & ->)].
      * exists [], r. exact Hr.
      * by exists (b :: l1), l2.
    + intros (l1 & l2 & H). destruct l1 as [|c l1].
      * left. by exists l2.
      * right. injection H as -> ->. by exists l1, l2.
Qed.

Lemma lstrip_by_suffix (p : char -> bool) (s : pystr) : exists a, s = a ++ lstrip_by p s.
Proof.
  induction s as [|c s [a IH]]; simpl; [by exists []|].
  destruct (p c); [|by exists []].
  exists (c :: a). simpl. by rewrite <- IH.
Qed.

Lemma strip_by_infix (p : char -> bool) (s : pystr) : exists a b, s = a ++ strip_by p s ++ b.
Proof.
  unfold strip_by, rstrip_by.
  destruct (lstrip_by_suffix p s) as [a Ha].
  destruct (lstrip_by_suffix p (rev (lstrip_by p s))) as [b Hb].
  exists a, (rev b). rewrite <- rev_app_distr, <- Hb, rev_involutive. exact Ha.
Qed.

Lemma contains_strip_by (q s : pystr) (p : char -> bool) :
  q <> [] -> contains q s = false -> contains q (strip_by p s) = false.
Proof.
  intros Hq Hs. destruct (contains q (strip_by p s)) eqn:Hc; [|done].
  apply contains_iff in Hc as (l1 & l2 & Hc); [|done].
  destruct (strip_by_infix p s) as (a & b & Hab).
  rewrite <- Hs. symmetry. apply contains_iff; [done|].
  exists (a ++ l1), (l2 ++ b). rewrite Hab, Hc. by rewrite <- !app_assoc.
Qed.

Lemma no_double_infix (c : char) (l1 l2 : pystr) : no_double c (l1 ++ c :: c :: l2) = false.
Proof.
  induction l1 as [|a l1 IH].
  - simpl. by rewrite N.eqb_refl.
  - cbn [app no_double]. rewrite IH. apply andb_false_r.
Qed.

Lemma no_double_contains (c : char) (s : pystr) :
  no_double c s = true -> contains [c; c] s = false.
Proof.
  intros H. destruct (contains [c; c] s) eqn:Hc; [|done].
  apply contains_iff in Hc as (l1 & l2 & ->); [|done].
  simpl in H. by rewrite no_double_infix in H.
Qed.

(** Collapsing the runs of a character leaves no two of them side by
    side. *)
Lemma sub_runs_collapses (c : char) (in_run : bool) (s : pystr) :
  no_double c (sub_runs (N.eqb c) [c] in_run s) = true /\
  (in_run = true -> head (sub_runs (N.eqb c) [c] in_run s) <> Some c).
Proof.
  revert in_run. induction s as [|a s IH]; intros in_run; [done|].
  cbn [sub_runs]. destruct (c =? a) eqn:Ha.
  - apply N.eqb_eq in Ha as <-.
    destruct (IH true) as [Hno Hhead]. specialize (Hhead eq_refl).
    destruct in_run; cbn [app]; [by split|].
    split; [|done].
    cbn [no_double]. rewrite Hno, andb_true_r.
    destruct (sub_runs (N.eqb c) [c] true s) as [|b r]; [done|].
    rewrite N.eqb_refl. cbn [andb]. apply negb_true_iff.
    apply N.eqb_neq. intros ->. by apply Hhead.
  - destruct (IH false) as [Hno _]. split.
    + cbn [no_double]. rewrite Hno, andb_true_r.
      destruct (sub_runs (N.eqb c) [c] false s) as [|b r]; [done|].
      rewrite N.eqb_sym, Ha. reflexivity.
    + intros _. simpl. intros [= ->]. by rewrite N.eqb_refl in Ha.
Qed.

Lemma re_slug_not_nl (c : char) : re_slug c = true -> (c =? c_nl) = false.
Proof.
  intros H. destruct (c =? c_nl) eqn:E; [|done].
  apply N.eqb_eq in E. subst. discriminate H.
Qed.

Lemma re_match_all_Forall (cls : char -> bool) (s : pystr) :
  s <> [] -> Forall (fun c => cls c = true) s ->
  (forall c, cls c = true -> (c =? c_nl) = false) ->
  re_match_all cls s = true.
Proof.
  intros Hne Hall Hnl. unfold re_match_all.
  assert (Hbody : match rev s with
                  | c :: r => if c =? c_nl then rev r else s
                  | [] => s
                  end = s).
  { destruct (rev s) as [|c r] eqn:Hrev; [done|].
    rewrite Hnl; [done|]. rewrite Forall_forall in Hall. apply Hall.
    apply list_elem_of_In. apply (proj2 (in_rev s c)). rewrite Hrev. by left. }
  rewrite Hbody. destruct s as [|a s]; [done|].
  apply forallb_forall. intros x Hx. rewrite Forall_forall in Hall.
  by apply Hall, list_elem_of_In.
Qed.

Section SlugShape.
Variable db : UnicodeDB.
Import Validation.

(** X4: a slug made by [create_slug_from_name] is not empty, consists of
    the characters a-z, 0-9 and the underscore only, neither starts nor ends
    with an underscore and has no two underscores side by side; it passes
    the check [validate_topic] makes of a slug. *)
Theorem create_slug_from_name_shape (name slug : pystr) :
  create_slug_from_name db name = Ok slug ->
  slug <> [] /\
  Forall (fun c => re_slug c = true) slug /\
  head slug <> Some c_underscore /\
  last slug <> Some c_underscore /\
  contains (u "__") slug = false /\
  re_match_all re_slug slug = true.
Proof.
  unfold create_slug_from_name. cbv zeta.
  set (filtered := re_remove re_slug_other
                     (re_sub_runs slug_separator (u "_") (py_strip (py_lower db name)))).
  set (collapsed := re_sub_runs (N.eqb c_underscore) (u "_") filtered).
  destruct (py_strip_chars (u "_") collapsed) as [|c0 r0] eqn:Hslug; [discriminate|].
  intros [= <-]. rewrite <- Hslug.
  assert (Hne : py_strip_chars (u "_") collapsed <> []) by (by rewrite Hslug).
  assert (Hfiltered : Forall (fun c => re_slug c = true) filtered).
  { apply Forall_forall. intros c Hc. apply list_elem_of_In in Hc.
    unfold filtered, re_remove in Hc. apply filter_In in Hc as [_ Hc].
    unfold re_slug_other in Hc. by rewrite negb_involutive in Hc. }
  assert (Hcollapsed : Forall (fun c => re_slug c = true) collapsed).
  { apply Forall_forall. intros c Hc. apply list_elem_of_In in Hc.
    apply sub_runs_incl in Hc as [Hc|Hc].
    - destruct Hc as [<-|[]]. reflexivity.
    - rewrite Forall_forall in Hfiltered. by apply Hfiltered, list_elem_of_In. }
  assert (Hall : Forall (fun c => re_slug c = true) (py_strip_chars (u "_") collapsed))
    by (by apply Forall_strip_by).
  assert (Hp : forall c, char_in (u "_") c = false -> c <> c_underscore).
  { intros c Hc ->. discriminate Hc. }
  split; [exact Hne|]. split; [exact Hall|]. split; [|split; [|split]].
  - pose proof (strip_by_head (char_in (u "_")) collapsed) as Hhead.
    unfold py_strip_chars. destruct (strip_by _ collapsed) as [|c r]; [done|].
    simpl. intros [= ->]. by apply (Hp _ Hhead).
  - pose proof (strip_by_last (char_in (u "_")) collapsed) as Hlast.
    unfold py_strip_chars. destruct (last (strip_by _ collapsed)) as [c|]; [|done].
    intros [= ->]. by apply (Hp _ Hlast).
  - apply contains_strip_by; [done|].
    apply (no_double_contains c_underscore).
    apply (sub_runs_collapses c_underscore false filtered).
  - apply re_match_all_Forall; [exact Hne | exact Hall | apply re_slug_not_nl].
Qed.

End SlugShape.

Lemma create_slug_from_name_shape_witness :
  Validation.create_slug_from_name ascii_db (u " C++ -- the (Advanced) parts_ ")
    = Ok (u "c_the_advanced_parts") /\
  re_match_all re_slug (u "c_the_advanced_parts") = true.
Proof.
  assert (H : Validation.create_slug_from_name ascii_db (u " C++ -- the (Advanced) parts_ ")
              = Ok (u "c_the_advanced_parts")) by (vm_compute; reflexivity).
  split; [exact H|].
  destruct (create_slug_from_name_shape ascii_db _ _ H) as (_ & _ & _ & _ & _ & Hmatch).
  exact Hmatch.
Defined.

(** ** Syntax repair on text without double quotes (core.py) *)

Section RepairFacts.
Import SyntaxGuard.

Lemma split_on_not_nil (sep : char) (s : pystr) : split_on sep s <> [].
Proof.
  induction s as [|c s IH]; simpl; [done|].
  destruct (c =? sep); [done|]. by destruct (split_on sep s).
Qed.

Lemma replace_char_filter (c : char) (s : pystr) :
  py_replace [c] [] s = List.filter (fun x => negb (c =? x)) s.
Proof.
  unfold py_replace. induction s as [|a s IH]; [reflexivity|].
  cbn [replace_from startswith andb length Nat.pred option_map List.filter app].
  destruct (c =? a); cbn [andb negb app]; by rewrite IH.
Qed.

Lemma contains_char (c : char) (s : pystr) : contains [c] s = true <-> In c s.
Proof.
  induction s as [|a s IH]; [simpl; by split|].
  cbn [contains startswith]. rewrite orb_true_iff, andb_true_r, N.eqb_eq, IH.
  cbn [In]. split; intros [H|H]; auto.
Qed.

Lemma contains_In (p s : pystr) (c : char) :
  p <> [] -> contains p s = true -> In c p -> In c s.
Proof.
  intros Hp Hc Hin. apply contains_iff in Hc as (l1 & l2 & ->); [|done].
  rewrite !in_app_iff. auto.
Qed.

Lemma split_on_In (sep c : char) (s line : pystr) :
  In line (split_on sep s) -> In c line -> In c s.
Proof.
  revert line. induction s as [|a s IH]; intros line; cbn [split_on].
  - intros [<-|[]] [].
  - destruct (a =? sep).
    + intros [<-|Hin] Hc; [destruct Hc|]. right. by apply (IH line).
    + pose proof (split_on_not_nil sep s) as Hne.
      destruct (split_on sep s) as [|l ls]; [done|].
      intros [<-|Hin] Hc.
      * destruct Hc as [->|Hc]; [by left|]. right. apply (IH l); [by left | done].
      * right. apply (IH line); [by right | done].
Qed.

Lemma split_on_lines (sep : char) (s line : pystr) :
  In line (split_on sep s) -> ~ In sep line.
Proof.
  revert line. induction s as [|a s IH]; intros line; cbn [split_on].
  - intros [<-|[]] [].
  - destruct (a =? sep) eqn:Ha.
    + intros [<-|Hin]; [intros [] | by apply IH].
    + pose proof (split_on_not_nil sep s) as Hne.
      destruct (split_on sep s) as [|l ls]; [done|].
      intros [<-|Hin].
      * intros [->|Hc]; [by rewrite N.eqb_refl in Ha|]. apply (IH l); [by left | done].
      * apply IH. by right.
Qed.

Lemma join_split_on (sep : char) (s : pystr) : join [sep] (split_on sep s) = s.
Proof.
  induction s as [|a s IH]; [reflexivity|]. cbn [split_on].
  pose proof (split_on_not_nil sep s) as Hne.
  destruct (a =? sep) eqn:Ha.
  - apply N.eqb_eq in Ha as ->.
    destruct (split_on sep s) as [|l ls]; [done|].
    cbn [join app] in IH |- *. by rewrite IH.
  - destruct (split_on sep s) as [|l ls]; [done|].
    destruct ls as [|l' ls]; cbn [join app] in IH |- *; by rewrite IH.
Qed.

Lemma split_on_join (sep : char) (lines : list pystr) :
  lines <> [] -> Forall (fun line => ~ In sep line) lines ->
  split_on sep (join [sep] lines) = lines.
Proof.
  intros Hne Hall. induction Hall as [|line rest Hline Hrest IH]; [done|].
  destruct rest as [|line' rest].
  - cbn [join]. clear IH Hne Hrest.
    induction line as [|a line IHl]; [reflexivity|]. cbn [split_on].
    destruct (a =? sep) eqn:Ha.
    + apply N.eqb_eq in Ha. exfalso. apply Hline. by left.
    + rewrite IHl; [reflexivity|]. intros Hin. apply Hline. by right.
  - change (join [sep] (line :: line' :: rest))
      with (line ++ sep :: join [sep] (line' :: rest)).
    specialize (IH ltac:(done)). clear Hne Hrest.
    induction line as [|a line IHl].
    + cbn [app split_on]. by rewrite N.eqb_refl, IH.
    + cbn [app split_on]. destruct (a =? sep) eqn:Ha.
      * apply N.eqb_eq in Ha. exfalso. apply Hline. by left.
      * rewrite IHl; [reflexivity|]. intros Hin. apply Hline. by right.
Qed.

Lemma join_In (sep c : char) (lines : list pystr) :
  In c (join [sep] lines) -> c = sep \/ exists line, In line lines /\ In c line.
Proof.
  induction lines as [|line rest IH]; [intros []|].
  destruct rest as [|line' rest].
  - cbn [join]. intros Hc. right. exists line. split; [by left | done].
  - change (join [sep] (line :: line' :: rest))
      with (line ++ sep :: join [sep] (line' :: rest)).
    rewrite in_app_iff. intros [Hc|[->|Hc]].
    + right. exists line. split; [by left | done].
    + by left.
    + destruct (IH Hc) as [->|(l & Hl & Hcl)]; [by left|].
      right. exists l. split; [by right | done].
Qed.

(** A line without a double quote is left alone by the docstring fix. *)
Lemma fix_line_quote_free (line : pystr) (remaining : list pystr) :
  quote_free line ->
  fix_line line remaining =
    if class_line line && contains (u "-") line then py_replace (u "-") [] line else line.
Proof.
  intros Hq. unfold fix_line. cbv zeta. fold (class_line line).
  set (line' := if class_line line && contains (u "-") line
                then py_replace (u "-") [] line else line).
  assert (Hq' : quote_free line').
  { subst line'. destruct (class_line line && contains (u "-") line); [|done].
    change (u "-") with [45]. rewrite replace_char_filter.
    intros Hin. apply filter_In in Hin as [Hin _]. by apply Hq. }
  destruct (contains dq3 line') eqn:Hc; [|reflexivity].
  exfalso. apply Hq'. apply (contains_In dq3 line'); [done | done | by left].
Qed.

Lemma fix_line_no_hyphen (line : pystr) (remaining : list pystr) :
  quote_free line -> class_line line = false \/ ~ In 45 line ->
  fix_line line remaining = line.
Proof.
  intros Hq Hno. rewrite fix_line_quote_free by done.
  destruct Hno as [->|Hno]; [reflexivity|].
  destruct (contains (u "-") line) eqn:Hc; [|by rewrite andb_false_r].
  exfalso. apply Hno. by apply contains_char.
Qed.

Lemma fix_line_chars (line : pystr) (remaining : list pystr) (c : char) :
  quote_free line -> In c (fix_line line remaining) -> In c line.
Proof.
  intros Hq. rewrite fix_line_quote_free by done.
  destruct (class_line line && contains (u "-") line); [|done].
  change (u "-") with [45]. rewrite replace_char_filter.
  intros Hin. by apply filter_In in Hin as [Hin _].
Qed.

Lemma fix_line_class (line : pystr) (remaining : list pystr) :
  quote_free line ->
  class_line (fix_line line remaining) = false \/ ~ In 45 (fix_line line remaining).
Proof.
  intros Hq. rewrite fix_line_quote_free by done.
  destruct (class_line line) eqn:Hclass; cbn [andb]; [|by left].
  destruct (contains (u "-") line) eqn:Hc.
  - right. change (u "-") with [45]. rewrite replace_char_filter.
    intros Hin. apply filter_In in Hin as [_ Hin]. by rewrite N.eqb_refl in Hin.
  - right. intros Hin. apply contains_char in Hin. change [45] with (u "-") in Hin. congruence.
Qed.

Lemma fix_lines_length (lines : list pystr) : length (fix_lines lines) = length lines.
Proof. induction lines as [|line rest IH]; [done|]. cbn [fix_lines length]. by rewrite IH. Qed.

Lemma fix_lines_In (lines : list pystr) (fixed : pystr) :
  In fixed (fix_lines lines) ->
  exists line remaining, In line lines /\ fixed = fix_line line remaining.
Proof.
  induction lines as [|line rest IH]; [intros []|].
  cbn [fix_lines]. intros [<-|Hin].
  - exists line, rest. split; [by left | done].
  - destruct (IH Hin) as (l & rem & Hl & ->). exists l, rem. split; [by right | done].
Qed.

Lemma fix_lines_fixed (lines : list pystr) :
  Forall (fun line => quote_free line /\ (class_line line = false \/ ~ In 45 line)) lines ->
  fix_lines lines = lines.
Proof.
  induction 1 as [|line rest [Hq Hno] _ IH]; [done|].
  cbn [fix_lines]. by rewrite fix_line_no_hyphen, IH.
Qed.

(** X5: the syntax repair on a text without a double quote.  The repaired
    text has no double quote either and as many lines as the text; no line
    of it that starts a class definition has a hyphen; repairing it again
    changes nothing; and a text whose class lines have no hyphen is returned
    as it is. *)
Theorem fix_common_syntax_issues_without_quotes (content : pystr) :
  quote_free content ->
  let fixed := _fix_common_syntax_issues content in
  quote_free fixed /\
  length (split_on c_nl fixed) = length (split_on c_nl content) /\
  (forall line, In line (split_on c_nl fixed) -> class_line line = true -> ~ In 45 line) /\
  _fix_common_syntax_issues fixed = fixed /\
  ((forall line, In line (split_on c_nl content) -> class_line line = true -> ~ In 45 line) ->
   fixed = content).
Proof.
  intros Hq. cbv zeta. unfold _fix_common_syntax_issues.
  set (lines := split_on c_nl content).
  assert (Hlines : forall line, In line lines -> quote_free line /\ ~ In c_nl line).
  { intros line Hin. split; [|by apply (split_on_lines c_nl content)].
    intros Hc. apply Hq. by apply (split_on_In c_nl c_dquote content line). }
  assert (Hfixed : forall line, In line (fix_lines lines) ->
            quote_free line /\ ~ In c_nl line /\ (class_line line = false \/ ~ In 45 line)).
  { intros fixed Hin. destruct (fix_lines_In lines fixed Hin) as (line & rem & Hl & ->).
    destruct (Hlines line Hl) as [Hql Hnl].
    split; [intros Hc; by apply Hql, (fix_line_chars line rem)|].
    split; [intros Hc; by apply Hnl, (fix_line_chars line rem)|].
    by apply fix_line_class. }
  assert (Hsplit : split_on c_nl (join nl (fix_lines lines)) = fix_lines lines).
  { apply split_on_join.
    - intros Hnil. apply (f_equal length) in Hnil. rewrite fix_lines_length in Hnil.
      subst lines. pose proof (split_on_not_nil c_nl content) as Hne.
      by destruct (split_on c_nl content).
    - apply Forall_forall. intros line Hin. apply list_elem_of_In in Hin.
      by destruct (Hfixed line Hin) as (_ & Hnl & _). }
  split.
  { intros Hc. apply (join_In c_nl) in Hc as [Hc|(line & Hin & Hc)]; [discriminate Hc|].
    by destruct (Hfixed line Hin) as (Hql & _). }
  rewrite Hsplit. split; [apply fix_lines_length|].
  split.
  { intros line Hin Hclass. destruct (Hfixed line Hin) as (_ & _ & [Hn|Hn]); [congruence | done]. }
  split.
  { f_equal. apply fix_lines_fixed, Forall_forall. intros line Hin.
    apply list_elem_of_In in Hin. destruct (Hfixed line Hin) as (Hql & _ & Hno). by split. }
  intros Hclean. rewrite fix_lines_fixed; [apply join_split_on|].
  apply Forall_forall. intros line Hin. apply list_elem_of_In in Hin.
  split; [by apply Hlines|].
  destruct (class_line line) eqn:Hclass; [right; by apply Hclean | by left].
Qed.

End RepairFacts.

Lemma fix_common_syntax_issues_without_quotes_witness :
  quote_free (u "class My-Class:" ++ nl ++ u "    pass") /\
  SyntaxGuard._fix_common_syntax_issues
    (SyntaxGuard._fix_common_syntax_issues (u "class My-Class:" ++ nl ++ u "    pass")) =
  SyntaxGuard._fix_common_syntax_issues (u "class My-Class:" ++ nl ++ u "    pass").
Proof.
  assert (Hq : quote_free (u "class My-Class:" ++ nl ++ u "    pass")).
  { vm_compute. intuition discriminate. }
  split; [exact Hq|].
  apply (fix_common_syntax_issues_without_quotes _ Hq).
Defined.

(** ** Topics made from a name (cli.py) *)

Section TopicModules.
Import Validation Cli.
Variable normalized_name difficulty : pystr.

Lemma count_type_app (ty : ModuleType) (l k : list ModuleConfig.t) :
  count_type ty (l ++ k) = (count_type ty l + count_type ty k)%nat.
Proof. unfold count_type. by rewrite List.filter_app, length_app. Qed.

Lemma count_type_assignments (ty : ModuleType) (l : list nat) :
  count_type ty (map (assignment_module normalized_name difficulty) l) =
    if bool_decide (ty = ASSIGNMENT) then length l else 0%nat.
Proof.
  unfold count_type. induction l as [|i l IH]; [by destruct (bool_decide _)|].
  cbn [map List.filter assignment_module ModuleConfig.type].
  destruct ty; cbn [length]; simpl in IH |- *; by rewrite IH.
Qed.


End TopicModules.

(** * Further properties of the content generator (content.py) *)

Lemma dict_get_cases {A} (d : list (pystr * A)) (key : pystr) (default : A) :
  (~ In key (map fst d) /\ Content.dict_get d key default = default) \/
  In (key, Content.dict_get d key default) d.
Proof.
  induction d as [|[k v] d IH]; simpl; [left; split; [intros [] | reflexivity]|].
  destruct (bool_decide (k = key)) eqn:Hk.
  - apply bool_decide_eq_true in Hk as ->. right. by left.
  - apply bool_decide_eq_false in Hk.
    destruct IH as [[Hno Hd]|Hin]; [left | right; by right].
    split; [|done]. intros [Heq|Hin]; [done | by apply Hno].
Qed.

Section TokenFacts.
Import Content.

(** X7: the token limit of a request is between 400 and 1200 whatever the
    content type; a content type that is not in the table gets 600, and the
    three kinds of test files get 400. *)
Theorem get_optimal_max_tokens_bounds (content_type : pystr) :
  (400 <= _get_optimal_max_tokens content_type <= 1200)%nat /\
  (~ In content_type (map fst token_limits) -> _get_optimal_max_tokens content_type = 600%nat) /\
  (str_in content_type [u "test_starter"; u "test_assignment_a"; u "test_assignment_b"] = true ->
   _get_optimal_max_tokens content_type = 400%nat).
Proof.
  unfold _get_optimal_max_tokens.
  destruct (dict_get_cases token_limits content_type 600%nat) as [[Hno ->]|Hin].
  - split; [lia|]. split; [done|].
    intros Hin. exfalso. apply Hno. unfold str_in in Hin.
    apply existsb_exists in Hin as (k & Hk & Heq).
    apply bool_decide_eq_true in Heq. subst k.
    simpl in Hk. simpl. tauto.
  - remember (dict_get token_limits content_type 600%nat) as v eqn:Hv. clear Hv.
    assert (Hcases : (v = 400%nat \/ v = 600%nat \/ v = 800%nat \/ v = 1200%nat) /\
                     (str_in content_type
                        [u "test_starter"; u "test_assignment_a"; u "test_assignment_b"] = true ->
                      v = 400%nat)).
    { unfold token_limits in Hin. cbn [In] in Hin.
      repeat (destruct Hin as [Hin|Hin];
              [injection Hin as <- <-; split; [tauto | vm_compute; congruence]|]).
      destruct Hin. }
    destruct Hcases as [Hv Htest].
    split; [lia|]. split; [|exact Htest].
    intros Hno. exfalso. apply Hno. apply in_map_iff. by eexists (_, _).
Qed.

End TokenFacts.

Lemma get_optimal_max_tokens_bounds_witness :
  Content._get_optimal_max_tokens (u "poem") = 600%nat /\
  Content._get_optimal_max_tokens (u "test_starter") = 400%nat.
Proof.
  destruct (get_optimal_max_tokens_bounds (u "poem")) as (_ & Hdefault & _).
  destruct (get_optimal_max_tokens_bounds (u "test_starter")) as (_ & _ & Htest).
  split; [apply Hdefault | apply Htest; reflexivity].
  vm_compute. intuition discriminate.
Defined.

(** ** The counters and the cache *)

Section BooksFacts.
Variable I : Interp.
Variable E : Env.
Variable self : Content.ContentGenerator.
Import Content.
Local Abbreviation generate := (generate_content I E self).
Local Abbreviation key_of := (_create_cache_key I).
Local Abbreviation cache_lookup := (cache_lookup I self).
Local Abbreviation uses_ai := (uses_ai self).
Local Abbreviation fallback_text := (fallback_text I).
Local Abbreviation run_call := (run_call I E self).
Local Abbreviation run_calls := (run_calls I E self).

Ltac books_simpl :=
  cbn [tick files dirs _content_cache ai_calls cache_hits fallback_calls
       _current_content_type set_tick set_files set_dirs set_cache set_ai_calls
       set_cache_hits set_fallback_calls set_current_content_type fst snd] in *.

(** What one call of [generate_content] does to the books of the
    generator, and what it returns. *)
Lemma generate_content_books content_type topic module_config extra_context s :
  wp (generate content_type topic module_config extra_context)
     (fun s' r =>
        files s' = files s /\ dirs s' = dirs s /\
        match cache_lookup content_type topic module_config s with
        | Some cached =>
          r = cached /\ _content_cache s' = _content_cache s /\
          counters s' = (ai_calls s, S (cache_hits s), fallback_calls s)
        | None =>
          success r = true /\
          _content_cache s' =
            (if enable_cache (config self)
             then <[key_of content_type topic module_config := r]> (_content_cache s)
             else _content_cache s) /\
          if uses_ai
          then counters s' = (S (ai_calls s), cache_hits s, fallback_calls s)
          else counters s' = (ai_calls s, cache_hits s, S (fallback_calls s)) /\
               model_used r = u "fallback" /\ tokens_used r = 0%nat /\
               content r =
                 fallback_text (request_of content_type topic module_config extra_context)
        end)
     (fun _ _ => False) s.
Proof.
  unfold generate_content, cache_lookup. cbv zeta.
  apply wp_bind, wp_ask, wp_bind, wp_get_state.
  cbn [_content_cache set_tick].
  destruct (if enable_cache (config self) then _ else _) as [cached|] eqn:Hlookup.
  { apply wp_bind, wp_modify, wp_ret. unfold counters. books_simpl.
    split; [reflexivity|]. split; [reflexivity|]. split; [reflexivity|].
    split; reflexivity. }
  apply wp_bind.
  set (s1 := set_tick (S (tick s)) s).
  set (request := {| req_topic := topic |}).
  assert (Hrequest : request = request_of content_type topic module_config extra_context).
  { unfold request, request_of. by destruct module_config. }
  assert (H1 : same_books s s1).
  { unfold same_books, s1. books_simpl. by split_and!. }
  apply wp_mono with
    (Q := fun s' r =>
            (_content_cache s' = _content_cache s /\ cache_hits s' = cache_hits s /\
             files s' = files s /\ dirs s' = dirs s) /\
            success r = true /\
            if uses_ai
            then counters s' = (S (ai_calls s), cache_hits s, fallback_calls s)
            else counters s' = (ai_calls s, cache_hits s, S (fallback_calls s)) /\
                 model_used r = u "fallback" /\ tokens_used r = 0%nat /\
                 content r = fallback_text request)
    (Qx := fun _ _ => False); [| |intros ? ? []].
  - unfold uses_ai. destruct (client self && use_ai (config self) && ai_enabled self).
    + apply wp_bind.
      eapply wp_mono;
        [exact (ai_content_wp I E self request _ same_books s s1 same_books_tolerates H1)
        | | intros ? ? []].
      intros s2 r [Hbooks Hok]. apply wp_bind, wp_modify, wp_ret.
      destruct Hbooks as (Hc & Ha & Hh & Hf & Hfiles & Hdirs).
      unfold counters. books_simpl. rewrite Hc, Ha, Hh, Hf, Hfiles, Hdirs.
      split; [by split_and! | split; [exact Hok | reflexivity]].
    + apply wp_bind, wp_fallback, wp_bind, wp_modify, wp_ret.
      unfold counters, s1. books_simpl. cbn [success model_used tokens_used content].
      split; [by split_and!|]. split; [reflexivity|].
      split; [reflexivity|]. split; [reflexivity|]. split; reflexivity.
  - intros s2 r ((Hc & Hh & Hfiles & Hdirs) & Hok & Hcount).
    rewrite <- Hrequest.
    destruct (enable_cache (config self)).
    + apply wp_bind, wp_modify, wp_ret. unfold counters in *. books_simpl.
      rewrite Hc. split; [exact Hfiles|]. split; [exact Hdirs|].
      split; [exact Hok|]. split; [reflexivity|]. exact Hcount.
    + apply wp_bind, wp_ret, wp_ret.
      split; [exact Hfiles|]. split; [exact Hdirs|].
      split; [exact Hok|]. split; [exact Hc|]. exact Hcount.
Qed.

Lemma generate_content_returns content_type topic module_config extra_context s :
  exists s' r, generate content_type topic module_config extra_context s = (s', Ok r).
Proof.
  destruct (wp_total _ _ _
              (generate_content_books content_type topic module_config extra_context s))
    as (s' & r & Hrun & _).
  by exists s', r.
Qed.

Lemma total_calls_counters s a h f :
  counters s = (a, h, f) -> total_calls (get_generation_stats s) = (a + h + f)%nat.
Proof. unfold counters. by intros [= <- <- <-]. Qed.

Lemma run_call_total (c : Call) (s : State) :
  total_calls (get_generation_stats (fst (run_call c s))) =
  S (total_calls (get_generation_stats s)).
Proof.
  unfold run_call.
  pose proof (generate_content_books (call_content_type c) (call_topic c) (call_module c)
                (call_extra c) s) as Hwp.
  unfold wp in Hwp.
  destruct (generate _ _ _ _ s) as [s' [r|e]]; [|done]. cbn [fst].
  destruct Hwp as (_ & _ & Hcase).
  destruct (cache_lookup _ _ _ s).
  - destruct Hcase as (_ & _ & Hcount). rewrite (total_calls_counters _ _ _ _ Hcount).
    cbn. lia.
  - destruct Hcase as (_ & _ & Hcount). destruct uses_ai.
    + rewrite (total_calls_counters _ _ _ _ Hcount). cbn. lia.
    + destruct Hcount as [Hcount _]. rewrite (total_calls_counters _ _ _ _ Hcount). cbn. lia.
Qed.




End BooksFacts.

(** A generator is created without an AI client when AI is not asked for,
    no key is given, or no client library is loaded. *)
Lemma init_without_ai (E : Env) (cfg : Content.GenerationConfig) :
  Content.use_ai cfg = false \/ Content.truthy_opt (Content.openai_api_key cfg) = false \/
  env_client_type E = None ->
  uses_ai (Content.ContentGenerator_init E cfg) = false.
Proof.
  unfold Content.ContentGenerator_init, uses_ai.
  intros [-> | [-> | ->]]; [done | by rewrite andb_false_r | ].
  rewrite bool_decide_eq_false_2; [by rewrite andb_false_r | by intros [? ?]].
Qed.



(** ** The request to the provider *)

Section RequestFacts.
Variable I : Interp.
Variable E : Env.
Variable self : Content.ContentGenerator.
Import Content.
Local Abbreviation requested_model := (requested_model self).
Local Abbreviation optimized_prompt := (optimized_prompt E).
Local Abbreviation answers_request := (answers_request E self).

Lemma ai_attempt_request request start_time ct reply text rest s :
  answers_request request (Ok reply) ->
  Validation.Qltb (rate_limit_delay (config self)) 0 = false ->
  env_client_type E = Some ct ->
  choices reply = ChatMessage (Some text) :: rest ->
  wp (ai_attempt E self request (env_create_prompt E request) start_time)
     (fun s' r =>
        content r = finish (req_content_type request) (py_strip text) /\
        tokens_used r = reply_tokens reply /\
        model_used r = openai_model (config self))
     (fun _ _ => False) s.
Proof.
  intros Hans Hdelay Hct Hchoices.
  unfold ai_attempt, sleep. cbv zeta. rewrite Hdelay, Hct.
  apply wp_bind, wp_ask, wp_bind.
  unfold _optimize_prompt_for_cost. apply wp_bind, wp_modify, wp_ret.
  apply wp_bind.
  unfold _get_cost_optimal_model. apply wp_bind, wp_get_state.
  cbn [_current_content_type set_current_content_type set_tick].
  unfold answers_request, requested_model, optimized_prompt in Hans.
  destruct (bool_decide (openai_model (config self) = u "gpt-4") &&
            negb (str_in (req_content_type request) [u "learning_path"; u "project_assignment"]));
    apply wp_ret, wp_bind, wp_ask; rewrite Hans;
    apply wp_bind, wp_ret, wp_bind;
    unfold reply_content, first_choice; rewrite Hchoices;
    apply wp_bind, wp_ret;
    (destruct ct; apply wp_ret, wp_bind, wp_ask, wp_ret;
     unfold finish; cbn [content model_used tokens_used]; by split_and!).
Qed.

(** X11: the request to the provider names the cost-optimal model (the
    cheaper one when "gpt-4" is configured and the content type is neither
    "learning_path" nor "project_assignment"), the system prompt of the
    content type, the prompt with its optimisation prefix and the token limit
    of the content type.  When the provider answers that request with a text,
    the response carries the text, stripped and, for the six Python content
    types, reduced to its code block, and the tokens of the reply; it reports
    the configured model as [model_used], also when the request named the
    cheaper one. *)
Theorem provider_request_and_reported_model (request : ContentGenerationRequest)
    (start_time : Z) (ct : ClientType) (reply : Reply) (text : pystr) (rest : list Choice)
    (s : State) :
  answers_request request (Ok reply) ->
  Validation.Qltb (rate_limit_delay (config self)) 0 = false ->
  env_client_type E = Some ct ->
  choices reply = ChatMessage (Some text) :: rest ->
  exists s' r,
    _generate_ai_content I E self request start_time s = (s', Ok r) /\
    content r = finish (req_content_type request) (py_strip text) /\
    tokens_used r = reply_tokens reply /\
    model_used r = openai_model (config self) /\
    (openai_model (config self) = u "gpt-4" ->
     str_in (req_content_type request) [u "learning_path"; u "project_assignment"] = false ->
     requested_model (req_content_type request) = u "gpt-3.5-turbo").
Proof.
  intros Hans Hdelay Hct Hchoices.
  assert (Hwp : wp (_generate_ai_content I E self request start_time)
                  (fun _ r =>
                     content r = finish (req_content_type request) (py_strip text) /\
                     tokens_used r = reply_tokens reply /\
                     model_used r = openai_model (config self))
                  (fun _ _ => False) s).
  { unfold _generate_ai_content. cbv zeta. apply wp_try_except.
    eapply wp_mono; [by eapply ai_attempt_request | done | intros ? ? []]. }
  destruct (wp_total _ _ _ Hwp) as (s' & r & Hrun & Hc & Ht & Hm).
  exists s', r. split_and!; try done.
  intros Hmodel Hsimple. unfold requested_model.
  rewrite Hsimple. cbn [negb]. rewrite andb_true_r.
  by rewrite bool_decide_eq_true_2.
Qed.

End RequestFacts.

Lemma provider_request_and_reported_model_witness :
  exists s' r,
    Content._generate_ai_content Sample.interp
      (Sample.env_model_only (u "gpt-3.5-turbo") (Ok Sample.code_reply))
      {| Content.config := Sample.config_ai; Content.client := true;
         Content.ai_enabled := true |}
      Sample.code_request 0 initial_state = (s', Ok r) /\
    content r = u "print(42)" /\
    model_used r = u "gpt-4".
Proof.
  destruct (provider_request_and_reported_model Sample.interp
              (Sample.env_model_only (u "gpt-3.5-turbo") (Ok Sample.code_reply))
              {| Content.config := Sample.config_ai; Content.client := true;
                 Content.ai_enabled := true |}
              Sample.code_request 0 Modern Sample.code_reply (u " print(42) ") []
              initial_state)
    as (s' & r & Hrun & Hcontent & _ & Hmodel & _).
  - intros t. vm_compute. reflexivity.
  - reflexivity.
  - reflexivity.
  - reflexivity.
  - exists s', r. split; [exact Hrun|]. split.
    + rewrite Hcontent. vm_compute. reflexivity.
    + rewrite Hmodel. reflexivity.
Defined.

(** ** Code blocks *)

Section CodeBlockFacts.
Import Content.

Lemma fence_chars : fence = [96; 96; 96].
Proof. vm_compute. reflexivity. Qed.

Lemma fence_not_empty : fence <> [].
Proof. discriminate. Qed.

Lemma until_fence_none (acc s : pystr) :
  contains fence s = false -> until_fence acc s = None.
Proof.
  revert acc. induction s as [|c s IH]; intros acc H; [done|].
  cbn [contains] in H. apply orb_false_iff in H as [Hstart Hrest].
  cbn [until_fence]. rewrite Hstart. by apply IH.
Qed.

(** The text in front of the first fence holds no fence. *)
Lemma until_fence_some (acc s block rest : pystr) :
  until_fence acc s = Some (block, rest) ->
  exists pre, block = rev acc ++ pre /\ s = pre ++ fence ++ rest /\
              contains fence pre = false.
Proof.
  revert acc. induction s as [|c s IH]; intros acc H; [done|].
  cbn [until_fence] in H. destruct (startswith fence (c :: s)) eqn:Hstart.
  - injection H as <- <-. exists []. rewrite app_nil_r. split; [done|]. split; [|done].
    apply startswith_iff in Hstart as [r Hr]. rewrite fence_chars in Hr |- *.
    simpl in Hr. injection Hr as -> ->. reflexivity.
  - destruct (IH _ H) as (pre & -> & Hs & Hpre). exists (c :: pre).
    split; [simpl; by rewrite <- app_assoc|]. split; [by rewrite Hs|].
    cbn [contains]. rewrite Hpre, orb_false_r.
    destruct (startswith fence (c :: pre)) eqn:Hc; [|done].
    apply startswith_iff in Hc as [r Hr].
    assert (Htrue : startswith fence (c :: s) = true); [|congruence].
    apply startswith_iff. exists (r ++ fence ++ rest).
    rewrite Hs, app_comm_cons, Hr. by rewrite <- app_assoc.
Qed.

Lemma code_blocks_no_fence (fuel : nat) (s : pystr) :
  Forall (fun block => contains fence block = false) (code_blocks fuel s).
Proof.
  revert s. induction fuel as [|fuel IH]; intros s; [constructor|].
  cbn [code_blocks].
  destruct (until_fence [] s) as [[pre opened]|]; [|constructor].
  destruct (until_fence [] (skip_language opened)) as [[block rest]|] eqn:Hblock;
    [|constructor].
  constructor; [|apply IH].
  by destruct (until_fence_some _ _ _ _ Hblock) as (b & -> & _ & Hb).
Qed.

Lemma code_blocks_nil (fuel : nat) (s : pystr) :
  contains fence s = false -> code_blocks fuel s = [].
Proof. intros H. destruct fuel; [done|]. cbn [code_blocks]. by rewrite until_fence_none. Qed.

Lemma longest_In (best : pystr) (l : list pystr) : In (longest best l) (best :: l).
Proof.
  revert best. induction l as [|x l IH]; intros best; [by left|].
  cbn [longest]. destruct (IH (if (length best <? length x)%nat then x else best)) as [H|H].
  - rewrite <- H. destruct (length best <? length x)%nat; [right; by left | by left].
  - right. by right.
Qed.

(** X12: [_extract_code_from_markdown] returns a text without a fence as
    it is; when it finds code blocks, what it returns holds no fence; so
    extracting twice is the same as extracting once. *)
Theorem extract_code_from_markdown_idempotent (content : pystr) :
  (contains fence content = false -> _extract_code_from_markdown content = content) /\
  (code_blocks (length content) content <> [] ->
   contains fence (_extract_code_from_markdown content) = false) /\
  _extract_code_from_markdown (_extract_code_from_markdown content)
    = _extract_code_from_markdown content.
Proof.
  assert (Hplain : forall c, contains fence c = false -> _extract_code_from_markdown c = c).
  { intros c Hc. unfold _extract_code_from_markdown. by rewrite code_blocks_nil. }
  assert (Hfound : code_blocks (length content) content <> [] ->
                   contains fence (_extract_code_from_markdown content) = false).
  { intros Hne. unfold _extract_code_from_markdown.
    pose proof (code_blocks_no_fence (length content) content) as Hall.
    destruct (code_blocks (length content) content) as [|m ms]; [done|].
    apply contains_strip_by; [apply fence_not_empty|].
    rewrite Forall_forall in Hall. apply Hall, list_elem_of_In, longest_In. }
  split; [apply Hplain|]. split; [exact Hfound|].
  destruct (code_blocks (length content) content) as [|m ms] eqn:Hblocks.
  - assert (Hsame : _extract_code_from_markdown content = content).
    { unfold _extract_code_from_markdown. by rewrite Hblocks. }
    by rewrite !Hsame.
  - by apply Hplain, Hfound.
Qed.

End CodeBlockFacts.

(** * Further properties of the quality pass and of lesson generation
      (quality.py, core.py, models.py) *)

(** ** The quality score *)

Section ScoreFacts.
Import Quality.

(** X13: the quality score is at most ten tenths; it is at least five
    tenths, the threshold of the quality gate, when the Python files are
    valid and the tests executable, and also when the tests are executable
    and the three required files exist; a valid syntax and executable tests
    never lower it. *)
Theorem calculate_quality_score_bounds (valid executable : bool) (m : option Metrics) :
  (_calculate_quality_score valid executable m <= 10)%nat /\
  (valid = true -> executable = true ->
   (5 <= _calculate_quality_score valid executable m)%nat) /\
  (executable = true ->
   metrics_get m has_readme false = true ->
   metrics_get m has_requirements false = true ->
   metrics_get m has_makefile false = true ->
   (5 <= _calculate_quality_score valid executable m)%nat) /\
  (_calculate_quality_score false executable m <= _calculate_quality_score true executable m)%nat /\
  (_calculate_quality_score valid false m <= _calculate_quality_score valid true m)%nat.
Proof.
  unfold _calculate_quality_score. cbv zeta.
  split; [apply Nat.le_min_r|].
  split; [intros -> ->|split; [intros -> -> -> ->|split]];
    repeat match goal with
           | |- context [if ?b then _ else _] => destruct b
           end; simpl; lia.
Qed.

End ScoreFacts.

(** ** The quality pass *)

Section QualityFacts.
Variable E : Env.
Import Quality.


End QualityFacts.

(** ** Modules and lessons *)

Lemma foldr_add_map {A} (f : A -> nat) (l : list A) :
  foldr (fun x n => (f x + n)%nat) 0%nat l = list_sum (map f l).
Proof. induction l as [|x l IH]; simpl; [done | by rewrite IH]. Qed.

Section LessonFacts.
Variable I : Interp.
Variable E : Env.
Variable cfg : Content.GenerationConfig.
Import Content Quality Core.
Local Abbreviation has_file_set := (has_file_set I).
Local Abbreviation lesson_dir_of := (lesson_dir_of cfg).
Local Abbreviation config_paths := (config_paths I cfg).
Local Abbreviation topic_valid := (topic_valid I).
Local Abbreviation module_outcome := (module_outcome I E).

(** X15: [_generate_module] never raises: whatever fails while the files
    of a module are made is reported in the result.  The result carries the
    name of the module and every file it lists is in storage; a successful
    result has the whole file set of the module and no error, a failed one
    has no file and the message of the exception that storage raised when it
    refused the module directory or a last write. *)
Theorem generate_module_contains_failures (topic : TopicConfig.t) (m : ModuleConfig.t)
    (lesson_dir : pystr) (s : State) :
  exists s' mr,
    _generate_module I E cfg topic m lesson_dir s = (s', Ok mr) /\
    grows s s' /\
    ModuleGenerationResult.module_name mr = ModuleConfig.name m /\
    Forall (stored s') (ModuleGenerationResult.files mr) /\
    (if ModuleGenerationResult.success mr
     then has_file_set lesson_dir m mr /\ ModuleGenerationResult.error mr = None
     else ModuleGenerationResult.files mr = [] /\
          exists e,
            ModuleGenerationResult.error mr = Some (exn_msg e) /\
            (mkdir_refused E (module_dir_of I lesson_dir m) e \/
             last_resort_refused E m (module_dir_of I lesson_dir m) e)).
Proof.
  destruct (wp_total _ _ _ (generate_module_spec I E cfg topic m lesson_dir s))
    as (s' & mr & Hrun & Hg & Hst & Hout).
  exists s', mr. split; [exact Hrun|]. split; [exact Hg|].
  destruct Hout as [Hok|Hfail].
  - pose proof (module_ok_file_set I _ _ _ Hok) as Hset.
    destruct Hok as (Hname & Hs & Herr & _). rewrite Hs. by split_and!.
  - destruct Hfail as (Hname & Hs & Hfiles & e & Herr & Hcause). rewrite Hs.
    split_and!; try done. by exists e.
Qed.

Lemma outcomes_all_succeeded lesson_dir (ms : list ModuleConfig.t) mrs :
  Forall2 (module_outcome lesson_dir) ms mrs ->
  all_succeeded mrs = true ->
  Forall2 (has_file_set lesson_dir) ms mrs.
Proof.
  intros H. induction H as [|m mr ms mrs Hm _ IH]; intros Hall; [constructor|].
  unfold all_succeeded in Hall. simpl in Hall. apply andb_true_iff in Hall as [Hmr Hrest].
  constructor; [|by apply IH].
  destruct Hm as [Hok|(_ & Hfail & _)]; [by apply module_ok_file_set | congruence].
Qed.

Lemma successful_lesson (topic : TopicConfig.t) (s s' : State)
    (r : LessonGenerationResult.t) :
  generate_lesson I E cfg topic s = (s', Ok r) ->
  LessonGenerationResult.success r = true ->
  topic_valid topic = true /\
  LessonGenerationResult.error r = None /\
  Forall2 (has_file_set (lesson_dir_of topic)) (TopicConfig.modules topic)
    (LessonGenerationResult.modules r) /\
  map gf_path (LessonGenerationResult.config_files r) = config_paths topic /\
  Forall (stored s') (LessonGenerationResult.config_files r) /\
  exists q, LessonGenerationResult.quality_report r = Some q /\
            (5 <= quality_score_tenths q)%nat.
Proof.
  intros Hrun Hok.
  destruct (generate_lesson_outcome I E cfg topic s s' r Hrun) as [_ Hout].
  destruct Hout as [? ? Hs|e ? ? ? Hs|m ? ? ? ? Hs|q Hvalid Hmods _ Hall Hpaths Hst Hq Hgate];
    try congruence.
  destruct (quality_score_tenths q <? 5)%nat eqn:Hlow; [destruct Hgate; congruence|].
  destruct Hgate as [_ Herr]. apply Nat.ltb_ge in Hlow.
  split; [exact Hvalid|]. split; [exact Herr|].
  split; [by apply outcomes_all_succeeded|]. split; [exact Hpaths|].
  split; [exact Hst|]. by exists q.
Qed.

(** X16: [generate_lesson] never raises, and removes nothing from storage.
    A result with [success = True] means all of this: the topic passed
    validation, there is no error message, every module has a successful
    result with the whole file set of its type, the six configuration files
    were written, and the quality report has a score of at least 0.5. *)
Theorem generate_lesson_success (topic : TopicConfig.t) (s : State) :
  exists s' r,
    generate_lesson I E cfg topic s = (s', Ok r) /\
    grows s s' /\
    (LessonGenerationResult.success r = true ->
     topic_valid topic = true /\
     LessonGenerationResult.error r = None /\
     Forall2 (has_file_set (lesson_dir_of topic)) (TopicConfig.modules topic)
       (LessonGenerationResult.modules r) /\
     map gf_path (LessonGenerationResult.config_files r) = config_paths topic /\
     Forall (stored s') (LessonGenerationResult.config_files r) /\
     exists q, LessonGenerationResult.quality_report r = Some q /\
               (5 <= quality_score_tenths q)%nat).
Proof.
  destruct (wp_total _ _ _ (generate_lesson_spec I E cfg topic s))
    as (s' & r & Hrun & Hg & _).
  exists s', r. split; [exact Hrun|]. split; [exact Hg|].
  exact (successful_lesson topic s s' r Hrun).
Qed.

(** X17: an invalid topic is refused before anything is made.  The run
    reads the clock twice and does nothing else: storage, the cache and the
    counters are as before; the result has [success = False], no modules, no
    configuration files, no quality report, the output directory of the
    configuration as its path and the error "Topic validation failed: "
    followed by the errors of the validator, separated by "; ". *)
Theorem generate_lesson_rejects_invalid_topic (topic : TopicConfig.t) (s : State) :
  topic_valid topic = false ->
  exists r,
    generate_lesson I E cfg topic s = (set_tick (S (S (tick s))) s, Ok r) /\
    LessonGenerationResult.success r = false /\
    LessonGenerationResult.modules r = [] /\
    LessonGenerationResult.config_files r = [] /\
    LessonGenerationResult.quality_report r = None /\
    LessonGenerationResult.output_path r = output_dir cfg /\
    LessonGenerationResult.error r =
      Some (u "Topic validation failed: " ++
            join (u "; ")
              (errors (Validation.validate_topic (interp_db I) (set_iter I) topic))).
Proof.
  intros Hinvalid. unfold topic_valid in Hinvalid.
  unfold generate_lesson. cbv zeta.
  unfold bind at 1. unfold ask at 1. unfold try_except.
  rewrite Hinvalid. cbn [negb]. unfold bind, ask, ret. cbn [tick set_tick].
  eexists. split; [reflexivity|].
  cbn [LessonGenerationResult.success LessonGenerationResult.modules
       LessonGenerationResult.config_files LessonGenerationResult.quality_report
       LessonGenerationResult.output_path LessonGenerationResult.error].
  split; [reflexivity|]. split; [reflexivity|]. split; [reflexivity|].
  split; [reflexivity|]. split; reflexivity.
Qed.

(** X18: the counts of a lesson result.  The successful modules are never
    more than the modules; when [generate_lesson] returns a successful
    result, every module of the topic has a successful result, and the
    total number of files is the sum of the file sets of the modules, eight
    for a starter, assignment or project module and one for an extra module,
    plus the six configuration files. *)
Theorem lesson_result_counts (topic : TopicConfig.t) (s s' : State)
    (r : LessonGenerationResult.t) :
  generate_lesson I E cfg topic s = (s', Ok r) ->
  (LessonGenerationResult.successful_modules r <= LessonGenerationResult.total_modules r)%nat /\
  (LessonGenerationResult.success r = true ->
   LessonGenerationResult.total_modules r = length (TopicConfig.modules topic) /\
   LessonGenerationResult.successful_modules r = length (TopicConfig.modules topic) /\
   LessonGenerationResult.total_files r =
     (list_sum (map (fun m => expected_count (ModuleConfig.type m)) (TopicConfig.modules topic))
      + 6)%nat).
Proof.
  intros Hrun. split.
  { unfold LessonGenerationResult.successful_modules, LessonGenerationResult.total_modules.
    apply List.filter_length_le. }
  intros Hok.
  destruct (successful_lesson topic s s' r Hrun Hok) as (_ & _ & Hsets & Hpaths & _).
  unfold LessonGenerationResult.successful_modules, LessonGenerationResult.total_modules,
    LessonGenerationResult.total_files.
  assert (Hlen : length (LessonGenerationResult.modules r) = length (TopicConfig.modules topic)).
  { pose proof Hsets as Hl. apply Forall2_length in Hl. by symmetry. }
  assert (Hall : List.filter ModuleGenerationResult.success (LessonGenerationResult.modules r)
                 = LessonGenerationResult.modules r).
  { clear Hlen. induction Hsets as [|m mr ms mrs (Hs & _) _ IH]; [done|].
    simpl. by rewrite Hs, IH. }
  rewrite Hall. split; [exact Hlen|]. split; [exact Hlen|].
  rewrite foldr_add_map. f_equal.
  - clear Hlen Hall. induction Hsets as [|m mr ms mrs (_ & _ & Hcount) _ IH]; [done|].
    simpl. by rewrite Hcount, IH.
  - rewrite <- (length_map gf_path), Hpaths. unfold config_paths.
    rewrite length_map. reflexivity.
Qed.

End LessonFacts.

Lemma generate_lesson_rejects_invalid_topic_witness :
  exists r,
    Core.generate_lesson Sample.interp Sample.env Sample.config_no_ai (Sample.topic_with [])
      initial_state = (set_tick 2 initial_state, Ok r) /\
    LessonGenerationResult.success r = false.
Proof.
  destruct (generate_lesson_rejects_invalid_topic Sample.interp Sample.env
              Sample.config_no_ai (Sample.topic_with []) initial_state)
    as (r & Hrun & Hfail & _).
  - vm_compute. reflexivity.
  - exists r. split; [exact Hrun | exact Hfail].
Defined.

(** ** The quality gate *)

Ltac lesson_simpl :=
  cbn [LessonGenerationResult.modules LessonGenerationResult.success
       LessonGenerationResult.error LessonGenerationResult.config_files
       LessonGenerationResult.quality_report LessonGenerationResult.output_path
       LessonGenerationResult.with_modules LessonGenerationResult.with_success
       LessonGenerationResult.with_error LessonGenerationResult.with_config_files
       LessonGenerationResult.with_quality_report
       LessonGenerationResult.with_generation_time] in *.

Section PathFacts.
Import Quality.

Lemma split_on_app_sep (sep : char) (a b : pystr) :
  split_on sep (a ++ sep :: b) = split_on sep a ++ split_on sep b.
Proof.
  induction a as [|c a IH]; simpl.
  - by rewrite N.eqb_refl.
  - destruct (c =? sep); [by rewrite IH|].
    rewrite IH. pose proof (split_on_not_nil sep a) as Hne.
    by destruct (split_on sep a).
Qed.

Lemma split_on_no_sep (sep : char) (b : pystr) :
  ~ In sep b -> split_on sep b = [b].
Proof.
  induction b as [|c b IH]; intros Hno; simpl; [done|].
  destruct (c =? sep) eqn:Hc.
  - apply N.eqb_eq in Hc. exfalso. apply Hno. by left.
  - rewrite IH; [done|]. intros Hin. apply Hno. by right.
Qed.

Lemma basename_path_join (dir name : pystr) :
  ~ In 47 name -> basename (path_join dir name) = name.
Proof.
  intros Hno. unfold basename, path_join.
  change (u "/" ++ name) with (47 :: name).
  rewrite split_on_app_sep. rewrite (split_on_no_sep 47 name Hno).
  apply List.last_last.
Qed.

Lemma under_path_join (dir name : pystr) : under dir (path_join dir name) = true.
Proof. unfold under, path_join. rewrite app_assoc. apply startswith_app. Qed.

Lemma under_path_join_2 (dir sub name : pystr) :
  under dir (path_join (path_join dir sub) name) = true.
Proof.
  unfold under, path_join. rewrite <- !app_assoc.
  rewrite (app_assoc dir (u "/")). apply startswith_app.
Qed.

Lemma validate_tests_found (fs : gmap pystr pystr) (lesson_path p : pystr) :
  is_Some (fs !! p) -> under lesson_path p = true -> is_test_file p = true ->
  _validate_tests fs lesson_path = true.
Proof.
  intros [c Hc] Hunder Htest. unfold _validate_tests, tree.
  apply existsb_exists. exists (p, c). split; [|exact Htest].
  apply filter_In. split; [|exact Hunder].
  apply list_elem_of_In. by apply elem_of_map_to_list.
Qed.

Lemma quality_score_required_files (valid : bool) (m : Metrics) :
  has_readme m = true -> has_requirements m = true -> has_makefile m = true ->
  (5 <= _calculate_quality_score valid true (Some m))%nat.
Proof.
  intros H1 H2 H3. unfold _calculate_quality_score. cbv zeta.
  cbn [metrics_get]. rewrite H1, H2, H3.
  repeat match goal with |- context [if ?b then _ else _] => destruct b end; simpl; lia.
Qed.

End PathFacts.

Section GateFacts.
Variable I : Interp.
Variable E : Env.
Variable cfg : Content.GenerationConfig.
Import Content Quality Core.
Local Abbreviation has_file_set := (has_file_set I).
Local Abbreviation lesson_dir_of := (lesson_dir_of cfg).
Local Abbreviation config_paths := (config_paths I cfg).
Local Abbreviation topic_valid := (topic_valid I).
Local Abbreviation module_outcome := (module_outcome I E).
Local Abbreviation loop_inv := (loop_inv I E).
Local Abbreviation failed_report := failed_report.
Local Abbreviation scan_report := (scan_report E).
Local Abbreviation report_of_storage := (report_of_storage E).

Lemma validate_lesson_run (lesson_path : pystr) (s : State) :
  validate_lesson E lesson_path s =
    (set_tick (S (tick s)) s,
     Ok match env_qa_fault E (tick s) with
        | Some e => failed_report lesson_path e
        | None => scan_report lesson_path s
        end).
Proof.
  unfold validate_lesson, bind, ask, get_state, ret.
  destruct (env_qa_fault E (tick s)) as [e|]; [reflexivity|].
  unfold scan_report, _calculate_quality_metrics. cbn [files dirs set_tick].
  reflexivity.
Qed.

Lemma quality_gate_report (lesson_dir : pystr) (r : LessonGenerationResult.t) (s : State) :
  wp (quality_gate E lesson_dir r)
     (fun s' r' => files s' = files s /\ dirs s' = dirs s /\
                   forall q, LessonGenerationResult.quality_report r' = Some q ->
                     q = match env_qa_fault E (tick s) with
                         | Some e => failed_report lesson_dir e
                         | None => scan_report lesson_dir s
                         end)
     (fun _ _ => False) s.
Proof.
  unfold quality_gate. cbv zeta. apply wp_bind.
  unfold wp at 1. rewrite validate_lesson_run.
  destruct (quality_score_tenths _ <? 5)%nat; apply wp_ret;
    (split; [reflexivity|]); (split; [reflexivity|]);
    intros q Hq; lesson_simpl; by injection Hq as <-.
Qed.

Lemma generate_lesson_report_spec topic s :
  wp (generate_lesson I E cfg topic)
     (fun s' r => report_of_storage (lesson_dir_of topic) s' r)
     (fun _ _ => False) s.
Proof.
  assert (Hnone : forall s' r, LessonGenerationResult.quality_report r = None ->
                               report_of_storage (lesson_dir_of topic) s' r).
  { intros s' r Hr q Hq. congruence. }
  unfold generate_lesson. cbv zeta.
  apply wp_bind, wp_ask.
  fold (topic_valid topic). fold (lesson_dir_of topic).
  destruct (topic_valid topic) eqn:Hvalid; cbn [negb].
  2: { apply wp_try_except, wp_bind, wp_ask, wp_ret. by apply Hnone. }
  apply wp_try_except.
  apply wp_mono with
    (Q := fun s' r => report_of_storage (lesson_dir_of topic) s' r)
    (Qx := fun _ _ => True).
  2: done.
  2: { intros s' e _. apply wp_bind, wp_ask, wp_bind, wp_ask, wp_ret. by apply Hnone. }
  apply wp_bind.
  eapply wp_mono; [apply resolve_templates_spec | | done].
  intros s1 [] _. apply wp_bind.
  eapply wp_mono; [apply (mkdir_spec E _ s1 s1 (grows_refl s1)) | | done].
  intros s2 [] _. apply wp_bind, wp_ask, wp_bind.
  set (s3 := set_tick (S (tick s2)) s2).
  eapply wp_mono;
    [apply (module_loop_spec I E cfg topic (lesson_dir_of topic) (TopicConfig.modules topic) []
              _ s3) | | done].
  { unfold loop_inv. lesson_simpl. split_and!; try done; constructor. }
  intros s4 r4 [_ Hinv].
  destruct Hinv as (_ & _ & _ & _ & _ & _ & Hqa).
  destruct (LessonGenerationResult.success r4) eqn:Hok.
  - apply wp_bind, wp_bind.
    eapply wp_mono; [apply config_files_spec | | done].
    intros s5 written _. apply wp_ret.
    lesson_simpl. rewrite Hok. apply wp_bind.
    eapply wp_mono; [apply quality_gate_report | | done].
    intros s6 r6 (Hfiles & Hdirs & Hrep).
    apply wp_bind, wp_ask, wp_ret.
    intros q Hq. lesson_simpl. exists s5.
    cbn [files dirs set_tick]. split; [by symmetry|]. split; [by symmetry|].
    by apply Hrep.
  - apply wp_bind, wp_ret. rewrite Hok. apply wp_bind, wp_ret, wp_bind, wp_ask, wp_ret.
    apply Hnone. lesson_simpl. exact Hqa.
Qed.

Lemma count_type_positive (ty : ModuleType) (ms : list ModuleConfig.t) :
  Validation.count_type ty ms <> 0%nat -> exists m, In m ms /\ ModuleConfig.type m = ty.
Proof.
  unfold Validation.count_type. induction ms as [|m ms IH]; simpl; [done|].
  destruct (bool_decide (ModuleConfig.type m = ty)) eqn:Hm.
  - intros _. exists m. split; [by left | by apply bool_decide_eq_true in Hm].
  - intros H. destruct (IH H) as (m' & Hin & Hty). exists m'. split; [by right | done].
Qed.

Lemma no_module_error (topic : TopicConfig.t) :
  TopicConfig.modules topic = [] ->
  In (u "At least 1 module is required")
     (errors (Validation.validate_topic (interp_db I) (set_iter I) topic)).
Proof.
  intros Hnil. unfold Validation.validate_topic. cbv zeta. cbn [errors].
  rewrite !in_app_iff. do 7 right. left. rewrite Hnil. by left.
Qed.

Lemma valid_topic_has_starter (topic : TopicConfig.t) :
  topic_valid topic = true ->
  exists m, In m (TopicConfig.modules topic) /\ ModuleConfig.type m = STARTER.
Proof.
  intros Hvalid. unfold topic_valid in Hvalid.
  apply count_type_positive. intros Hcount.
  destruct (TopicConfig.modules topic) as [|m0 ms] eqn:Hmods.
  - pose proof (error_rejects _ _ _ _ (no_module_error topic Hmods)) as H. congruence.
  - assert (Hne : TopicConfig.modules topic <> []) by (by rewrite Hmods).
    rewrite <- Hmods in Hcount.
    pose proof (error_rejects _ _ _ _
                  (no_starter_error (interp_db I) (set_iter I) topic Hne Hcount)) as H.
    congruence.
Qed.

Lemma Forall2_In_l {A B} (P : A -> B -> Prop) (l : list A) (k : list B) (x : A) :
  Forall2 P l k -> In x l -> exists y, In y k /\ P x y.
Proof.
  induction 1 as [|a b l k Hab _ IH]; intros Hin; [destruct Hin|].
  destruct Hin as [->|Hin].
  - exists b. split; [by left | done].
  - destruct (IH Hin) as (y & Hy & Hxy). exists y. split; [by right | done].
Qed.

Lemma stored_path (s : State) (fs : list GeneratedFile) (p : pystr) :
  Forall (stored s) fs -> In p (map gf_path fs) -> is_Some (files s !! p).
Proof.
  intros Hall Hin. apply in_map_iff in Hin as (f & <- & Hf).
  rewrite Forall_forall in Hall. by apply Hall, list_elem_of_In.
Qed.


End GateFacts.

Lemma lesson_result_counts_witness :
  exists s' r,
    Core.generate_lesson Sample.interp Sample.env Sample.config_no_ai Sample.topic
      initial_state = (s', Ok r) /\
    LessonGenerationResult.success r = true /\
    LessonGenerationResult.successful_modules r = 1%nat /\
    LessonGenerationResult.total_files r = 14%nat.
Proof.
  assert (Hsuccess : (LessonGenerationResult.success <$>
                        Runs.returned (Core.generate_lesson Sample.interp Sample.env
                                         Sample.config_no_ai Sample.topic initial_state))
                     = Some true) by (vm_compute; reflexivity).
  unfold Runs.returned in Hsuccess.
  destruct (Core.generate_lesson Sample.interp Sample.env Sample.config_no_ai Sample.topic
              initial_state) as [s' [r|e]] eqn:Hrun; [|discriminate Hsuccess].
  cbn [snd fmap option_fmap option_map] in Hsuccess. injection Hsuccess as Hok.
  exists s', r. split; [reflexivity|]. split; [exact Hok|].
  destruct (lesson_result_counts Sample.interp Sample.env Sample.config_no_ai Sample.topic
              initial_state s' r Hrun) as [_ Hcounts].
  destruct (Hcounts Hok) as (_ & Hmods & Hfiles).
  split; [exact Hmods | exact Hfiles].
Defined.

